(** * Bybit terminal: the main window's update loop, tables, filters and commands

    A shallow embedding of [src/main_window.py] (class [MainWindow]).

    - The window is a record of the attributes the methods read and write;
      a method is a function in a small state-and-exception monad that
      also lists, in order, what the method does to the outside: calls to
      the collaborators (position manager, order manager, session manager,
      data manager, chart, dialog, web socket), log lines and message
      boxes.
    - The collaborators are a record of answers; an answer may depend on
      the number of calls made before, so that the same call can succeed
      once and fail later.
    - Python values are a small inductive type with Python's [==], truth
      test, [float()], item access and iteration.  Floats are idealised as
      exact rationals (no NaN, no rounding); the text of an f-string is
      kept as the list of its pieces, so that no float formatting has to
      be imitated; strings are sequences of character codes below 256.
    - A dict is the list of its items in insertion order; the dicts of
      Python have distinct keys, which the statements ask for where they
      need it ([NoDup (keys d)]).
    - [try: ... except Exception] is [try_except]; what was changed before
      the exception stays changed.
    - The symbol box is an editable [QComboBox] with the slots the class
      connects to it: a method that changes the text of the box runs them.
    - The selection of a position (the buttons of the panel and the label
      of the details) is a small record of its own, with its methods as
      functions on it. *)

From Stdlib Require Import List String Ascii ZArith QArith Bool Lia Sorted.
From stdpp Require Import base list strings gmap.
Import ListNotations.

Open Scope string_scope.
Open Scope list_scope.

(** ** Python values *)

#[local] Unset Elimination Schemes.
Inductive pyval : Type :=
| PyNone
| PyNum (q : Q)                          (* int and float alike *)
| PyStr (s : string)
| PyList (l : list pyval)
| PyDict (d : list (string * pyval)).    (* items in insertion order *)
#[local] Set Elimination Schemes.

(** A Python dict with string keys, in insertion order. *)
Definition dict (V : Type) : Type := list (string * V).

Definition keys {V} (d : dict V) : list string := map fst d.

(** [d.get(k)]: the binding written last wins. *)
Fixpoint dict_get {V} (d : dict V) (k : string) : option V :=
  match d with
  | [] => None
  | (k', v) :: d' =>
      match dict_get d' k with
      | Some x => Some x
      | None => if String.eqb k' k then Some v else None
      end
  end.

(** [d[k] = v]: an existing key keeps its place, a new key goes last. *)
Fixpoint dict_set {V} (d : dict V) (k : string) (v : V) : dict V :=
  match d with
  | [] => [(k, v)]
  | (k', v') :: d' =>
      if String.eqb k' k then (k', v) :: d' else (k', v') :: dict_set d' k v
  end.

(** [d.update(data)]. *)
Definition dict_update {V} (d data : dict V) : dict V :=
  fold_left (fun acc kv => dict_set acc (fst kv) (snd kv)) data d.

Section PyvalInduction.
Variable P : pyval -> Prop.
Hypothesis HNone : P PyNone.
Hypothesis HNum : forall q, P (PyNum q).
Hypothesis HStr : forall s, P (PyStr s).
Hypothesis HList : forall l, Forall P l -> P (PyList l).
Hypothesis HDict : forall d, Forall (fun kv => P (snd kv)) d -> P (PyDict d).

Fixpoint pyval_nested_ind (v : pyval) : P v :=
  match v with
  | PyNone => HNone
  | PyNum q => HNum q
  | PyStr s => HStr s
  | PyList l =>
      HList l ((fix go (l : list pyval) : Forall P l :=
                  match l with
                  | [] => @List.Forall_nil pyval P
                  | x :: l' => @List.Forall_cons pyval P x l' (pyval_nested_ind x) (go l')
                  end) l)
  | PyDict d =>
      HDict d ((fix go (d : list (string * pyval)) : Forall (fun kv => P (snd kv)) d :=
                  match d with
                  | [] => @List.Forall_nil _ _
                  | kv :: d' => @List.Forall_cons _ _ kv d' (pyval_nested_ind (snd kv)) (go d')
                  end) d)
  end.
End PyvalInduction.

Section Pairwise.
Context {A B : Type}.
Variable f : A -> B -> bool.

(** [f] holds of the items of two lists of one length, place by place. *)
Fixpoint pairwise (l : list A) (m : list B) : bool :=
  match l, m with
  | [], [] => true
  | x :: l', y :: m' => f x y && pairwise l' m'
  | _, _ => false
  end.
End Pairwise.

(** Python's [==] on these values: numbers by value, strings and lists
    item by item, dicts as sets of items (the order of the keys does not
    count). *)
Fixpoint py_eqb (a b : pyval) : bool :=
  match a, b with
  | PyNone, PyNone => true
  | PyNum x, PyNum y => Qeq_bool x y
  | PyStr s, PyStr t => String.eqb s t
  | PyList l, PyList m => pairwise py_eqb l m
  | PyDict l, PyDict m =>
      Nat.eqb (length l) (length m) &&
      forallb (fun kx => existsb (fun ky => String.eqb (fst kx) (fst ky) && py_eqb (snd kx) (snd ky)) m) l
  | _, _ => false
  end.

(** [a != b]. *)
Definition py_ne (a b : pyval) : bool := negb (py_eqb a b).

(** Truth value of an object, as tested by [if x:] and [not x]. *)
Definition py_truthy (v : pyval) : bool :=
  match v with
  | PyNone => false
  | PyNum q => negb (Qeq_bool q 0)
  | PyStr s => negb (String.eqb s "")
  | PyList l => match l with [] => false | _ => true end
  | PyDict d => match d with [] => false | _ => true end
  end.

(** ** Exceptions and outcomes *)

Inductive exn : Type :=
| KeyError (key : string)
| TypeError
| ValueError
| AttributeError (attr : string)
| ValidationError
| Failure (msg : string).      (* raised by a collaborator *)

Inductive outcome (A : Type) : Type :=
| Ok (a : A)
| Raise (e : exn).
Arguments Ok {A} a.
Arguments Raise {A} e.

(** [v[k]] for a string key. *)
Definition py_getitem (v : pyval) (k : string) : outcome pyval :=
  match v with
  | PyDict d => match dict_get d k with Some x => Ok x | None => Raise (KeyError k) end
  | _ => Raise TypeError
  end.

(** [v.get(k)] and [v.get(k, default)]. *)
Definition py_get (v : pyval) (k : string) (default : pyval) : outcome pyval :=
  match v with
  | PyDict d => Ok (match dict_get d k with Some x => x | None => default end)
  | _ => Raise (AttributeError "get")
  end.

(** [for x in v]: the items a loop over [v] visits. *)
Definition py_iter (v : pyval) : outcome (list pyval) :=
  match v with
  | PyList l => Ok l
  | PyDict d => Ok (map PyStr (keys d))
  | PyStr s => Ok (map (fun c => PyStr (String c EmptyString)) (list_ascii_of_string s))
  | _ => Raise TypeError
  end.

(** *** Decimal numerals, for [float(s)] on a string *)

Definition digit_of (c : ascii) : option Z :=
  let n := Z.of_nat (nat_of_ascii c) in
  if (48 <=? n)%Z && (n <=? 57)%Z then Some (n - 48)%Z else None.

(** Digits up to an optional point; [seen] tells whether a digit was read,
    [scale] counts the digits after the point. *)
Fixpoint parse_digits (s : string) (acc : Z) (scale : option positive) (seen : bool)
  : option (Z * positive) :=
  match s with
  | EmptyString =>
      if seen then Some (acc, match scale with Some p => p | None => 1%positive end)
      else None
  | String c s' =>
      match digit_of c with
      | Some d =>
          parse_digits s' (10 * acc + d)%Z
            (match scale with Some p => Some (10 * p)%positive | None => None end) true
      | None =>
          if Ascii.eqb c "."%char then
            match scale with
            | None => parse_digits s' acc (Some 1%positive) seen
            | Some _ => None
            end
          else None
      end
  end.

(** Plain decimal notation: an optional sign, digits, an optional point.
    Exponents, blanks, [inf] and [nan] are outside this model and are
    answered with [None] (a [ValueError] below). *)
Definition parse_decimal (s : string) : option Q :=
  let body sign rest :=
    match parse_digits rest 0 None false with
    | Some (m, p) => Some (Qmake (sign * m) p)
    | None => None
    end in
  match s with
  | String "-"%char rest => body (-1)%Z rest
  | String "+"%char rest => body 1%Z rest
  | _ => body 1%Z s
  end.

(** [float(v)]. *)
Definition py_float (v : pyval) : outcome Q :=
  match v with
  | PyNum q => Ok q
  | PyStr s => match parse_decimal s with Some q => Ok q | None => Raise ValueError end
  | _ => Raise TypeError
  end.

(** ** Text *)

(** The pieces of an f-string; [StrOf v] stands for [str(v)], [Fixed n q]
    for [q] formatted with [:.nf], [ExnText e] for [str(e)]. *)
Inductive piece : Type :=
| Lit (s : string)
| StrOf (v : pyval)
| Fixed (digits : nat) (q : Q)
| ExnText (e : exn).

Definition text : Type := list piece.

(** [f"{v:.nf}"]: numbers only. *)
Definition py_format_f (digits : nat) (v : pyval) : outcome piece :=
  match v with
  | PyNum q => Ok (Fixed digits q)
  | PyStr _ => Raise ValueError
  | _ => Raise TypeError
  end.

(** ** The window, its collaborators and the effect monad *)

(** A table row: the text of its cells and the object attached to the
    first cell with [setData(Qt.UserRole, ...)].  A row that was inserted
    and not filled has no cells. *)
Record row : Type := mkRow {
  cells : list text;
  user_data : option pyval
}.

(** The value bound to a keyword argument of a remote call: an object, or
    [str(v)] of an object. *)
Inductive kwarg : Type :=
| ArgVal (v : pyval)
| ArgStr (v : pyval).

(** A close request as the remote trading API receives it. *)
Record close_request : Type := mkCloseRequest {
  close_symbol : string;
  close_size : Q
}.

(** What the window does to the outside, in the order it does it.
    [Invoke] is a ghost event: one of the [_handle_*_update] methods was
    entered with that argument ([None] for a handler that takes none). *)
Inductive event : Type :=
| Invoke (widget_id : string) (arg : option pyval)
| LogInfo (t : text)
| LogError (t : text)
| ShowMessage (title : string) (t : text)
| ShowPopup
| UpdateAll
| GetPositions
| GetOrders
| GetWalletBalance
| ChartUpdatePrice (price : pyval)
| ChartUpdatePositionsAndOrders (positions orders : pyval)
| ExecSlTpDialog (symbol side : pyval) (entry_price size : Q) (current_tp current_sl : pyval)
| SetTradingStop (params : dict kwarg)
| HandleBybitError (response : pyval)
| CallUpdatePositions                 (* self.update_positions(), a missing method *)
| RemoteClose (request : close_request)
| WsSend (message : string)
| SaveWindowSettings (settings : pyval)  (* self.config.save_window_settings(settings) *)
| DataChangeSymbol (symbol : string)     (* self.data_manager.change_symbol(symbol) *)
| PositionChangeSymbol (symbol : string) (* self.position_manager.change_symbol(symbol) *)
| OrderChangeSymbol (symbol : string)    (* self.order_manager.change_symbol(symbol) *)
| StartFilterTimer                       (* self.filter_timer.start() *)
| LoadWindowSettings                     (* self.config.load_window_settings() *)
| ChartSetTheme (theme : string).        (* self.chart_widget.set_theme(theme) *)

(** The answers of the collaborators.  The first argument is the number of
    collaborator calls made before this one, so that the same call may be
    answered differently over time. *)
Record env : Type := mkEnv {
  update_all : nat -> outcome unit;                  (* data_manager.update_all() *)
  get_positions : nat -> outcome pyval;              (* position_manager.get_positions() *)
  get_orders : nat -> outcome pyval;                 (* order_manager.get_orders() *)
  get_wallet_balance : nat -> outcome pyval;         (* session_manager.get_wallet_balance() *)
  chart_update_price : nat -> pyval -> outcome unit;
  chart_update_positions_and_orders : nat -> pyval -> pyval -> outcome unit;
  sl_tp_dialog : nat -> bool * (pyval * pyval);      (* dialog.exec_(), dialog.get_values() *)
  set_trading_stop : nat -> dict kwarg -> outcome pyval;
  handle_bybit_error : nat -> pyval -> outcome unit;
  remote_close : nat -> close_request -> outcome pyval;
  ws_send : nat -> string -> outcome unit;
  config_save_window_settings : nat -> pyval -> outcome unit;
  data_change_symbol : nat -> string -> outcome unit;
  position_change_symbol : nat -> string -> outcome unit;
  order_change_symbol : nat -> string -> outcome unit;
  config_load_window_settings : nat -> outcome pyval;
  chart_set_theme : nat -> string -> outcome unit
}.

Record window : Type := mkWindow {
  _last_data : gmap string pyval;
  _widgets : list string;                  (* the keys of self._widgets *)
  _update_queue : list (dict pyval);       (* oldest first *)
  price_label : text;
  balance_label : text;
  positions_table : list row;
  orders_table : list row;
  _positions_update_needed : bool;
  _orders_update_needed : bool;
  symbol_combo_text : string;              (* currentText(), lineEdit().text() *)
  symbol_combo_items : list string;
  available_symbols : list string;
  all_symbols : option (list string);      (* unset until load_symbols runs *)
  symbol_combo_index : option nat;         (* currentIndex(); [None] is -1 *)
  current_symbol : option string;          (* unset until on_symbol_selected runs *)
  geometry : Q * Q * Q * Q;                (* x, y, width and height of the window *)
  current_theme : pyval;                   (* self.theme_manager.current_theme *)
  dark_style : bool;                       (* the style sheet set last is the dark one *)
  clock : nat                              (* collaborator calls made so far *)
}.

Record result (A : Type) : Type := mkResult {
  events : list event;
  out : outcome A;
  st : window
}.
Arguments mkResult {A} events out st.
Arguments events {A} r.
Arguments out {A} r.
Arguments st {A} r.

Definition M (A : Type) : Type := window -> result A.

Definition ret {A} (a : A) : M A := fun w => mkResult [] (Ok a) w.

Definition raise {A} (e : exn) : M A := fun w => mkResult [] (Raise e) w.

Definition bind {A B} (m : M A) (k : A -> M B) : M B := fun w =>
  let r := m w in
  match out r with
  | Ok a => let r' := k a (st r) in mkResult (events r ++ events r') (out r') (st r')
  | Raise e => mkResult (events r) (Raise e) (st r)
  end.

Declare Scope py_scope.
Delimit Scope py_scope with py.
Notation "x <- m ;; k" := (bind m (fun x => k))
  (at level 100, m at next level, right associativity) : py_scope.
Notation "m ;; k" := (bind m (fun _ => k))
  (at level 100, right associativity) : py_scope.
Open Scope py_scope.

(** [try: body  except Exception as e: handler(e)]. *)
Definition try_except {A} (body : M A) (handler : exn -> M A) : M A := fun w =>
  let r := body w in
  match out r with
  | Ok a => r
  | Raise e => let r' := handler e (st r) in mkResult (events r ++ events r') (out r') (st r')
  end.

Definition emit (e : event) : M unit := fun w => mkResult [e] (Ok tt) w.

Definition lift {A} (o : outcome A) : M A := fun w => mkResult [] o w.

Definition gets {A} (f : window -> A) : M A := fun w => mkResult [] (Ok (f w)) w.

Definition modify (f : window -> window) : M unit := fun w => mkResult [] (Ok tt) (f w).

(** The clock moves on by one call. *)
Definition tick (w : window) : window :=
  mkWindow (_last_data w) (_widgets w) (_update_queue w) (price_label w)
    (balance_label w) (positions_table w) (orders_table w)
    (_positions_update_needed w) (_orders_update_needed w)
    (symbol_combo_text w) (symbol_combo_items w) (available_symbols w)
    (all_symbols w) (symbol_combo_index w) (current_symbol w)
    (geometry w) (current_theme w) (dark_style w) (S (clock w)).

(** A call to a collaborator: the event, its answer at this moment, and
    the clock moves on. *)
Definition call {A} (e : event) (answer : nat -> outcome A) : M A := fun w =>
  mkResult [e] (answer (clock w)) (tick w).

(** Field updates. *)
Definition set_last_data (f : gmap string pyval -> gmap string pyval) (w : window) : window :=
  mkWindow (f (_last_data w)) (_widgets w) (_update_queue w) (price_label w)
    (balance_label w) (positions_table w) (orders_table w)
    (_positions_update_needed w) (_orders_update_needed w)
    (symbol_combo_text w) (symbol_combo_items w) (available_symbols w)
    (all_symbols w) (symbol_combo_index w) (current_symbol w)
    (geometry w) (current_theme w) (dark_style w) (clock w).

Definition set_update_queue (q : list (dict pyval)) (w : window) : window :=
  mkWindow (_last_data w) (_widgets w) q (price_label w)
    (balance_label w) (positions_table w) (orders_table w)
    (_positions_update_needed w) (_orders_update_needed w)
    (symbol_combo_text w) (symbol_combo_items w) (available_symbols w)
    (all_symbols w) (symbol_combo_index w) (current_symbol w)
    (geometry w) (current_theme w) (dark_style w) (clock w).

Definition set_price_label (t : text) (w : window) : window :=
  mkWindow (_last_data w) (_widgets w) (_update_queue w) t
    (balance_label w) (positions_table w) (orders_table w)
    (_positions_update_needed w) (_orders_update_needed w)
    (symbol_combo_text w) (symbol_combo_items w) (available_symbols w)
    (all_symbols w) (symbol_combo_index w) (current_symbol w)
    (geometry w) (current_theme w) (dark_style w) (clock w).

Definition set_balance_label (t : text) (w : window) : window :=
  mkWindow (_last_data w) (_widgets w) (_update_queue w) (price_label w)
    t (positions_table w) (orders_table w)
    (_positions_update_needed w) (_orders_update_needed w)
    (symbol_combo_text w) (symbol_combo_items w) (available_symbols w)
    (all_symbols w) (symbol_combo_index w) (current_symbol w)
    (geometry w) (current_theme w) (dark_style w) (clock w).

Definition set_positions_table (f : list row -> list row) (w : window) : window :=
  mkWindow (_last_data w) (_widgets w) (_update_queue w) (price_label w)
    (balance_label w) (f (positions_table w)) (orders_table w)
    (_positions_update_needed w) (_orders_update_needed w)
    (symbol_combo_text w) (symbol_combo_items w) (available_symbols w)
    (all_symbols w) (symbol_combo_index w) (current_symbol w)
    (geometry w) (current_theme w) (dark_style w) (clock w).

Definition set_orders_table (f : list row -> list row) (w : window) : window :=
  mkWindow (_last_data w) (_widgets w) (_update_queue w) (price_label w)
    (balance_label w) (positions_table w) (f (orders_table w))
    (_positions_update_needed w) (_orders_update_needed w)
    (symbol_combo_text w) (symbol_combo_items w) (available_symbols w)
    (all_symbols w) (symbol_combo_index w) (current_symbol w)
    (geometry w) (current_theme w) (dark_style w) (clock w).

Definition set_update_needed (positions orders : bool) (w : window) : window :=
  mkWindow (_last_data w) (_widgets w) (_update_queue w) (price_label w)
    (balance_label w) (positions_table w) (orders_table w)
    positions orders
    (symbol_combo_text w) (symbol_combo_items w) (available_symbols w)
    (all_symbols w) (symbol_combo_index w) (current_symbol w)
    (geometry w) (current_theme w) (dark_style w) (clock w).

Definition set_symbol_combo_items (items : list string) (w : window) : window :=
  mkWindow (_last_data w) (_widgets w) (_update_queue w) (price_label w)
    (balance_label w) (positions_table w) (orders_table w)
    (_positions_update_needed w) (_orders_update_needed w)
    (symbol_combo_text w) items (available_symbols w)
    (all_symbols w) (symbol_combo_index w) (current_symbol w)
    (geometry w) (current_theme w) (dark_style w) (clock w).

Definition set_symbol_combo_text (t : string) (w : window) : window :=
  mkWindow (_last_data w) (_widgets w) (_update_queue w) (price_label w)
    (balance_label w) (positions_table w) (orders_table w)
    (_positions_update_needed w) (_orders_update_needed w)
    t (symbol_combo_items w) (available_symbols w)
    (all_symbols w) (symbol_combo_index w) (current_symbol w)
    (geometry w) (current_theme w) (dark_style w) (clock w).

Definition set_symbol_combo_index (index : option nat) (w : window) : window :=
  mkWindow (_last_data w) (_widgets w) (_update_queue w) (price_label w)
    (balance_label w) (positions_table w) (orders_table w)
    (_positions_update_needed w) (_orders_update_needed w)
    (symbol_combo_text w) (symbol_combo_items w) (available_symbols w)
    (all_symbols w) index (current_symbol w)
    (geometry w) (current_theme w) (dark_style w) (clock w).

Definition set_current_symbol (symbol : string) (w : window) : window :=
  mkWindow (_last_data w) (_widgets w) (_update_queue w) (price_label w)
    (balance_label w) (positions_table w) (orders_table w)
    (_positions_update_needed w) (_orders_update_needed w)
    (symbol_combo_text w) (symbol_combo_items w) (available_symbols w)
    (all_symbols w) (symbol_combo_index w) (Some symbol)
    (geometry w) (current_theme w) (dark_style w) (clock w).

Definition set_geometry (g : Q * Q * Q * Q) (w : window) : window :=
  mkWindow (_last_data w) (_widgets w) (_update_queue w) (price_label w)
    (balance_label w) (positions_table w) (orders_table w)
    (_positions_update_needed w) (_orders_update_needed w)
    (symbol_combo_text w) (symbol_combo_items w) (available_symbols w)
    (all_symbols w) (symbol_combo_index w) (current_symbol w)
    g (current_theme w) (dark_style w) (clock w).

Definition set_current_theme (theme : pyval) (w : window) : window :=
  mkWindow (_last_data w) (_widgets w) (_update_queue w) (price_label w)
    (balance_label w) (positions_table w) (orders_table w)
    (_positions_update_needed w) (_orders_update_needed w)
    (symbol_combo_text w) (symbol_combo_items w) (available_symbols w)
    (all_symbols w) (symbol_combo_index w) (current_symbol w)
    (geometry w) theme (dark_style w) (clock w).

Definition set_dark_style (dark : bool) (w : window) : window :=
  mkWindow (_last_data w) (_widgets w) (_update_queue w) (price_label w)
    (balance_label w) (positions_table w) (orders_table w)
    (_positions_update_needed w) (_orders_update_needed w)
    (symbol_combo_text w) (symbol_combo_items w) (available_symbols w)
    (all_symbols w) (symbol_combo_index w) (current_symbol w)
    (geometry w) (current_theme w) dark (clock w).

(** ** JSON text, as [json.dumps] writes it *)

#[local] Unset Elimination Schemes.
Inductive json : Type :=
| JStr (s : string)
| JArr (items : list json)
| JObj (members : list (string * json)).
#[local] Set Elimination Schemes.

Definition dquote : string := String "034"%char EmptyString.
Definition backslash : string := String "092"%char EmptyString.

Definition hex_digit (n : nat) : ascii :=
  match n with
  | 0 => "0" | 1 => "1" | 2 => "2" | 3 => "3" | 4 => "4" | 5 => "5" | 6 => "6" | 7 => "7"
  | 8 => "8" | 9 => "9" | 10 => "a" | 11 => "b" | 12 => "c" | 13 => "d" | 14 => "e" | _ => "f"
  end%char.

(** A character is written as it is when it lies between the blank and the
    tilde and is neither the quote nor the backslash ([ensure_ascii]). *)
Definition json_plain (c : ascii) : bool :=
  let n := nat_of_ascii c in
  (32 <=? n)%nat && (n <=? 126)%nat && negb (n =? 34)%nat && negb (n =? 92)%nat.

Definition json_escape_char (c : ascii) : string :=
  let n := nat_of_ascii c in
  if json_plain c then String c EmptyString
  else if (n =? 34)%nat then backslash +:+ dquote
  else if (n =? 92)%nat then backslash +:+ backslash
  else if (n =? 10)%nat then backslash +:+ "n"
  else if (n =? 13)%nat then backslash +:+ "r"
  else if (n =? 9)%nat then backslash +:+ "t"
  else if (n =? 8)%nat then backslash +:+ "b"
  else if (n =? 12)%nat then backslash +:+ "f"
  else backslash +:+ "u00" +:+ String (hex_digit (n / 16)) (String (hex_digit (n mod 16)) EmptyString).

Fixpoint json_escape (s : string) : string :=
  match s with
  | EmptyString => EmptyString
  | String c s' => json_escape_char c +:+ json_escape s'
  end.

Definition json_string (s : string) : string := dquote +:+ json_escape s +:+ dquote.

(** [", ".join(parts)]. *)
Fixpoint join_comma (parts : list string) : string :=
  match parts with
  | [] => EmptyString
  | [p] => p
  | p :: rest => p +:+ ", " +:+ join_comma rest
  end.

(** [json.dumps(v)] with the default separators [", "] and [": "]. *)
Fixpoint json_dumps (v : json) : string :=
  match v with
  | JStr s => json_string s
  | JArr items => "[" +:+ join_comma (map json_dumps items) +:+ "]"
  | JObj members =>
      "{" +:+ join_comma (map (fun kv => json_string (fst kv) +:+ ": " +:+ json_dumps (snd kv)) members) +:+ "}"
  end.

(** ** Symbols: upper case and the substring test *)

Definition upper_char (c : ascii) : ascii :=
  let n := nat_of_ascii c in
  if (97 <=? n)%nat && (n <=? 122)%nat then ascii_of_nat (n - 32) else c.

(** [s.upper()] on the letters a to z. *)
Fixpoint upper (s : string) : string :=
  match s with
  | EmptyString => EmptyString
  | String c s' => String (upper_char c) (upper s')
  end.

(** [sub in s] for strings. *)
Fixpoint py_in (sub s : string) : bool :=
  String.prefix sub s ||
  match s with
  | EmptyString => false
  | String _ s' => py_in sub s'
  end.

(** [key in v], for a key that is a string. *)
Definition py_contains (key : string) (v : pyval) : outcome bool :=
  match v with
  | PyDict d => Ok (existsb (String.eqb key) (keys d))
  | PyList l => Ok (existsb (py_eqb (PyStr key)) l)
  | PyStr t => Ok (py_in key t)
  | _ => Raise TypeError
  end.

(** A number, where Qt asks for one, and a string, where it asks for
    one. *)
Definition py_number (v : pyval) : outcome Q :=
  match v with
  | PyNum q => Ok q
  | _ => Raise TypeError
  end.

Definition py_str (v : pyval) : outcome string :=
  match v with
  | PyStr t => Ok t
  | _ => Raise TypeError
  end.

(** ** The methods of [MainWindow] *)

Section MainWindow.

Variable E : env.

(** [QTableWidgetItem(v)]: the text of a cell has to be a [str]. *)
Definition table_item (v : pyval) : M text :=
  match v with
  | PyStr s => ret [Lit s]
  | _ => raise TypeError
  end.

(** [widget_id in self._widgets]. *)
Definition in_widgets (widget_id : string) (w : window) : bool :=
  existsb (String.eqb widget_id) (_widgets w).

(** [self._last_data.get(widget_id)]. *)
Definition last_data_get (w : window) (widget_id : string) : pyval :=
  match _last_data w !! widget_id with
  | Some v => v
  | None => PyNone
  end.

(** The seven cells of a position's row, line 195. *)
Definition position_items (position : pyval) : M row :=
  symbol <- lift (py_getitem position "symbol") ;;
  item0 <- table_item symbol ;;
  side <- lift (py_getitem position "side") ;;
  item1 <- table_item side ;;
  size <- lift (py_getitem position "size") ;;
  avg_price <- lift (py_getitem position "avgPrice") ;;
  mark_price <- lift (py_getitem position "markPrice") ;;
  pnl <- lift (py_getitem position "unrealisedPnl") ;;
  pnl <- lift (py_float pnl) ;;
  roe <- lift (py_getitem position "ROE") ;;
  roe <- lift (py_float roe) ;;
  ret (mkRow [item0; item1; [StrOf size]; [StrOf avg_price]; [StrOf mark_price];
              [Fixed 2 pnl]; [Fixed 2 roe; Lit "%"]]
             (Some position)).

(** One turn of the loop of [update_positions_table], lines 188 to 209;
    [continue] ends the turn. *)
Definition positions_turn (position : pyval) : M unit :=
  size <- lift (py_getitem position "size") ;;
  size <- lift (py_float size) ;;
  if Qeq_bool size 0 then ret tt
  else
    row_index <- gets (fun w => length (positions_table w)) ;;
    modify (set_positions_table (fun t => t ++ [mkRow [] None])) ;;
    items <- position_items position ;;
    modify (set_positions_table (fun t => <[row_index := items]> t)).

(** The loop of [update_positions_table], line 187. *)
Fixpoint positions_loop (positions : list pyval) : M unit :=
  match positions with
  | [] => ret tt
  | position :: rest => positions_turn position ;; positions_loop rest
  end.

Definition update_positions_table (positions : pyval) : M unit :=
  try_except
    (positions <- call GetPositions (get_positions E) ;;
     modify (set_positions_table (fun _ => [])) ;;
     positions <- lift (py_iter positions) ;;
     positions_loop positions)
    (fun e => emit (LogError [Lit "Ошибка обновления таблицы позиций: "; ExnText e])).

(** The seven cells of an order's row, line 227. *)
Definition order_items (order : pyval) : M row :=
  symbol <- lift (py_getitem order "symbol") ;;
  item0 <- table_item symbol ;;
  side <- lift (py_getitem order "side") ;;
  item1 <- table_item side ;;
  order_type <- lift (py_getitem order "orderType") ;;
  item2 <- table_item order_type ;;
  price <- lift (py_getitem order "price") ;;
  qty <- lift (py_getitem order "qty") ;;
  profit <- lift (py_getitem order "profit") ;;
  status <- lift (py_getitem order "status") ;;
  item6 <- table_item status ;;
  ret (mkRow [item0; item1; item2; [StrOf price]; [StrOf qty]; [StrOf profit]; item6] None).

(** One turn of the loop of [update_orders_table], lines 223 to 239. *)
Definition orders_turn (order : pyval) : M unit :=
  row_index <- gets (fun w => length (orders_table w)) ;;
  modify (set_orders_table (fun t => t ++ [mkRow [] None])) ;;
  items <- order_items order ;;
  modify (set_orders_table (fun t => <[row_index := items]> t)).

Fixpoint orders_loop (orders : list pyval) : M unit :=
  match orders with
  | [] => ret tt
  | order :: rest => orders_turn order ;; orders_loop rest
  end.

Definition update_orders_table : M unit :=
  try_except
    (orders <- call GetOrders (get_orders E) ;;
     modify (set_orders_table (fun _ => [])) ;;
     orders <- lift (py_iter orders) ;;
     orders_loop orders)
    (fun e => emit (LogError [Lit "Ошибка обновления таблицы ордеров: "; ExnText e])).

Definition update_chart_positions : M unit :=
  try_except
    (positions <- call GetPositions (get_positions E) ;;
     orders <- call GetOrders (get_orders E) ;;
     call (ChartUpdatePositionsAndOrders positions orders)
          (fun n => chart_update_positions_and_orders E n positions orders))
    (fun e => emit (LogError [Lit "Ошибка обновления позиций на графике: "; ExnText e])).

Definition _handle_price_update (price : pyval) : M unit :=
  emit (Invoke "price" (Some price)) ;;
  shown <- lift (py_format_f 4 price) ;;
  modify (set_price_label [Lit "Цена: "; shown; Lit " USDT"]) ;;
  call (ChartUpdatePrice price) (fun n => chart_update_price E n price).

Definition _handle_positions_update (positions : pyval) : M unit :=
  emit (Invoke "positions" (Some positions)) ;;
  update_positions_table positions ;;
  update_chart_positions.

Definition _handle_orders_update : M unit :=
  emit (Invoke "orders" None) ;;
  update_orders_table ;;
  update_chart_positions.

Definition _handle_balance_update (balance : pyval) : M unit :=
  emit (Invoke "balance" (Some balance)) ;;
  modify (set_balance_label [Lit "Баланс: "; StrOf balance; Lit " USDT"]).

(** The branches of [_update_ui] on the name of the widget, line 157. *)
Definition dispatch (widget_id : string) (data : pyval) : M unit :=
  if String.eqb widget_id "price" then _handle_price_update data
  else if String.eqb widget_id "positions" then _handle_positions_update data
  else if String.eqb widget_id "orders" then _handle_orders_update
  else if String.eqb widget_id "balance" then _handle_balance_update data
  else ret tt.

(** One turn of the loop of [_update_ui], lines 155 to 166. *)
Definition update_widget (widget_id : string) (data : pyval) : M unit :=
  last <- gets (fun w => last_data_get w widget_id) ;;
  if py_ne last data then
    known <- gets (in_widgets widget_id) ;;
    (if known then dispatch widget_id data else ret tt) ;;
    modify (set_last_data (fun m => <[widget_id := data]> m))
  else ret tt.

Fixpoint update_widgets (items : list (string * pyval)) : M unit :=
  match items with
  | [] => ret tt
  | (widget_id, data) :: rest => update_widget widget_id data ;; update_widgets rest
  end.

Definition _update_ui (updates : dict pyval) : M unit := update_widgets updates.

(** Lines 145 to 148: the queue is drained into one dict, a later item
    overwriting an earlier one key by key. *)
Definition drain (queue : list (dict pyval)) : dict pyval :=
  fold_left dict_update queue [].

Definition _process_updates : M unit :=
  queue <- gets _update_queue ;;
  match queue with
  | [] => ret tt
  | _ =>
      modify (set_update_queue []) ;;
      _update_ui (drain queue)
  end.

(** [if balance: self.balance_label.setText(...)], the same two lines in
    [update_balance] (174) and in [update_ui] (796). *)
Definition show_balance (balance : pyval) : M unit :=
  if py_truthy balance then
    shown <- lift (py_format_f 2 balance) ;;
    modify (set_balance_label [Lit "Баланс: "; shown; Lit " USDT"])
  else ret tt.

Definition update_balance : M unit :=
  try_except
    (balance <- call GetWalletBalance (get_wallet_balance E) ;;
     show_balance balance)
    (fun e => emit (LogError [Lit "Ошибка при обновлении баланса: "; ExnText e])).

(** The poll cycle, line 781. *)
Definition update_ui : M unit :=
  try_except
    (call UpdateAll (update_all E) ;;
     positions <- call GetPositions (get_positions E) ;;
     update_positions_table positions ;;
     update_orders_table ;;
     update_chart_positions ;;
     balance <- call GetWalletBalance (get_wallet_balance E) ;;
     show_balance balance)
    (fun e => emit (LogError [Lit "Ошибка обновления UI: "; ExnText e])).

(** Modelled from the spec: [PositionManager.close_position], which
    [MainWindow.close_position] calls and whose source is not part of this
    file.  Section 4.5: it "submits an opposing market order of [size];
    0-size guard: refuses with a validation error before any remote
    call". *)
Definition position_manager_close_position (symbol : string) (size : Q) : M pyval :=
  if Qeq_bool size 0 then raise ValidationError
  else call (RemoteClose (mkCloseRequest symbol size))
            (fun n => remote_close E n (mkCloseRequest symbol size)).

Definition unknown_error : pyval := PyStr "Неизвестная ошибка".

Definition close_position (symbol : string) (size : Q) : M unit :=
  try_except
    (response <- position_manager_close_position symbol size ;;
     succeeded <- (if py_truthy response then
                     code <- lift (py_get response "retCode" PyNone) ;;
                     ret (py_eqb code (PyNum 0))
                   else ret false) ;;
     if succeeded then
       emit (LogInfo [Lit "Позиция "; Lit symbol; Lit " успешно закрыта"]) ;;
       modify (set_update_needed true true) ;;
       emit (ShowMessage "Успех" [Lit "Позиция "; Lit symbol; Lit " закрыта"])
     else
       error_msg <- (if negb (py_truthy response) then ret unknown_error
                     else lift (py_get response "retMsg" unknown_error)) ;;
       emit (LogError [Lit "Ошибка закрытия позиции: "; StrOf error_msg]) ;;
       emit (ShowMessage "Ошибка" [Lit "Не удалось закрыть позицию: "; StrOf error_msg]))
    (fun e =>
       emit (LogError [Lit "Ошибка при закрытии позиции: "; ExnText e]) ;;
       emit (ShowMessage "Ошибка" [Lit "Не удалось закрыть позицию: "; ExnText e])).

(** The subscribe message of [on_open], line 387. *)
Definition subscribe_message (symbol : string) : json :=
  JObj [("op", JStr "subscribe"); ("args", JArr [JStr ("tickers." +:+ symbol)])].

Definition on_open : M unit :=
  emit (LogInfo [Lit "WS соединение открыто"]) ;;
  symbol <- gets symbol_combo_text ;;
  call (WsSend (json_dumps (subscribe_message symbol)))
       (fun n => ws_send E n (json_dumps (subscribe_message symbol))).

(** The keyword arguments of [set_trading_stop], lines 652 to 660 (and
    445 to 453). *)
Definition trading_stop_params (symbol tp sl : pyval) : dict kwarg :=
  let params := [("category", ArgVal (PyStr "linear"));
                 ("symbol", ArgVal symbol);
                 ("positionIdx", ArgVal (PyNum 0))] in
  let params := if py_truthy tp then dict_set params "takeProfit" (ArgStr tp) else params in
  let params := if py_truthy sl then dict_set params "stopLoss" (ArgStr sl) else params in
  params.

(** From [dialog = SlTpDialog(...)] to the end of [edit_position]: the
    text is the same in the definition at line 430 and in the one at line
    628.  [self.update_positions()] names a method the class does not
    have. *)
Definition edit_position_dialog (position : pyval) : M unit :=
  symbol <- lift (py_getitem position "symbol") ;;
  side <- lift (py_getitem position "side") ;;
  avg_price <- lift (py_get position "avgPrice" (PyNum 0)) ;;
  entry_price <- lift (py_float avg_price) ;;
  size <- lift (py_getitem position "size") ;;
  size <- lift (py_float size) ;;
  current_tp <- lift (py_get position "takeProfit" PyNone) ;;
  current_sl <- lift (py_get position "stopLoss" PyNone) ;;
  answer <- call (ExecSlTpDialog symbol side entry_price size current_tp current_sl)
                 (fun n => Ok (sl_tp_dialog E n)) ;;
  if fst answer then
    let tp := fst (snd answer) in
    let sl := snd (snd answer) in
    try_except
      (symbol <- lift (py_getitem position "symbol") ;;
       let params := trading_stop_params symbol tp sl in
       response <- call (SetTradingStop params) (fun n => set_trading_stop E n params) ;;
       call (HandleBybitError response) (fun n => handle_bybit_error E n response) ;;
       raise (AttributeError "update_positions"))
      (fun e => emit (LogError [Lit "Ошибка при установке TP/SL: "; ExnText e]))
  else ret tt.

(** [edit_position(self, position)], line 430; the definition at line 628
    replaces it in the class. *)
Definition edit_position_430 (position : pyval) : M unit :=
  edit_position_dialog position.

(** [edit_position(self, index)], line 628, with [row = index.row()]. *)
Definition edit_position (row_index : nat) : M unit :=
  table <- gets positions_table ;;
  position <- match table !! row_index with
              | Some (mkRow (_ :: _) data) =>
                  ret (match data with Some p => p | None => PyNone end)
              | _ => raise (AttributeError "data")
              end ;;
  if negb (py_truthy position) then ret tt
  else edit_position_dialog position.

(** The comprehension of [filter_symbols] (758) and of [perform_filter]
    (586). *)
Definition matching_symbols (text : string) (symbols : list string) : list string :=
  let search_text := upper text in
  List.filter (fun symbol => py_in search_text symbol) symbols.

(** *** The symbol box and its signals

    The symbol box is an editable [QComboBox]: it has a list of items, a
    current index and a line edit, whose text is [currentText()].  The
    line edit emits [textChanged] when [setText] changes its text, after
    the new text is written.  The signal is connected, in this order, to
    the box's [currentTextChanged], which line 312 connects to
    [on_symbol_selected], and (line 774) to the start of the filter timer.

    An exception that leaves a slot does not come back to the statement
    that fired the signal: under PyQt5's default exception hook the
    program is ended there.  The model ends the method there, with the
    exception as its outcome; no method that writes to the box has a
    [try] around the call. *)

(** [on_symbol_selected], line 711.  [self.update_position_info()] names
    a method the class does not have. *)
Definition on_symbol_selected (symbol : string) : M unit :=
  if String.eqb symbol "" then ret tt
  else
    modify (set_current_symbol symbol) ;;
    let settings := PyDict [("symbol", PyStr symbol)] in
    call (SaveWindowSettings settings) (fun n => config_save_window_settings E n settings) ;;
    call (DataChangeSymbol symbol) (fun n => data_change_symbol E n symbol) ;;
    call (PositionChangeSymbol symbol) (fun n => position_change_symbol E n symbol) ;;
    call (OrderChangeSymbol symbol) (fun n => order_change_symbol E n symbol) ;;
    @raise unit (AttributeError "update_position_info") ;;
    update_orders_table ;;
    emit (LogInfo [Lit "Символ изменен на "; Lit symbol]).

(** [QLineEdit.setText] on the line edit of the box, with the slots of
    [textChanged]. *)
Definition line_edit_setText (t : string) : M unit :=
  old <- gets symbol_combo_text ;;
  if String.eqb old t then ret tt
  else
    modify (set_symbol_combo_text t) ;;
    on_symbol_selected t ;;
    emit StartFilterTimer.

(** The current row of the box, when the current index is one of its
    rows. *)
Definition current_row (w : window) : option nat :=
  match symbol_combo_index w with
  | Some index => if (index <? length (symbol_combo_items w))%nat then Some index else None
  | None => None
  end.

(** [itemText(index)]: the empty string where there is no such row. *)
Definition itemText (items : list string) (index : nat) : string :=
  default "" (items !! index).

(** [QComboBox.setCurrentIndex(index)]: the index is set, then the line
    edit is given the text of the row. *)
Definition combo_setCurrentIndex (index : nat) : M unit :=
  items <- gets symbol_combo_items ;;
  modify (set_symbol_combo_index
            (if (index <? length items)%nat then Some index else None)) ;;
  line_edit_setText (itemText items index).

(** [QComboBox.clear()]: the rows are removed; when one of them was the
    current row, the current index becomes -1 and the line edit is given
    the empty text. *)
Definition combo_clear : M unit :=
  items <- gets symbol_combo_items ;;
  row <- gets current_row ;;
  match items with
  | [] => ret tt
  | _ =>
      modify (set_symbol_combo_items []) ;;
      modify (set_symbol_combo_index None) ;;
      match row with
      | Some _ => line_edit_setText ""
      | None => ret tt
      end
  end.

(** [QComboBox.addItems(texts)]: the rows are appended; when the box was
    empty, the first of them becomes the current row. *)
Definition combo_addItems (texts : list string) : M unit :=
  match texts with
  | [] => ret tt
  | _ =>
      items <- gets symbol_combo_items ;;
      modify (set_symbol_combo_items (items ++ texts)) ;;
      match items with
      | [] => combo_setCurrentIndex 0
      | _ => ret tt
      end
  end.

(** [QComboBox.findText(text)]: the first row with this text. *)
Fixpoint combo_findText (items : list string) (t : string) : option nat :=
  match items with
  | [] => None
  | item :: rest => if String.eqb item t then Some 0%nat
                    else option_map S (combo_findText rest t)
  end.

(** [filter_symbols], line 755, on [self.available_symbols]. *)
Definition filter_symbols : M unit :=
  text <- gets symbol_combo_text ;;
  symbols <- gets available_symbols ;;
  let filtered_symbols := matching_symbols text symbols in
  combo_clear ;;
  combo_addItems filtered_symbols ;;
  match filtered_symbols with
  | [] => ret tt
  | _ => emit ShowPopup
  end.

(** [perform_filter], line 582, on [self.all_symbols]. *)
Definition perform_filter : M unit :=
  text <- gets symbol_combo_text ;;
  combo_clear ;;
  symbols <- (fun w => match all_symbols w with
                       | Some l => ret l w
                       | None => raise (AttributeError "all_symbols") w
                       end) ;;
  let filtered_symbols := matching_symbols text symbols in
  combo_addItems filtered_symbols ;;
  match filtered_symbols with
  | [] => ret tt
  | _ => emit ShowPopup
  end.

(** *** The settings of the window *)

(** [apply_theme], line 489: the style sheet is the dark one for the
    theme "dark" and the light one for any other, and the chart is told
    which. *)
Definition apply_theme : M unit :=
  theme <- gets current_theme ;;
  let dark := py_eqb theme (PyStr "dark") in
  modify (set_dark_style dark) ;;
  let name := if dark then "dark" else "light" in
  call (ChartSetTheme name) (fun n => chart_set_theme E n name).

(** The settings that [save_window_settings] builds, lines 541 to 550. *)
Definition window_settings (w : window) : pyval :=
  let '(x, y, width, height) := geometry w in
  PyDict [("window_geometry",
           PyDict [("x", PyNum x); ("y", PyNum y);
                   ("width", PyNum width); ("height", PyNum height)]);
          ("theme", current_theme w);
          ("symbol", PyStr (symbol_combo_text w))].

(** [save_window_settings], line 539. *)
Definition save_window_settings : M unit :=
  settings <- gets window_settings ;;
  call (SaveWindowSettings settings) (fun n => config_save_window_settings E n settings).

(** [load_window_settings], line 552. *)
Definition load_window_settings : M unit :=
  settings <- call LoadWindowSettings (config_load_window_settings E) ;;
  if py_truthy settings then
    has_geometry <- lift (py_contains "window_geometry" settings) ;;
    (if has_geometry then
       geo <- lift (py_getitem settings "window_geometry") ;;
       x <- lift (py_getitem geo "x") ;;
       y <- lift (py_getitem geo "y") ;;
       width <- lift (py_getitem geo "width") ;;
       height <- lift (py_getitem geo "height") ;;
       x <- lift (py_number x) ;;
       y <- lift (py_number y) ;;
       width <- lift (py_number width) ;;
       height <- lift (py_number height) ;;
       modify (set_geometry (x, y, width, height))
     else ret tt) ;;
    has_theme <- lift (py_contains "theme" settings) ;;
    (if has_theme then
       theme <- lift (py_getitem settings "theme") ;;
       modify (set_current_theme theme) ;;
       apply_theme
     else ret tt) ;;
    has_symbol <- lift (py_contains "symbol" settings) ;;
    if has_symbol then
      symbol <- lift (py_getitem settings "symbol") ;;
      symbol <- lift (py_str symbol) ;;
      items <- gets symbol_combo_items ;;
      match combo_findText items symbol with
      | Some index => combo_setCurrentIndex index
      | None => ret tt
      end
    else ret tt
  else ret tt.

End MainWindow.

(** ** A window and collaborators to run the methods on *)

(** [self._last_data] and [self._widgets] as [__init__] leaves them. *)
Definition initial_last_data : gmap string pyval :=
  <["price" := PyNum 0]> (<["positions" := PyDict []]>
    (<["orders" := PyDict []]> (<["balance" := PyNum 0]> ∅))).

Definition initial_window : window :=
  mkWindow initial_last_data ["price"; "positions"; "orders"; "balance"; "chart"] []
    [Lit "0 USDT"] [Lit "Баланс: 0 USDT"] [] [] false false
    "BTCUSDT" [] [] None None None (100, 100, 1200, 800)%Q (PyStr "dark") true 0.

Definition btc_position (size : string) : pyval :=
  PyDict [("symbol", PyStr "BTCUSDT"); ("side", PyStr "Buy"); ("size", PyStr size);
          ("avgPrice", PyStr "30000"); ("markPrice", PyStr "30100");
          ("unrealisedPnl", PyStr "10.5"); ("ROE", PyStr "3.5")].

Definition eth_position (size : string) : pyval :=
  PyDict [("symbol", PyStr "ETHUSDT"); ("side", PyStr "Sell"); ("size", PyStr size);
          ("avgPrice", PyStr "2000"); ("markPrice", PyStr "1990");
          ("unrealisedPnl", PyStr "4"); ("ROE", PyStr "1.25")].

Definition limit_order : pyval :=
  PyDict [("symbol", PyStr "BTCUSDT"); ("side", PyStr "Buy"); ("orderType", PyStr "Limit");
          ("price", PyStr "29000"); ("qty", PyStr "0.1"); ("profit", PyNum 0);
          ("status", PyStr "New")].

(** Collaborators that answer every call, with two positions (one of size
    zero) and one order. *)
Definition calm_env : env :=
  mkEnv (fun _ => Ok tt)
        (fun _ => Ok (PyList [btc_position "0.5"; eth_position "0"]))
        (fun _ => Ok (PyList [limit_order]))
        (fun _ => Ok (PyNum 1000))
        (fun _ _ => Ok tt)
        (fun _ _ _ => Ok tt)
        (fun _ => (true, (PyNum 31000, PyNone)))
        (fun _ _ => Ok (PyDict [("retCode", PyNum 0)]))
        (fun _ _ => Ok tt)
        (fun _ _ => Ok (PyDict [("retCode", PyNum 0)]))
        (fun _ _ => Ok tt)
        (fun _ _ => Ok tt) (fun _ _ => Ok tt) (fun _ _ => Ok tt) (fun _ _ => Ok tt)
        (fun _ => Ok PyNone) (fun _ _ => Ok tt).

(** The same collaborators, except that the position manager fails. *)
Definition positions_down_env : env :=
  mkEnv (update_all calm_env)
        (fun _ => Raise (Failure "timeout"))
        (get_orders calm_env) (get_wallet_balance calm_env)
        (chart_update_price calm_env) (chart_update_positions_and_orders calm_env)
        (sl_tp_dialog calm_env) (set_trading_stop calm_env) (handle_bybit_error calm_env)
        (remote_close calm_env) (ws_send calm_env)
        (config_save_window_settings calm_env) (data_change_symbol calm_env)
        (position_change_symbol calm_env) (order_change_symbol calm_env)
        (config_load_window_settings calm_env) (chart_set_theme calm_env).

(** The same collaborators, except that the order manager fails. *)
Definition orders_down_env : env :=
  mkEnv (update_all calm_env) (get_positions calm_env)
        (fun _ => Raise (Failure "timeout"))
        (get_wallet_balance calm_env)
        (chart_update_price calm_env) (chart_update_positions_and_orders calm_env)
        (sl_tp_dialog calm_env) (set_trading_stop calm_env) (handle_bybit_error calm_env)
        (remote_close calm_env) (ws_send calm_env)
        (config_save_window_settings calm_env) (data_change_symbol calm_env)
        (position_change_symbol calm_env) (order_change_symbol calm_env)
        (config_load_window_settings calm_env) (chart_set_theme calm_env).

(** Batches to flush: one whose handlers all return, and one whose price is
    a string, as the exchange sends it, on which the format [:.4f] raises. *)
Definition plain_batch : dict pyval := [("price", PyNum 30000); ("balance", PyNum 5)].

Definition poisoned_batch : dict pyval := [("price", PyStr "30000.5"); ("balance", PyNum 5)].

(** A window with two publishes to the orders topic waiting in the queue. *)
Definition orders_queue : list (dict pyval) :=
  [[("orders", PyNum 1)]; [("orders", PyNum 2)]].

Definition queued_window : window := set_update_queue orders_queue initial_window.

(** ** Vocabulary of the properties *)

(** The values published for a topic, oldest first. *)
Definition published (queue : list (dict pyval)) (topic : string) : list pyval :=
  omap (fun data => dict_get data topic) queue.

(** The handler calls among the events: the topic and the argument. *)
Definition invocations (evs : list event) : list (string * option pyval) :=
  omap (fun e => match e with Invoke t a => Some (t, a) | _ => None end) evs.

(** What the handler of a topic is called with when [data] is dispatched:
    the handler of the orders takes no argument (line 162). *)
Definition handler_arg (widget_id : string) (data : pyval) : option pyval :=
  if String.eqb widget_id "orders" then None else Some data.

(** The topics [_update_ui] has a handler for. *)
Definition has_handler (widget_id : string) : bool :=
  String.eqb widget_id "price" || String.eqb widget_id "positions" ||
  String.eqb widget_id "orders" || String.eqb widget_id "balance".

(** A method leaves a part [f] of the window as it was. *)
Definition preserves {A X} (f : window -> X) (m : M A) : Prop :=
  forall w, f (st (m w)) = f w.

(** [sub] occurs in [s]. *)
Definition substring_of (sub s : string) : Prop :=
  exists pre suf, s = pre +:+ sub +:+ suf.

(** [text] occurs in [s] when the case of the letters is ignored. *)
Definition substring_ignoring_case (text s : string) : Prop :=
  exists pre mid suf, s = pre +:+ mid +:+ suf /\ upper mid = upper text.

(** A symbol without lower-case letters. *)
Definition upper_case (s : string) : Prop := upper s = s.

(** The requests to set the protective levels among the events. *)
Definition trading_stop_requests (evs : list event) : list (dict kwarg) :=
  omap (fun e => match e with SetTradingStop params => Some params | _ => None end) evs.

(** The messages written to the web socket among the events. *)
Definition sent_messages (evs : list event) : list string :=
  omap (fun e => match e with WsSend message => Some message | _ => None end) evs.

Definition quoted (s : string) : string := dquote +:+ s +:+ dquote.

(** The subscribe message as [json.dumps] writes it, with a blank after
    each colon and comma. *)
Definition subscribe_text (symbol : string) : string :=
  "{" +:+ quoted "op" +:+ ": " +:+ quoted "subscribe" +:+ ", "
      +:+ quoted "args" +:+ ": [" +:+ quoted ("tickers." +:+ symbol) +:+ "]}".

(** The subscribe message as section 6 of the spec writes it, without
    blanks. *)
Definition spec_subscribe_text (symbol : string) : string :=
  "{" +:+ quoted "op" +:+ ":" +:+ quoted "subscribe" +:+ ","
      +:+ quoted "args" +:+ ":[" +:+ quoted ("tickers." +:+ symbol) +:+ "]}".

(** Where a reader of JSON text stands: outside the strings, inside one,
    or just behind a backslash inside one. *)
Inductive json_place : Type := Outside | Inside | Escaped.

(** The blanks between the tokens of a JSON text carry no meaning; this
    removes them and keeps the strings as they are. *)
Fixpoint strip_blanks (place : json_place) (s : string) : string :=
  match s with
  | EmptyString => EmptyString
  | String c s' =>
      match place with
      | Outside =>
          if Ascii.eqb c "034"%char then String c (strip_blanks Inside s')
          else if Ascii.eqb c " "%char then strip_blanks Outside s'
          else String c (strip_blanks Outside s')
      | Inside =>
          if Ascii.eqb c "092"%char then String c (strip_blanks Escaped s')
          else if Ascii.eqb c "034"%char then String c (strip_blanks Outside s')
          else String c (strip_blanks Inside s')
      | Escaped => String c (strip_blanks Inside s')
      end
  end.

(** Every character of a symbol is written as it is in JSON. *)
Definition plain_symbol (symbol : string) : bool :=
  forallb json_plain (list_ascii_of_string symbol).

(** [float(position['size'])], the number the loop of
    [update_positions_table] tests against zero. *)
Definition position_size (position : pyval) : outcome Q :=
  match py_getitem position "size" with
  | Ok size => py_float size
  | Raise e => Raise e
  end.

Definition zero_size (position : pyval) : bool :=
  match position_size position with
  | Ok q => Qeq_bool q 0
  | Raise _ => false
  end.

Definition is_number (v : pyval) : bool :=
  match py_float v with
  | Ok _ => true
  | Raise _ => false
  end.

(** A position as the data model of the spec has it: a dict with the
    symbol and the side as strings, the size, the profit and the return as
    numbers (or decimal numerals), and the two prices. *)
Definition well_formed_position (position : pyval) : bool :=
  match position with
  | PyDict d =>
      match dict_get d "symbol", dict_get d "side", dict_get d "size",
            dict_get d "avgPrice", dict_get d "markPrice",
            dict_get d "unrealisedPnl", dict_get d "ROE" with
      | Some (PyStr _), Some (PyStr _), Some size, Some _, Some _, Some pnl, Some roe =>
          is_number size && is_number pnl && is_number roe
      | _, _, _, _, _, _, _ => false
      end
  | _ => false
  end.

(** A position on which the dialog of the protective levels can be
    opened: a dict with a symbol, a side, a size that is a number, and an
    entry price that is a number when it is there. *)
Definition editable_position (position : pyval) : bool :=
  match position with
  | PyDict d =>
      match dict_get d "symbol", dict_get d "side", dict_get d "size" with
      | Some _, Some _, Some size =>
          is_number size
          && is_number (match dict_get d "avgPrice" with Some p => p | None => PyNum 0 end)
      | _, _, _ => false
      end
  | _ => false
  end.

(** A method that neither reads nor changes the window and does nothing
    outside: it only computes an outcome. *)
Definition effect_free {A} (m : M A) : Prop :=
  exists o, forall w, m w = mkResult [] o w.

(** The part of the window the batched update loop decides on. *)
Definition dispatcher_state (w : window) : gmap string pyval * list string :=
  (_last_data w, _widgets w).

(** A method calls no handler. *)
Definition quiet {A} (m : M A) : Prop :=
  forall w, invocations (events (m w)) = [].

(** ** Further definitions *)

(** [close_position], lines 413 to 428, with the call of
    [position_manager.close_position(symbol, size)] taken as a parameter:
    [manager] stands for that call. *)
Definition close_position_by (manager : M pyval) (symbol : string) : M unit :=
  try_except
    (response <- manager ;;
     succeeded <- (if py_truthy response then
                     code <- lift (py_get response "retCode" PyNone) ;;
                     ret (py_eqb code (PyNum 0))
                   else ret false) ;;
     if succeeded then
       emit (LogInfo [Lit "Позиция "; Lit symbol; Lit " успешно закрыта"]) ;;
       modify (set_update_needed true true) ;;
       emit (ShowMessage "Успех" [Lit "Позиция "; Lit symbol; Lit " закрыта"])
     else
       error_msg <- (if negb (py_truthy response) then ret unknown_error
                     else lift (py_get response "retMsg" unknown_error)) ;;
       emit (LogError [Lit "Ошибка закрытия позиции: "; StrOf error_msg]) ;;
       emit (ShowMessage "Ошибка" [Lit "Не удалось закрыть позицию: "; StrOf error_msg]))
    (fun e =>
       emit (LogError [Lit "Ошибка при закрытии позиции: "; ExnText e]) ;;
       emit (ShowMessage "Ошибка" [Lit "Не удалось закрыть позицию: "; ExnText e])).

(** The message boxes among the events: the title and the text. *)
Definition shown_messages (evs : list event) : list (string * text) :=
  omap (fun e => match e with ShowMessage title t => Some (title, t) | _ => None end) evs.

(** The lines of the error log among the events. *)
Definition logged_errors (evs : list event) : list text :=
  omap (fun e => match e with LogError t => Some t | _ => None end) evs.

(** A method that returns, whatever the window. *)
Definition returns (m : M unit) : Prop := forall w, out (m w) = Ok tt.

(** An order as the table of the orders needs it: a dict with the symbol,
    the side, the type and the status as strings, and a price, a quantity
    and a profit. *)
Definition well_formed_order (order : pyval) : bool :=
  match order with
  | PyDict d =>
      match dict_get d "symbol", dict_get d "side", dict_get d "orderType",
            dict_get d "price", dict_get d "qty", dict_get d "profit",
            dict_get d "status" with
      | Some (PyStr _), Some (PyStr _), Some (PyStr _), Some _, Some _, Some _,
        Some (PyStr _) => true
      | _, _, _, _, _, _, _ => false
      end
  | _ => false
  end.

(** The attributes of the window that only the batched update loop, the
    filters and [close_position] write; the poll cycle and the table
    updates have no business with them. *)
Definition beside_display (w : window) :=
  (_last_data w, _widgets w, _update_queue w, price_label w,
   _positions_update_needed w, _orders_update_needed w,
   symbol_combo_text w, symbol_combo_items w, available_symbols w, all_symbols w,
   symbol_combo_index w, current_symbol w,
   geometry w, current_theme w, dark_style w).

(** A position with a size and without the other fields. *)
Definition bare_position : pyval := PyDict [("size", PyStr "2")].

(** Collaborators whose position manager answers with a bare position
    between two well-formed ones. *)
Definition ragged_env : env :=
  mkEnv (update_all calm_env)
        (fun _ => Ok (PyList [btc_position "0.5"; bare_position; eth_position "3"]))
        (get_orders calm_env) (get_wallet_balance calm_env)
        (chart_update_price calm_env) (chart_update_positions_and_orders calm_env)
        (sl_tp_dialog calm_env) (set_trading_stop calm_env) (handle_bybit_error calm_env)
        (remote_close calm_env) (ws_send calm_env)
        (config_save_window_settings calm_env) (data_change_symbol calm_env)
        (position_change_symbol calm_env) (order_change_symbol calm_env)
        (config_load_window_settings calm_env) (chart_set_theme calm_env).

(** Collaborators whose chart refuses the price. *)
Definition chart_down_env : env :=
  mkEnv (update_all calm_env) (get_positions calm_env) (get_orders calm_env)
        (get_wallet_balance calm_env)
        (fun _ _ => Raise (Failure "chart"))
        (chart_update_positions_and_orders calm_env)
        (sl_tp_dialog calm_env) (set_trading_stop calm_env) (handle_bybit_error calm_env)
        (remote_close calm_env) (ws_send calm_env)
        (config_save_window_settings calm_env) (data_change_symbol calm_env)
        (position_change_symbol calm_env) (order_change_symbol calm_env)
        (config_load_window_settings calm_env) (chart_set_theme calm_env).

(** Collaborators whose dialog is accepted with both fields left empty. *)
Definition empty_dialog_env : env :=
  mkEnv (update_all calm_env) (get_positions calm_env) (get_orders calm_env)
        (get_wallet_balance calm_env)
        (chart_update_price calm_env) (chart_update_positions_and_orders calm_env)
        (fun _ => (true, (PyNone, PyNone)))
        (set_trading_stop calm_env) (handle_bybit_error calm_env)
        (remote_close calm_env) (ws_send calm_env)
        (config_save_window_settings calm_env) (data_change_symbol calm_env)
        (position_change_symbol calm_env) (order_change_symbol calm_env)
        (config_load_window_settings calm_env) (chart_set_theme calm_env).

(** Collaborators whose managers answer with [None]. *)
Definition silent_env : env :=
  mkEnv (update_all calm_env)
        (fun _ => Ok PyNone) (fun _ => Ok PyNone)
        (get_wallet_balance calm_env)
        (chart_update_price calm_env) (chart_update_positions_and_orders calm_env)
        (sl_tp_dialog calm_env) (set_trading_stop calm_env) (handle_bybit_error calm_env)
        (remote_close calm_env) (ws_send calm_env)
        (config_save_window_settings calm_env) (data_change_symbol calm_env)
        (position_change_symbol calm_env) (order_change_symbol calm_env)
        (config_load_window_settings calm_env) (chart_set_theme calm_env).

(** A window whose tables show a row each. *)
Definition showing_window : window :=
  set_orders_table (fun _ => [mkRow [[Lit "ETHUSDT"]] None])
    (set_positions_table (fun _ => [mkRow [[Lit "BTCUSDT"]] (Some (btc_position "0.5"))])
       initial_window).

(** The calls to the managers, the session and the chart among the events:
    what is left when the lines of the log are taken away. *)
Definition collaborator_calls (evs : list event) : list event :=
  List.filter (fun e => match e with
                        | LogInfo _ | LogError _ | Invoke _ _ => false
                        | _ => true
                        end) evs.

(** The text of the balance label as the poll cycle writes it. *)
Definition balance_text (q : Q) : text := [Lit "Баланс: "; Fixed 2 q; Lit " USDT"].

(** Collaborators whose wallet is empty. *)
Definition empty_wallet_env : env :=
  mkEnv (update_all calm_env) (get_positions calm_env) (get_orders calm_env)
        (fun _ => Ok (PyNum 0))
        (chart_update_price calm_env) (chart_update_positions_and_orders calm_env)
        (sl_tp_dialog calm_env) (set_trading_stop calm_env) (handle_bybit_error calm_env)
        (remote_close calm_env) (ws_send calm_env)
        (config_save_window_settings calm_env) (data_change_symbol calm_env)
        (position_change_symbol calm_env) (order_change_symbol calm_env)
        (config_load_window_settings calm_env) (chart_set_theme calm_env).

(** What [close_position] logs and shows when the position was not closed:
    the line of the log begins with [prefix], the message box and the log
    give the same [reason]. *)
Definition close_failure (prefix : string) (reason : piece) : list event :=
  [LogError [Lit prefix; reason];
   ShowMessage "Ошибка" [Lit "Не удалось закрыть позицию: "; reason]].

(** What it logs and shows when the position was closed. *)
Definition close_success (symbol : string) : list event :=
  [LogInfo [Lit "Позиция "; Lit symbol; Lit " успешно закрыта"];
   ShowMessage "Успех" [Lit "Позиция "; Lit symbol; Lit " закрыта"]].

(** An answer of the exchange that refuses the request. *)
Definition refusal : pyval :=
  PyDict [("retCode", PyNum 10001); ("retMsg", PyStr "position idx not match")].

(** A window whose two catalogs of symbols are loaded, with a text typed
    into the symbol box. *)
Definition catalog_window : window :=
  mkWindow initial_last_data ["price"; "positions"; "orders"; "balance"; "chart"] []
    [Lit "0 USDT"] [Lit "Баланс: 0 USDT"] [] [] false false
    "eth" ["BTCUSDT"; "ETHUSDT"] ["BTCUSDT"; "ETHUSDT"; "ETHBTC"]
    (Some ["BTCUSDT"; "ETHUSDT"; "ETHBTC"]) (Some 1%nat) None
    (100, 100, 1200, 800)%Q (PyStr "dark") true 0.

(** A batch for the chart and for a key that has no widget. *)
Definition unhandled_batch : dict pyval := [("chart", PyNum 1); ("volume", PyNum 7)].

(** ** The selected position *)

(** The part of the window that the selection of a position writes: the
    attribute [selected_position], which no line sets before the first
    click, the label of the details and the three buttons of the panel
    (enabled or not). *)
Record selection : Type := mkSelection {
  selected_position : option pyval;        (* [None]: the attribute is not set *)
  position_info_label : text;
  close_position_button : bool;
  edit_sl_tp_button : bool;
  multiple_tp_button : bool
}.

Definition no_position : text := [Lit "Нет выбранной позиции"].

(** The panel as lines 299 to 307 build it. *)
Definition initial_selection : selection := mkSelection None no_position false false false.

Definition set_selected_position (position : pyval) (s : selection) : selection :=
  mkSelection (Some position) (position_info_label s)
    (close_position_button s) (edit_sl_tp_button s) (multiple_tp_button s).

Definition set_position_info_label (t : text) (s : selection) : selection :=
  mkSelection (selected_position s) t
    (close_position_button s) (edit_sl_tp_button s) (multiple_tp_button s).

(** Sequencing of outcomes. *)
Definition and_then {A B} (o : outcome A) (k : A -> outcome B) : outcome B :=
  match o with
  | Ok a => k a
  | Raise e => Raise e
  end.

(** [update_position_buttons_state], line 670. *)
Definition update_position_buttons_state (s : selection) : selection :=
  let has_position := match selected_position s with
                      | None | Some PyNone => false
                      | Some _ => true
                      end in
  mkSelection (selected_position s) (position_info_label s)
    has_position has_position has_position.

(** [reset_position_selection], line 831. *)
Definition reset_position_selection (s : selection) : selection :=
  update_position_buttons_state
    (set_position_info_label no_position (set_selected_position PyNone s)).

(** The text of the details of a position. *)
Definition details (symbol side size entry_price : pyval) : text :=
  [Lit "Позиция: "; StrOf symbol; Lit " | Сторона: "; StrOf side;
   Lit " | Размер: "; StrOf size; Lit " | Цена входа: "; StrOf entry_price].

(** The f-string of [handle_position_selection], line 819: the fields
    are read from left to right. *)
Definition selection_details (position : pyval) : outcome text :=
  and_then (py_getitem position "symbol") (fun symbol =>
  and_then (py_getitem position "side") (fun side =>
  and_then (py_getitem position "size") (fun size =>
  and_then (py_get position "avgPrice" (PyStr "0")) (fun entry_price =>
  Ok (details symbol side size entry_price))))).

(** [update_position_details], line 677: the entry price is read first. *)
Definition update_position_details (s : selection) : outcome selection :=
  match selected_position s with
  | Some position =>
      if py_truthy position then
        and_then (py_get position "avgPrice" (PyStr "0")) (fun entry_price =>
        and_then (py_getitem position "symbol") (fun symbol =>
        and_then (py_getitem position "side") (fun side =>
        and_then (py_getitem position "size") (fun size =>
        Ok (set_position_info_label (details symbol side size entry_price) s)))))
      else Ok (set_position_info_label no_position s)
  | None => Ok (set_position_info_label no_position s)
  end.

(** [self.positions_table.item(row, 0).text()]: a row without items has
    no item to take the text from. *)
Definition item_text (table : list row) (row_index : nat) : outcome text :=
  match table !! row_index with
  | Some (mkRow (item0 :: _) _) => Ok item0
  | _ => Raise (AttributeError "text")
  end.

(** [handle_position_selection], line 802, on the table of the positions;
    [get_position] is the answer of the position manager for the symbol
    that the first cell of the row shows.  The result is the lines of the
    log and the new selection. *)
Definition handle_position_selection
    (get_position : text -> outcome pyval) (table : list row) (row_index : Z)
    (s : selection) : list event * selection :=
  if (row_index <? 0)%Z then ([], s)
  else
    let failed (e : exn) (s' : selection) :=
      ([LogError [Lit "Ошибка при выборе позиции: "; ExnText e]],
       reset_position_selection s') in
    match and_then (item_text table (Z.to_nat row_index)) get_position with
    | Raise e => failed e s
    | Ok position =>
        if py_truthy position then
          let s1 := update_position_buttons_state (set_selected_position position s) in
          match selection_details position with
          | Ok t => ([], set_position_info_label t s1)
          | Raise e => failed e s1
          end
        else ([], reset_position_selection s)
    end.

(** A click on the table: what the table showed, the row, and what the
    position manager answered then. *)
Record click : Type := mkClick {
  clicked_table : list row;
  clicked_row : Z;
  answers : text -> outcome pyval
}.

(** The selection after a run of clicks. *)
Definition after_clicks (clicks : list click) (s : selection) : selection :=
  fold_left (fun s c => snd (handle_position_selection (answers c) (clicked_table c)
                               (clicked_row c) s))
            clicks s.

(** The buttons agree with the selection: they are enabled together, and
    then a position is selected whose symbol, side and size can be read
    and whose details the label shows; otherwise the label says that no
    position is selected, and [selected_position] is unset or [None]. *)
Definition consistent (s : selection) : Prop :=
  edit_sl_tp_button s = close_position_button s
  /\ multiple_tp_button s = close_position_button s
  /\ if close_position_button s
     then exists position symbol side size,
            selected_position s = Some position
            /\ py_truthy position = true
            /\ py_getitem position "symbol" = Ok symbol
            /\ py_getitem position "side" = Ok side
            /\ py_getitem position "size" = Ok size
            /\ selection_details position = Ok (position_info_label s)
     else position_info_label s = no_position
          /\ (selected_position s = None \/ selected_position s = Some PyNone).

(** A position manager that knows the BTC position only, and one that
    answers with a position that has nothing but a symbol. *)
Definition btc_only (symbol : text) : outcome pyval :=
  match symbol with
  | [Lit "BTCUSDT"] => Ok (btc_position "0.5")
  | _ => Ok PyNone
  end.

Definition symbol_only (symbol : text) : outcome pyval :=
  Ok (PyDict [("symbol", PyStr "BTCUSDT")]).

(** ** The settings of the window *)

(** The settings as [save_window_settings] builds them, by their parts. *)
Definition settings_of (x y width height : Q) (theme : pyval) (symbol : string) : pyval :=
  PyDict [("window_geometry",
           PyDict [("x", PyNum x); ("y", PyNum y);
                   ("width", PyNum width); ("height", PyNum height)]);
          ("theme", theme);
          ("symbol", PyStr symbol)].

(** A window with the light theme, the symbols loaded and the second one
    selected, and collaborators whose configuration gives back the
    settings of that window. *)
Definition light_window : window :=
  mkWindow initial_last_data ["price"; "positions"; "orders"; "balance"; "chart"] []
    [Lit "0 USDT"] [Lit "Баланс: 0 USDT"] [] [] false false
    "ETHUSDT" ["BTCUSDT"; "ETHUSDT"] ["BTCUSDT"; "ETHUSDT"]
    (Some ["BTCUSDT"; "ETHUSDT"]) (Some 1%nat) (Some "ETHUSDT")
    (0, 0, 800, 600)%Q (PyStr "light") false 0.

Definition restoring_env : env :=
  mkEnv (update_all calm_env) (get_positions calm_env) (get_orders calm_env)
        (get_wallet_balance calm_env)
        (chart_update_price calm_env) (chart_update_positions_and_orders calm_env)
        (sl_tp_dialog calm_env) (set_trading_stop calm_env) (handle_bybit_error calm_env)
        (remote_close calm_env) (ws_send calm_env)
        (config_save_window_settings calm_env) (data_change_symbol calm_env)
        (position_change_symbol calm_env) (order_change_symbol calm_env)
        (fun _ => Ok (window_settings light_window)) (chart_set_theme calm_env).

(** * Properties *)

(** ** Values and dicts *)

Lemma py_eqb_refl (v : pyval) : py_eqb v v = true.
Proof.
  induction v as [ | q | s | l IH | d IH ] using pyval_nested_ind; simpl.
  - reflexivity.
  - apply Qeq_bool_iff. reflexivity.
  - apply String.eqb_refl.
  - induction IH as [ | x l Hx _ IHl ]; simpl; [ reflexivity | ].
    rewrite Hx. exact IHl.
  - rewrite Nat.eqb_refl. simpl.
    apply forallb_forall. intros [k x] Hin.
    apply existsb_exists. exists (k, x). split; [ exact Hin | ].
    simpl. rewrite String.eqb_refl. simpl.
    rewrite List.Forall_forall in IH. exact (IH (k, x) Hin).
Qed.

Lemma py_ne_refl (v : pyval) : py_ne v v = false.
Proof. unfold py_ne. rewrite py_eqb_refl. reflexivity. Qed.

Lemma dict_get_absent {V} (d : dict V) (k : string) :
  k ∉ keys d -> dict_get d k = None.
Proof.
  induction d as [ | [k' v] d IH ]; simpl; intros Hk; [ reflexivity | ].
  apply not_elem_of_cons in Hk as [Hne Hk].
  rewrite (IH Hk). destruct (String.eqb_spec k' k); congruence.
Qed.

Lemma dict_get_present {V} (d : dict V) (k : string) (v : V) :
  NoDup (keys d) -> (k, v) ∈ d -> dict_get d k = Some v.
Proof.
  induction d as [ | [k' v'] d IH ]; simpl; intros Hnd Hin.
  - inversion Hin.
  - apply NoDup_cons in Hnd as [Hk' Hnd].
    apply elem_of_cons in Hin as [Heq | Hin].
    + inversion Heq; subst. rewrite (dict_get_absent d k' Hk').
      rewrite String.eqb_refl. reflexivity.
    + rewrite (IH Hnd Hin). reflexivity.
Qed.

Lemma keys_dict_set {V} (d : dict V) (k : string) (v : V) (k' : string) :
  k' ∈ keys (dict_set d k v) <-> k' = k \/ k' ∈ keys d.
Proof.
  induction d as [ | [k0 v0] d IH ]; simpl.
  - rewrite elem_of_cons. rewrite elem_of_nil. tauto.
  - destruct (String.eqb_spec k0 k); simpl; rewrite !elem_of_cons.
    + subst. tauto.
    + rewrite IH. tauto.
Qed.

Lemma NoDup_dict_set {V} (d : dict V) (k : string) (v : V) :
  NoDup (keys d) -> NoDup (keys (dict_set d k v)).
Proof.
  induction d as [ | [k0 v0] d IH ]; simpl; intros Hnd.
  - apply NoDup_singleton.
  - apply NoDup_cons in Hnd as [Hk0 Hnd].
    destruct (String.eqb_spec k0 k); simpl; apply NoDup_cons.
    + split; assumption.
    + split; [ | apply IH; assumption ].
      rewrite keys_dict_set. intros [Heq | Hin]; [ congruence | contradiction ].
Qed.

Lemma dict_get_set {V} (d : dict V) (k : string) (v : V) (k' : string) :
  NoDup (keys d) ->
  dict_get (dict_set d k v) k' = if String.eqb k k' then Some v else dict_get d k'.
Proof.
  induction d as [ | [k0 v0] d IH ]; simpl; intros Hnd.
  - reflexivity.
  - apply NoDup_cons in Hnd as [Hk0 Hnd].
    destruct (String.eqb_spec k0 k) as [-> | Hne]; simpl.
    + destruct (String.eqb_spec k k') as [-> | Hne'].
      * rewrite (dict_get_absent d k' Hk0). reflexivity.
      * reflexivity.
    + rewrite (IH Hnd). destruct (String.eqb_spec k k') as [-> | Hne'].
      * reflexivity.
      * reflexivity.
Qed.

Lemma NoDup_dict_update {V} (data d : dict V) :
  NoDup (keys d) -> NoDup (keys (dict_update d data)).
Proof.
  unfold dict_update. revert d.
  induction data as [ | [k v] data IH ]; simpl; intros d Hnd; [ exact Hnd | ].
  apply IH, NoDup_dict_set, Hnd.
Qed.

Lemma dict_get_update {V} (data d : dict V) (k : string) :
  NoDup (keys d) ->
  dict_get (dict_update d data) k =
  match dict_get data k with Some v => Some v | None => dict_get d k end.
Proof.
  unfold dict_update. revert d.
  induction data as [ | [k0 v0] data IH ]; simpl; intros d Hnd; [ reflexivity | ].
  rewrite (IH _ (NoDup_dict_set d k0 v0 Hnd)).
  destruct (dict_get data k); [ reflexivity | ].
  rewrite (dict_get_set d k0 v0 k Hnd).
  destruct (String.eqb k0 k); reflexivity.
Qed.

Lemma NoDup_drain_from (queue : list (dict pyval)) (d : dict pyval) :
  NoDup (keys d) -> NoDup (keys (fold_left dict_update queue d)).
Proof.
  revert d. induction queue as [ | data queue IH ]; simpl; intros d Hnd; [ exact Hnd | ].
  apply IH, NoDup_dict_update, Hnd.
Qed.

Lemma NoDup_drain (queue : list (dict pyval)) : NoDup (keys (drain queue)).
Proof. apply NoDup_drain_from. apply NoDup_nil_2. Qed.

Lemma dict_get_drain_from (queue : list (dict pyval)) (d : dict pyval) (topic : string) :
  NoDup (keys d) ->
  dict_get (fold_left dict_update queue d) topic =
  match last (published queue topic) with Some v => Some v | None => dict_get d topic end.
Proof.
  revert d. induction queue as [ | data queue IH ]; simpl; intros d Hnd; [ reflexivity | ].
  rewrite (IH _ (NoDup_dict_update data d Hnd)).
  rewrite (dict_get_update data d topic Hnd).
  unfold published; simpl. fold (published queue topic).
  destruct (dict_get data topic) as [v | ]; [ | reflexivity ].
  rewrite last_cons. destruct (last (published queue topic)); reflexivity.
Qed.

Lemma dict_get_drain (queue : list (dict pyval)) (topic : string) :
  dict_get (drain queue) topic = last (published queue topic).
Proof.
  unfold drain. rewrite dict_get_drain_from by apply NoDup_nil_2.
  destruct (last (published queue topic)); reflexivity.
Qed.

(** ** The effect monad *)

Lemma invocations_app (a b : list event) :
  invocations (a ++ b) = invocations a ++ invocations b.
Proof. unfold invocations. apply omap_app. Qed.

Lemma result_eta {A} (r : result A) : mkResult (events r) (out r) (st r) = r.
Proof. destruct r. reflexivity. Qed.

Lemma bind_lift_ok {A B} (a : A) (k : A -> M B) (w : window) :
  bind (lift (Ok a)) k w = k a w.
Proof. unfold bind, lift. cbn [out events st app]. apply result_eta. Qed.

Lemma bind_lift_raise {A B} (e : exn) (k : A -> M B) (w : window) :
  bind (lift (Raise e)) k w = mkResult [] (Raise e) w.
Proof. reflexivity. Qed.

Lemma bind_ret {A B} (a : A) (k : A -> M B) (w : window) :
  bind (ret a) k w = k a w.
Proof. unfold bind, ret. cbn [out events st app]. apply result_eta. Qed.

Lemma bind_gets {A B} (g : window -> A) (k : A -> M B) (w : window) :
  bind (gets g) k w = k (g w) w.
Proof. unfold bind, gets. cbn [out events st app]. apply result_eta. Qed.

Lemma bind_modify {B} (g : window -> window) (k : unit -> M B) (w : window) :
  bind (modify g) k w = k tt (g w).
Proof. unfold bind, modify. cbn [out events st app]. apply result_eta. Qed.

Lemma bind_emit {B} (e : event) (k : unit -> M B) (w : window) :
  bind (emit e) k w = mkResult (e :: events (k tt w)) (out (k tt w)) (st (k tt w)).
Proof. reflexivity. Qed.

Lemma bind_call {A B} (e : event) (answer : nat -> outcome A) (k : A -> M B) (w : window) :
  bind (call e answer) k w =
  match answer (clock w) with
  | Ok a => mkResult (e :: events (k a (tick w))) (out (k a (tick w))) (st (k a (tick w)))
  | Raise x => mkResult [e] (Raise x) (tick w)
  end.
Proof. unfold bind, call. cbn [out events st]. destruct (answer (clock w)); reflexivity. Qed.

Lemma bind_run {A B} (m : M A) (k : A -> M B) (w : window) :
  bind m k w =
  match out (m w) with
  | Ok a => mkResult (events (m w) ++ events (k a (st (m w))))
                     (out (k a (st (m w)))) (st (k a (st (m w))))
  | Raise e => mkResult (events (m w)) (Raise e) (st (m w))
  end.
Proof. reflexivity. Qed.

Lemma bind_raise {A B} (e : exn) (k : A -> M B) (w : window) :
  bind (raise e) k w = mkResult [] (Raise e) w.
Proof. reflexivity. Qed.

Lemma try_except_run {A} (body : M A) (handler : exn -> M A) (w : window) :
  try_except body handler w =
  match out (body w) with
  | Ok _ => body w
  | Raise e =>
      mkResult (events (body w) ++ events (handler e (st (body w))))
               (out (handler e (st (body w)))) (st (handler e (st (body w))))
  end.
Proof. reflexivity. Qed.

Section Frames.
Context {X : Type} (f : window -> X).

Lemma preserves_ret {A} (a : A) : preserves f (ret a).
Proof. intros w. reflexivity. Qed.

Lemma preserves_raise {A} (e : exn) : preserves f (@raise A e).
Proof. intros w. reflexivity. Qed.

Lemma preserves_emit (e : event) : preserves f (emit e).
Proof. intros w. reflexivity. Qed.

Lemma preserves_lift {A} (o : outcome A) : preserves f (lift o).
Proof. intros w. reflexivity. Qed.

Lemma preserves_gets {A} (g : window -> A) : preserves f (gets g).
Proof. intros w. reflexivity. Qed.

Lemma preserves_modify (g : window -> window) :
  (forall w, f (g w) = f w) -> preserves f (modify g).
Proof. intros H w. apply H. Qed.

Lemma preserves_bind {A B} (m : M A) (k : A -> M B) :
  preserves f m -> (forall a, preserves f (k a)) -> preserves f (bind m k).
Proof.
  intros Hm Hk w. unfold bind.
  destruct (out (m w)) as [a | e]; simpl.
  - rewrite Hk. apply Hm.
  - apply Hm.
Qed.

Lemma preserves_try_except {A} (body : M A) (handler : exn -> M A) :
  preserves f body -> (forall e, preserves f (handler e)) ->
  preserves f (try_except body handler).
Proof.
  intros Hb Hh w. unfold try_except.
  destruct (out (body w)) as [a | e]; simpl.
  - apply Hb.
  - rewrite Hh. apply Hb.
Qed.

Lemma preserves_if {A} (b : bool) (m1 m2 : M A) :
  preserves f m1 -> preserves f m2 -> preserves f (if b then m1 else m2).
Proof. destruct b; auto. Qed.

End Frames.

Lemma quiet_ret {A} (a : A) : quiet (ret a).
Proof. intros w. reflexivity. Qed.

Lemma quiet_raise {A} (e : exn) : quiet (@raise A e).
Proof. intros w. reflexivity. Qed.

Lemma quiet_lift {A} (o : outcome A) : quiet (lift o).
Proof. intros w. reflexivity. Qed.

Lemma quiet_gets {A} (g : window -> A) : quiet (gets g).
Proof. intros w. reflexivity. Qed.

Lemma quiet_modify (g : window -> window) : quiet (modify g).
Proof. intros w. reflexivity. Qed.

Lemma quiet_bind {A B} (m : M A) (k : A -> M B) :
  quiet m -> (forall a, quiet (k a)) -> quiet (bind m k).
Proof.
  intros Hm Hk w. unfold bind.
  destruct (out (m w)) as [a | e]; simpl.
  - rewrite invocations_app, Hm, Hk. reflexivity.
  - apply Hm.
Qed.

Lemma quiet_try_except {A} (body : M A) (handler : exn -> M A) :
  quiet body -> (forall e, quiet (handler e)) -> quiet (try_except body handler).
Proof.
  intros Hb Hh w. unfold try_except.
  destruct (out (body w)) as [a | e]; simpl.
  - apply Hb.
  - rewrite invocations_app, Hb, Hh. reflexivity.
Qed.

Lemma quiet_if {A} (b : bool) (m1 m2 : M A) :
  quiet m1 -> quiet m2 -> quiet (if b then m1 else m2).
Proof. destruct b; auto. Qed.

(** Frame and quietness goals are settled by following the structure of
    the method. *)
Create HintDb frames.

Ltac frame_step :=
  first
    [ solve [ auto with frames ]
    | apply preserves_bind | apply preserves_try_except | apply preserves_if
    | apply preserves_ret | apply preserves_raise | apply preserves_emit
    | apply preserves_lift | apply preserves_gets
    | apply preserves_modify; intros; reflexivity
    | apply quiet_bind | apply quiet_try_except | apply quiet_if
    | apply quiet_ret | apply quiet_raise | apply quiet_lift | apply quiet_gets
    | apply quiet_modify
    | intros ?; reflexivity
    | intro ].

Ltac frame := repeat frame_step.

(** ** What the handlers leave alone *)

Section HandlerFrames.
Variable E : env.

Lemma table_item_frame (v : pyval) : preserves dispatcher_state (table_item v).
Proof. destruct v; frame. Qed.

Lemma table_item_quiet (v : pyval) : quiet (table_item v).
Proof. destruct v; frame. Qed.

Hint Resolve table_item_frame table_item_quiet : frames.

Lemma position_items_frame (p : pyval) : preserves dispatcher_state (position_items p).
Proof. unfold position_items. frame. Qed.

Lemma position_items_quiet (p : pyval) : quiet (position_items p).
Proof. unfold position_items. frame. Qed.

Hint Resolve position_items_frame position_items_quiet : frames.

Lemma positions_loop_frame (l : list pyval) : preserves dispatcher_state (positions_loop l).
Proof. induction l as [ | p l IH ]; simpl; unfold positions_turn; frame. Qed.

Lemma positions_loop_quiet (l : list pyval) : quiet (positions_loop l).
Proof. induction l as [ | p l IH ]; simpl; unfold positions_turn; frame. Qed.

Hint Resolve positions_loop_frame positions_loop_quiet : frames.

Lemma update_positions_table_frame (a : pyval) :
  preserves dispatcher_state (update_positions_table E a).
Proof. unfold update_positions_table. frame. Qed.

Lemma update_positions_table_quiet (a : pyval) : quiet (update_positions_table E a).
Proof. unfold update_positions_table. frame. Qed.

Lemma order_items_frame (o : pyval) : preserves dispatcher_state (order_items o).
Proof. unfold order_items. frame. Qed.

Lemma order_items_quiet (o : pyval) : quiet (order_items o).
Proof. unfold order_items. frame. Qed.

Hint Resolve order_items_frame order_items_quiet : frames.

Lemma orders_loop_frame (l : list pyval) : preserves dispatcher_state (orders_loop l).
Proof. induction l as [ | o l IH ]; simpl; unfold orders_turn; frame. Qed.

Lemma orders_loop_quiet (l : list pyval) : quiet (orders_loop l).
Proof. induction l as [ | o l IH ]; simpl; unfold orders_turn; frame. Qed.

Hint Resolve orders_loop_frame orders_loop_quiet : frames.

Lemma update_orders_table_frame : preserves dispatcher_state (update_orders_table E).
Proof. unfold update_orders_table. frame. Qed.

Lemma update_orders_table_quiet : quiet (update_orders_table E).
Proof. unfold update_orders_table. frame. Qed.

Lemma update_chart_positions_frame : preserves dispatcher_state (update_chart_positions E).
Proof. unfold update_chart_positions. frame. Qed.

Lemma update_chart_positions_quiet : quiet (update_chart_positions E).
Proof. unfold update_chart_positions. frame. Qed.

Hint Resolve update_positions_table_frame update_positions_table_quiet
  update_orders_table_frame update_orders_table_quiet
  update_chart_positions_frame update_chart_positions_quiet : frames.

Lemma dispatch_frame (t : string) (v : pyval) :
  preserves dispatcher_state (dispatch E t v).
Proof.
  unfold dispatch, _handle_price_update, _handle_positions_update,
    _handle_orders_update, _handle_balance_update.
  frame.
Qed.

Lemma invocations_after_emit {A} (t : string) (a : option pyval) (m : M A) (w : window) :
  quiet m ->
  invocations (events (bind (emit (Invoke t a)) (fun _ => m) w)) = [(t, a)].
Proof.
  intros Hq. unfold bind; simpl. rewrite (Hq w). reflexivity.
Qed.

(** A dispatch calls the handler of its topic once, and no other. *)
Lemma dispatch_invocations (t : string) (v : pyval) (w : window) :
  invocations (events (dispatch E t v w)) =
  if has_handler t then [(t, handler_arg t v)] else [].
Proof.
  unfold dispatch, has_handler, handler_arg.
  destruct (String.eqb_spec t "price") as [-> | _].
  { apply invocations_after_emit. frame. }
  destruct (String.eqb_spec t "positions") as [-> | _].
  { apply invocations_after_emit. frame. }
  destruct (String.eqb_spec t "orders") as [-> | _].
  { apply invocations_after_emit. frame. }
  destruct (String.eqb_spec t "balance") as [-> | _].
  { apply invocations_after_emit. frame. }
  reflexivity.
Qed.

End HandlerFrames.

(** ** The batched update loop *)

Section UpdateLoop.
Variable E : env.

Lemma dispatch_last_data (t : string) (v : pyval) (w : window) :
  _last_data (st (dispatch E t v w)) = _last_data w.
Proof. pose proof (dispatch_frame E t v w) as H. inversion H. reflexivity. Qed.

Lemma dispatch_widgets (t : string) (v : pyval) (w : window) :
  _widgets (st (dispatch E t v w)) = _widgets w.
Proof. pose proof (dispatch_frame E t v w) as H. inversion H. reflexivity. Qed.

Lemma dispatch_raise_has_handler (t : string) (v : pyval) (w : window) (e : exn) :
  out (dispatch E t v w) = Raise e -> has_handler t = true.
Proof.
  unfold dispatch, has_handler.
  destruct (String.eqb t "price"); [ reflexivity | ].
  destruct (String.eqb t "positions"); [ reflexivity | ].
  destruct (String.eqb t "orders"); [ reflexivity | ].
  destruct (String.eqb t "balance"); [ reflexivity | ].
  discriminate.
Qed.

(** One turn of the loop: nothing happens when the value equals the
    snapshot; otherwise the handler runs and, when it returns, the value
    is recorded. *)
Lemma update_widget_run (t : string) (v : pyval) (w : window) :
  let r := update_widget E t v w in
  (py_ne (last_data_get w t) v = false /\ r = mkResult [] (Ok tt) w)
  \/
  (py_ne (last_data_get w t) v = true
   /\ _widgets (st r) = _widgets w
   /\ invocations (events r) =
        (if in_widgets t w && has_handler t then [(t, handler_arg t v)] else [])
   /\ ((out r = Ok tt /\ _last_data (st r) = <[t := v]> (_last_data w))
       \/ (exists e, out r = Raise e /\ _last_data (st r) = _last_data w
                     /\ in_widgets t w = true /\ has_handler t = true))).
Proof.
  unfold update_widget. unfold bind at 1. simpl.
  destruct (py_ne (last_data_get w t) v) eqn:Hne; [ right | left; auto ].
  split; [ reflexivity | ].
  unfold bind at 1 2 3. simpl.
  destruct (in_widgets t w) eqn:Hin; simpl.
  - pose proof (dispatch_last_data t v w) as Hl.
    pose proof (dispatch_widgets t v w) as Hw.
    pose proof (dispatch_invocations E t v w) as Hi.
    unfold bind.
    destruct (out (dispatch E t v w)) as [ [] | e ] eqn:Hd; simpl.
    + rewrite app_nil_r. rewrite Hl, Hw, Hi. auto.
    + rewrite Hl, Hw, Hi. split; [ reflexivity | ]. split; [ reflexivity | ].
      right. exists e. repeat split. exact (dispatch_raise_has_handler t v w e Hd).
  - unfold bind. simpl. auto.
Qed.

(** A handler that raises makes its turn raise: the loop has no [try]. *)
Lemma update_widget_propagates (t : string) (v : pyval) (w : window) (e : exn) :
  py_ne (last_data_get w t) v = true ->
  in_widgets t w = true ->
  out (dispatch E t v w) = Raise e ->
  update_widget E t v w = mkResult (events (dispatch E t v w)) (Raise e) (st (dispatch E t v w)).
Proof.
  intros Hne Hin Hd. unfold update_widget.
  rewrite bind_gets, Hne, bind_gets, Hin, bind_run, Hd. reflexivity.
Qed.

#[local] Opaque update_widget.

Lemma update_widget_widgets (t : string) (v : pyval) (w : window) :
  _widgets (st (update_widget E t v w)) = _widgets w.
Proof.
  destruct (update_widget_run t v w) as [[_ ->] | (_ & H & _)]; [ reflexivity | exact H ].
Qed.

Lemma update_widget_other (t t' : string) (v : pyval) (w : window) :
  t' <> t ->
  _last_data (st (update_widget E t v w)) !! t' = _last_data w !! t'.
Proof.
  intros Hne.
  destruct (update_widget_run t v w) as [[_ ->] | (_ & _ & _ & [[_ ->] | (e & _ & -> & _)])];
    try reflexivity.
  apply lookup_insert_ne. congruence.
Qed.

Lemma last_data_get_ext (w w' : window) (t : string) :
  _last_data w' !! t = _last_data w !! t -> last_data_get w' t = last_data_get w t.
Proof. unfold last_data_get. intros ->. reflexivity. Qed.

Lemma in_widgets_ext (w w' : window) (t : string) :
  _widgets w' = _widgets w -> in_widgets t w' = in_widgets t w.
Proof. unfold in_widgets. intros ->. reflexivity. Qed.

Lemma update_widgets_other (items : dict pyval) (w : window) (t' : string) :
  t' ∉ keys items ->
  _last_data (st (update_widgets E items w)) !! t' = _last_data w !! t'.
Proof.
  revert w. induction items as [ | [t v] items IH ]; intros w Hk; simpl; [ reflexivity | ].
  simpl in Hk. apply not_elem_of_cons in Hk as [Hne Hk].
  unfold bind. destruct (out (update_widget E t v w)); simpl.
  - rewrite (IH _ Hk). apply update_widget_other, Hne.
  - apply update_widget_other, Hne.
Qed.

(** Every handler call of a flush is for an item of the batch whose value
    differs from the snapshot the flush started from. *)
Lemma update_widgets_invocations (items : dict pyval) (w : window) (t : string) (a : option pyval) :
  NoDup (keys items) ->
  (t, a) ∈ invocations (events (update_widgets E items w)) ->
  exists v, (t, v) ∈ items /\ a = handler_arg t v
            /\ py_ne (last_data_get w t) v = true
            /\ in_widgets t w = true /\ has_handler t = true.
Proof.
  revert w. induction items as [ | [t0 v0] items IH ]; intros w Hnd Hin; simpl in *.
  - inversion Hin.
  - apply NoDup_cons in Hnd as [Hk Hnd].
    assert (Hhead : (t, a) ∈ invocations (events (update_widget E t0 v0 w)) ->
              exists v, (t, v) ∈ (t0, v0) :: items /\ a = handler_arg t v
                        /\ py_ne (last_data_get w t) v = true
                        /\ in_widgets t w = true /\ has_handler t = true).
    { destruct (update_widget_run t0 v0 w) as [[_ ->] | (Hne & _ & -> & _)].
      - intros H; inversion H.
      - destruct (in_widgets t0 w) eqn:Hw; simpl; [ | intros H; inversion H ].
        destruct (has_handler t0) eqn:Hh; [ | intros H; inversion H ].
        intros H. apply list_elem_of_singleton in H. inversion H; subst.
        exists v0. repeat split; auto. left. }
    unfold bind in Hin.
    destruct (out (update_widget E t0 v0 w)) as [ [] | e ]; simpl in Hin.
    + rewrite invocations_app in Hin. apply elem_of_app in Hin as [Hin | Hin].
      * apply Hhead, Hin.
      * destruct (IH _ Hnd Hin) as (v & Hv & Ha & Hne & Hw & Hh).
        assert (Hneq : t <> t0).
        { intros ->. apply Hk. apply list_elem_of_fmap. exists (t0, v). auto. }
        exists v. repeat split; auto.
        -- right. exact Hv.
        -- rewrite <- Hne. f_equal. symmetry.
           apply last_data_get_ext, update_widget_other, Hneq.
        -- rewrite <- Hw. symmetry. apply in_widgets_ext, update_widget_widgets.
    + apply Hhead, Hin.
Qed.

(** No topic's handler is called twice in a flush. *)
Lemma update_widgets_topics (items : dict pyval) (w : window) :
  (invocations (events (update_widgets E items w))).*1 `sublist_of` keys items.
Proof.
  revert w. induction items as [ | [t0 v0] items IH ]; intros w; simpl.
  - constructor.
  - assert (Hhead : (invocations (events (update_widget E t0 v0 w))).*1 `sublist_of` [t0]).
    { destruct (update_widget_run t0 v0 w) as [[_ ->] | (_ & _ & -> & _)].
      - simpl. apply sublist_nil_l.
      - destruct (in_widgets t0 w && has_handler t0); simpl.
        + reflexivity.
        + apply sublist_nil_l. }
    unfold bind. destruct (out (update_widget E t0 v0 w)); simpl.
    + rewrite invocations_app, fmap_app.
      change (t0 :: keys items) with ([t0] ++ keys items).
      apply sublist_app; [ exact Hhead | apply IH ].
    + change (t0 :: keys items) with ([t0] ++ keys items).
      apply sublist_inserts_r. exact Hhead.
Qed.

(** After a flush that returned, the snapshot agrees with every value of
    the batch. *)
Lemma update_widgets_recorded (items : dict pyval) (w : window) (t : string) (v : pyval) :
  NoDup (keys items) ->
  out (update_widgets E items w) = Ok tt ->
  (t, v) ∈ items ->
  (py_ne (last_data_get w t) v = true ->
     _last_data (st (update_widgets E items w)) !! t = Some v)
  /\ (py_ne (last_data_get w t) v = false ->
     _last_data (st (update_widgets E items w)) !! t = _last_data w !! t).
Proof.
  revert w. induction items as [ | [t0 v0] items IH ]; intros w Hnd Hout Hin; simpl in *.
  - inversion Hin.
  - apply NoDup_cons in Hnd as [Hk Hnd].
    unfold bind in *.
    destruct (out (update_widget E t0 v0 w)) as [ [] | e ] eqn:Ho; simpl in *; [ | discriminate ].
    apply elem_of_cons in Hin as [Heq | Hin].
    + inversion Heq; subst t0 v0.
      rewrite (update_widgets_other items _ t Hk).
      destruct (update_widget_run t v w) as [[Hne ->] | (Hne & _ & _ & [[_ ->] | (e & He & _)])].
      * split; [ congruence | reflexivity ].
      * split; [ intros _; apply lookup_insert_eq | congruence ].
      * congruence.
    + assert (Hneq : t <> t0).
      { intros ->. apply Hk. apply list_elem_of_fmap. exists (t0, v). auto. }
      destruct (IH _ Hnd Hout Hin) as [H1 H2].
      pose proof (update_widget_other t0 t v0 w Hneq) as Hsame.
      rewrite (last_data_get_ext _ _ _ Hsame) in H1, H2.
      split; [ exact H1 | ]. intros Hne. rewrite (H2 Hne). exact Hsame.
Qed.

Lemma keys_app {V} (d1 d2 : dict V) : keys (d1 ++ d2) = keys d1 ++ keys d2.
Proof. unfold keys. apply map_app. Qed.

Lemma elem_of_keys {V} (d : dict V) (k : string) (v : V) : (k, v) ∈ d -> k ∈ keys d.
Proof. intros H. apply list_elem_of_fmap. exists (k, v). auto. Qed.

(** A flush that raises stopped at one item of the batch: the items before
    it were processed, and the turn for this item raised. *)
Lemma update_widgets_raise_split (items : dict pyval) (w : window) (e : exn) :
  out (update_widgets E items w) = Raise e ->
  exists pre t v post,
    items = pre ++ (t, v) :: post
    /\ out (update_widgets E pre w) = Ok tt
    /\ out (update_widget E t v (st (update_widgets E pre w))) = Raise e
    /\ events (update_widgets E items w) =
         events (update_widgets E pre w)
         ++ events (update_widget E t v (st (update_widgets E pre w)))
    /\ st (update_widgets E items w) = st (update_widget E t v (st (update_widgets E pre w))).
Proof.
  revert w. induction items as [ | [t0 v0] items IH ]; intros w Hout.
  - discriminate.
  - cbn [update_widgets] in *. unfold bind in *.
    destruct (out (update_widget E t0 v0 w)) as [ [] | e0 ] eqn:Ho; cbn [out events st] in *.
    + destruct (IH _ Hout) as (pre & t & v & post & -> & Hpre & Hr & Hev & Hst).
      exists ((t0, v0) :: pre), t, v, post.
      cbn [update_widgets]. unfold bind. rewrite Ho. cbn [out events st].
      repeat split; auto.
      rewrite Hev. rewrite app_assoc. reflexivity.
    + exists [], t0, v0, items. cbn [update_widgets]. unfold ret. cbn [out events st].
      inversion Hout; subst. repeat split; auto.
Qed.

Lemma update_widgets_keep_widgets (items : dict pyval) (w : window) :
  _widgets (st (update_widgets E items w)) = _widgets w.
Proof.
  revert w. induction items as [ | [t v] items IH ]; intros w; [ reflexivity | ].
  cbn [update_widgets]. unfold bind.
  destruct (out (update_widget E t v w)); cbn [st].
  - rewrite IH. apply update_widget_widgets.
  - apply update_widget_widgets.
Qed.

(** A flush of a batch in two parts, when the first part returns. *)
Lemma update_widgets_app_ok (pre rest : dict pyval) (w : window) :
  out (update_widgets E pre w) = Ok tt ->
  let w1 := st (update_widgets E pre w) in
  update_widgets E (pre ++ rest) w =
  mkResult (events (update_widgets E pre w) ++ events (update_widgets E rest w1))
           (out (update_widgets E rest w1)) (st (update_widgets E rest w1)).
Proof.
  cbv zeta. revert w. induction pre as [ | [t v] pre IH ]; intros w Hout.
  - cbn [app update_widgets ret st events]. symmetry. apply result_eta.
  - cbn [app update_widgets] in *. rewrite bind_run in Hout. rewrite !bind_run.
    destruct (out (update_widget E t v w)) as [ [] | e ]; [ | discriminate ].
    cbn [out events st] in *. rewrite (IH _ Hout). cbn [out events st].
    rewrite app_assoc. reflexivity.
Qed.

(** A flush whose turn for one item raises, after the items before it
    were processed: the exception leaves the flush, the handler of the
    item was called, its snapshot is as it was, the items after it were
    neither dispatched nor recorded, and the items before it stay
    recorded. *)
Lemma flush_stops_at (pre post : dict pyval) (t : string) (v : pyval) (e : exn) (w : window) :
  NoDup (keys (pre ++ (t, v) :: post)) ->
  out (update_widgets E pre w) = Ok tt ->
  out (update_widget E t v (st (update_widgets E pre w))) = Raise e ->
  let r := update_widgets E (pre ++ (t, v) :: post) w in
  out r = Raise e
  /\ (t, handler_arg t v) ∈ invocations (events r)
  /\ py_ne (last_data_get w t) v = true
  /\ (in_widgets t w = true /\ has_handler t = true)
  /\ _last_data (st r) !! t = _last_data w !! t
  /\ (forall t' v', (t', v') ∈ post ->
        _last_data (st r) !! t' = _last_data w !! t'
        /\ forall a, (t', a) ∉ invocations (events r))
  /\ (forall t' v', (t', v') ∈ pre -> py_ne (last_data_get (st r) t') v' = false).
Proof.
  intros Hnd Hpre Hturn. cbv zeta.
  set (r := update_widgets E (pre ++ (t, v) :: post) w).
  set (w1 := st (update_widgets E pre w)) in *.
  assert (Hr : r = mkResult (events (update_widgets E pre w)
                             ++ events (update_widget E t v w1))
                            (Raise e) (st (update_widget E t v w1))).
  { unfold r. rewrite (update_widgets_app_ok pre ((t, v) :: post) w Hpre). fold w1.
    cbn [update_widgets]. rewrite bind_run, Hturn. reflexivity. }
  rewrite keys_app in Hnd. simpl in Hnd.
  apply NoDup_app in Hnd as (Hnd_pre & Hdisj & Hnd_post).
  apply NoDup_cons in Hnd_post as [Ht_post Hnd_post].
  assert (Ht_pre : t ∉ keys pre).
  { intros H. apply (Hdisj t H). left. }
  assert (Hw1 : forall t', t' ∉ keys pre -> _last_data w1 !! t' = _last_data w !! t').
  { intros t' H. apply update_widgets_other, H. }
  destruct (update_widget_run t v w1)
    as [[_ Hrun] | (Hne & _ & Hinv & [[Hok _] | (e' & _ & Hld & Hin & Hh)])].
  { rewrite Hrun in Hturn. discriminate. }
  { congruence. }
  rewrite Hin, Hh in Hinv. simpl in Hinv.
  assert (Hall : invocations (events r) =
                 invocations (events (update_widgets E pre w)) ++ [(t, handler_arg t v)]).
  { rewrite Hr. cbn [events]. rewrite invocations_app, Hinv. reflexivity. }
  assert (Hfinal : _last_data (st r) = _last_data w1).
  { rewrite Hr. exact Hld. }
  split; [ rewrite Hr; reflexivity | ].
  split; [ rewrite Hall; apply elem_of_app; right; left | ].
  split; [ rewrite <- Hne; f_equal; symmetry; apply last_data_get_ext, Hw1, Ht_pre | ].
  split.
  { split; [ | exact Hh ]. rewrite <- Hin. symmetry.
    apply in_widgets_ext, update_widgets_keep_widgets. }
  split; [ rewrite Hfinal; apply Hw1, Ht_pre | ].
  split.
  - intros t' v' Hpost.
    assert (Hk' : t' ∈ keys post) by (eapply elem_of_keys; eauto).
    assert (Hnp : t' ∉ keys pre).
    { intros H. apply (Hdisj t' H). right. exact Hk'. }
    split; [ rewrite Hfinal; apply Hw1, Hnp | ].
    intros a Ha. rewrite Hall in Ha. apply elem_of_app in Ha as [Ha | Ha].
    + apply Hnp.
      apply (elem_of_sublist ((invocations (events (update_widgets E pre w))).*1) (keys pre) t');
        [ | apply update_widgets_topics ].
      apply list_elem_of_fmap. exists (t', a). auto.
    + apply list_elem_of_singleton in Ha. inversion Ha; subst. contradiction.
  - intros t' v' Hin'.
    destruct (update_widgets_recorded pre w t' v' Hnd_pre Hpre Hin') as [H1 H2].
    fold w1 in H1, H2.
    destruct (py_ne (last_data_get w t') v') eqn:Hne'.
    + unfold last_data_get. rewrite Hfinal, (H1 eq_refl). apply py_ne_refl.
    + rewrite <- Hne'. f_equal. apply last_data_get_ext. rewrite Hfinal. apply H2. reflexivity.
Qed.

(** A flush of one item whose value differs from the snapshot calls the
    handler of a registered topic. *)
Lemma update_widgets_one (t : string) (v : pyval) (w : window) :
  py_ne (last_data_get w t) v = true ->
  in_widgets t w = true -> has_handler t = true ->
  invocations (events (update_widgets E [(t, v)] w)) = [(t, handler_arg t v)].
Proof.
  intros Hne Hin Hh. cbn [update_widgets]. rewrite bind_run.
  destruct (update_widget_run t v w) as [[Hsame _] | (_ & _ & Hinv & _)]; [ congruence | ].
  rewrite Hin, Hh in Hinv. cbn [andb] in Hinv.
  destruct (out (update_widget E t v w)); cbn [events ret];
    rewrite ?app_nil_r; exact Hinv.
Qed.

#[local] Transparent update_widget.

End UpdateLoop.

Section Dispatcher.
Variable E : env.

#[local] Opaque update_widget.

(** C1, as amended.  In a flush ([_update_ui] on a batch, a dict, so with
    distinct keys) a handler is called only for a topic whose value in the
    batch differs from the snapshot [_last_data] held when the flush
    began, with the argument the code passes for that value.  When the
    flush returns, every topic that was dispatched holds the new value in
    the snapshot, and the snapshot agrees with every value of the batch;
    so the next flush (no other method writes the snapshot in between)
    that carries the same value for a topic does not call its handler
    again.  When the flush raises, a handler was called for a value that
    the snapshot still does not hold: the next flush that carries this
    value delivers it again. *)
Theorem flush_delivers_only_changes (w : window) (updates : dict pyval) :
  NoDup (keys updates) ->
  let r := _update_ui E updates w in
  (forall t a, (t, a) ∈ invocations (events r) ->
     exists v, (t, v) ∈ updates /\ a = handler_arg t v
               /\ py_ne (last_data_get w t) v = true)
  /\ (out r = Ok tt ->
      forall t v, (t, v) ∈ updates ->
        (py_ne (last_data_get w t) v = true -> _last_data (st r) !! t = Some v)
        /\ py_ne (last_data_get (st r) t) v = false)
  /\ (out r = Ok tt ->
      forall w' updates' t v,
        _last_data w' = _last_data (st r) ->
        NoDup (keys updates') -> (t, v) ∈ updates -> (t, v) ∈ updates' ->
        forall a, (t, a) ∉ invocations (events (_update_ui E updates' w')))
  /\ (forall e, out r = Raise e ->
      exists t v,
        (t, v) ∈ updates
        /\ (t, handler_arg t v) ∈ invocations (events r)
        /\ py_ne (last_data_get (st r) t) v = true
        /\ invocations (events (_update_ui E [(t, v)] (st r))) = [(t, handler_arg t v)]).
Proof.
  intros Hnd. unfold _update_ui. cbv zeta.
  set (r := update_widgets E updates w).
  assert (Hrec : out r = Ok tt -> forall t v, (t, v) ∈ updates ->
            (py_ne (last_data_get w t) v = true -> _last_data (st r) !! t = Some v)
            /\ py_ne (last_data_get (st r) t) v = false).
  { intros Hout t v Hin.
    destruct (update_widgets_recorded E updates w t v Hnd Hout Hin) as [H1 H2].
    fold r in H1, H2.
    split; [ exact H1 | ].
    destruct (py_ne (last_data_get w t) v) eqn:Hne.
    - unfold last_data_get. rewrite (H1 eq_refl). apply py_ne_refl.
    - rewrite <- Hne. f_equal. apply last_data_get_ext. apply H2. reflexivity. }
  split; [ | split; [ exact Hrec | split ] ].
  - intros t a Hin.
    destruct (update_widgets_invocations E updates w t a Hnd Hin) as (v & Hv & Ha & Hne & _).
    exists v. auto.
  - intros Hout w' updates' t v Hsame Hnd' Hin Hin' a Hinv.
    destruct (update_widgets_invocations E updates' w' t a Hnd' Hinv)
      as (v' & Hv' & _ & Hne & _).
    assert (v' = v) as ->.
    { pose proof (dict_get_present updates' t v Hnd' Hin') as H1.
      pose proof (dict_get_present updates' t v' Hnd' Hv') as H2. congruence. }
    destruct (Hrec Hout t v Hin) as [_ Heq].
    rewrite (last_data_get_ext (st r) w' t) in Hne by (rewrite Hsame; reflexivity).
    congruence.
  - intros e Hout.
    destruct (update_widgets_raise_split E updates w e Hout)
      as (pre & t & v & post & Heq & Hpre & Hturn & _).
    unfold r. subst updates.
    destruct (flush_stops_at E pre post t v e w Hnd Hpre Hturn)
      as (_ & Hcalled & Hne & [Hin Hh] & Hsnap & _).
    exists t, v.
    assert (Hstill : py_ne (last_data_get (st (update_widgets E (pre ++ (t, v) :: post) w)) t) v
                     = true).
    { rewrite <- Hne. f_equal. apply last_data_get_ext. exact Hsnap. }
    split; [ apply elem_of_app; right; left | ].
    split; [ exact Hcalled | ]. split; [ exact Hstill | ].
    apply update_widgets_one; [ exact Hstill | | exact Hh ].
    rewrite <- Hin. apply in_widgets_ext, update_widgets_keep_widgets.
Qed.

(** C3, as amended.  When the handler of a topic raises in a flush, at
    the turn of an item whose value changed and whose widget is
    registered, after the items before it were processed, the exception
    leaves [_update_ui], and [_process_updates] when the batch came from
    the queue.  The handler was called; the snapshot of the failing topic
    is left as it was, so that its value still differs from the batch and
    is dispatched again by the next flush that carries it; the items after
    it are neither dispatched nor recorded.  The items before it stay
    dispatched and recorded. *)
Theorem handler_failure_aborts_flush
    (w : window) (pre post : dict pyval) (t : string) (v : pyval) (e : exn) :
  let updates := pre ++ (t, v) :: post in
  NoDup (keys updates) ->
  out (_update_ui E pre w) = Ok tt ->
  py_ne (last_data_get w t) v = true ->
  in_widgets t w = true ->
  out (dispatch E t v (st (_update_ui E pre w))) = Raise e ->
  let r := _update_ui E updates w in
  out r = Raise e
  /\ (forall w0, _update_queue w0 <> [] -> drain (_update_queue w0) = updates ->
        set_update_queue [] w0 = w -> out (_process_updates E w0) = Raise e)
  /\ (t, handler_arg t v) ∈ invocations (events r)
  /\ _last_data (st r) !! t = _last_data w !! t
  /\ py_ne (last_data_get (st r) t) v = true
  /\ (forall t' v', (t', v') ∈ post ->
        _last_data (st r) !! t' = _last_data w !! t'
        /\ forall a, (t', a) ∉ invocations (events r))
  /\ (forall t' v', (t', v') ∈ pre -> py_ne (last_data_get (st r) t') v' = false).
Proof.
  cbv zeta. unfold _update_ui. intros Hnd Hpre Hne Hin Hd.
  set (w1 := st (update_widgets E pre w)) in *.
  assert (Ht_pre : t ∉ keys pre).
  { rewrite keys_app in Hnd. apply NoDup_app in Hnd as (_ & Hdisj & _).
    intros H. apply (Hdisj t H). left. }
  assert (Hne1 : py_ne (last_data_get w1 t) v = true).
  { rewrite <- Hne. f_equal. apply last_data_get_ext, update_widgets_other, Ht_pre. }
  assert (Hin1 : in_widgets t w1 = true).
  { rewrite <- Hin. apply in_widgets_ext, update_widgets_keep_widgets. }
  assert (Hturn : out (update_widget E t v w1) = Raise e).
  { rewrite (update_widget_propagates E t v w1 e Hne1 Hin1 Hd). reflexivity. }
  destruct (flush_stops_at E pre post t v e w Hnd Hpre Hturn)
    as (Hout & Hcalled & _ & _ & Hsnap & Hpost & Hbefore).
  split; [ exact Hout | ].
  split.
  { intros w0 Hqueue Hdrain Hw. unfold _process_updates. rewrite bind_gets.
    destruct (_update_queue w0) as [ | data queue ] eqn:Hq; [ contradiction | ].
    rewrite bind_modify, Hw. unfold _update_ui. rewrite Hdrain. exact Hout. }
  split; [ exact Hcalled | ]. split; [ exact Hsnap | ].
  split; [ rewrite <- Hne; f_equal; apply last_data_get_ext; exact Hsnap | ].
  split; [ exact Hpost | exact Hbefore ].
Qed.

#[local] Transparent update_widget.

End Dispatcher.

Lemma flush_delivers_only_changes_witness :
  NoDup (keys plain_batch)
  /\ let r := _update_ui calm_env plain_batch initial_window in
     forall a, ("price", a) ∉ invocations (events (_update_ui calm_env plain_batch (st r))).
Proof.
  assert (Hnd : NoDup (keys plain_batch)).
  { apply (bool_decide_unpack _). vm_compute. reflexivity. }
  split; [ exact Hnd | ].
  intros r.
  destruct (flush_delivers_only_changes calm_env initial_window plain_batch Hnd)
    as (_ & _ & H & _).
  apply (H eq_refl (st r) plain_batch "price" (PyNum 30000) eq_refl Hnd); left.
Defined.

(** C3 as stated fails: on a batch whose price is a string, the handler of
    the price is called and raises; the flush raises the exception to its
    caller, the handler of the balance, whose value changed too, is not
    called, and the snapshot keeps the old price. *)
Lemma handler_failure_is_not_isolated :
  let r := _update_ui calm_env poisoned_batch initial_window in
  invocations (events r) = [("price", Some (PyStr "30000.5"))]
  /\ out r = Raise ValueError
  /\ _last_data (st r) !! "price" = Some (PyNum 0)
  /\ _last_data (st r) !! "balance" = Some (PyNum 0).
Proof. vm_compute. repeat split; reflexivity. Qed.

Lemma handler_failure_aborts_flush_witness :
  let pre : dict pyval := [] in
  let post := [("balance", PyNum 5)] in
  NoDup (keys (pre ++ ("price", PyNum 30000) :: post))
  /\ out (_update_ui chart_down_env pre initial_window) = Ok tt
  /\ py_ne (last_data_get initial_window "price") (PyNum 30000) = true
  /\ in_widgets "price" initial_window = true
  /\ out (dispatch chart_down_env "price" (PyNum 30000)
            (st (_update_ui chart_down_env pre initial_window))) = Raise (Failure "chart")
  /\ out (_update_ui chart_down_env plain_batch initial_window) = Raise (Failure "chart")
  /\ _last_data (st (_update_ui chart_down_env plain_batch initial_window)) !! "price"
     = _last_data initial_window !! "price"
  /\ forall a, ("balance", a) ∉ invocations (events (_update_ui chart_down_env plain_batch
                                                      initial_window)).
Proof.
  cbv zeta.
  assert (Hnd : NoDup (keys ([] ++ ("price", PyNum 30000) :: [("balance", PyNum 5)]))).
  { apply (bool_decide_unpack _). vm_compute. reflexivity. }
  assert (Hpre : out (_update_ui chart_down_env [] initial_window) = Ok tt) by reflexivity.
  assert (Hne : py_ne (last_data_get initial_window "price") (PyNum 30000) = true)
    by (vm_compute; reflexivity).
  assert (Hin : in_widgets "price" initial_window = true) by reflexivity.
  assert (Hd : out (dispatch chart_down_env "price" (PyNum 30000)
                      (st (_update_ui chart_down_env [] initial_window)))
               = Raise (Failure "chart")) by reflexivity.
  split; [ exact Hnd | ]. split; [ exact Hpre | ]. split; [ exact Hne | ].
  split; [ exact Hin | ]. split; [ exact Hd | ].
  destruct (handler_failure_aborts_flush chart_down_env initial_window
              [] [("balance", PyNum 5)] "price" (PyNum 30000) (Failure "chart")
              Hnd Hpre Hne Hin Hd)
    as (Hout & _ & _ & Hsnap & _ & Hpost & _).
  split; [ exact Hout | ]. split; [ exact Hsnap | ].
  exact (proj2 (Hpost "balance" (PyNum 5) ltac:(left))).
Defined.

(** C1 as stated fails when a handler raises: the chart refuses the
    price, the flush raises after the handler of the price was called,
    the snapshot keeps the old price, and the next flush of the same
    batch calls the handler with the same value again. *)
Lemma unchanged_price_is_delivered_twice :
  let batch := [("price", PyNum 30000)] in
  let first := _update_ui chart_down_env batch initial_window in
  let second := _update_ui chart_down_env batch (st first) in
  invocations (events first) = [("price", Some (PyNum 30000))]
  /\ _last_data (st first) !! "price" = Some (PyNum 0)
  /\ invocations (events second) = [("price", Some (PyNum 30000))].
Proof. vm_compute. repeat split; reflexivity. Qed.

Lemma count_topic_NoDup (l : list (string * option pyval)) (topic : string) :
  NoDup l.*1 ->
  length (List.filter (fun i => String.eqb (fst i) topic) l) <= 1.
Proof.
  induction l as [ | [t a] l IH ]; simpl; intros Hnd; [ lia | ].
  apply NoDup_cons in Hnd as [Ht Hnd].
  destruct (String.eqb_spec t topic) as [-> | _]; [ | apply IH, Hnd ].
  simpl. assert (Hnone : List.filter (fun i => String.eqb (fst i) topic) l = []).
  { clear IH Hnd. induction l as [ | [t' a'] l IHl ]; simpl; [ reflexivity | ].
    simpl in Ht. apply not_elem_of_cons in Ht as [Hne Ht].
    destruct (String.eqb_spec t' topic); [ congruence | apply IHl, Ht ]. }
  rewrite Hnone. simpl. lia.
Qed.

Lemma process_updates_invocations (E : env) (w : window) :
  invocations (events (_process_updates E w)) =
  match _update_queue w with
  | [] => []
  | queue => invocations (events (update_widgets E (drain queue) (set_update_queue [] w)))
  end.
Proof.
  unfold _process_updates, bind at 1, gets. cbn [out events st app].
  destruct (_update_queue w) as [ | data queue ]; [ reflexivity | ].
  unfold bind, modify. cbn [out events st app]. reflexivity.
Qed.

(** C2, as amended.  A flush ([_process_updates]) drains the queue and
    calls the handler of a topic at most once, however many publishes to
    the topic were queued; the call is the one the code makes for the last
    published value: with that value as its argument for the price, the
    positions and the balance, and with no argument for the orders. *)
Theorem flush_coalesces_publishes (E : env) (w : window) (topic : string) :
  let r := _process_updates E w in
  length (List.filter (fun i => String.eqb (fst i) topic) (invocations (events r))) <= 1
  /\ forall a, (topic, a) ∈ invocations (events r) ->
       exists v, last (published (_update_queue w) topic) = Some v
                 /\ a = handler_arg topic v.
Proof.
  cbv zeta. rewrite process_updates_invocations.
  destruct (_update_queue w) as [ | data queue ] eqn:Hq.
  { cbn. split; [ lia | ]. intros a H. inversion H. }
  set (w' := set_update_queue [] w).
  set (batch := drain (data :: queue)).
  pose proof (NoDup_drain (data :: queue)) as Hnd. fold batch in Hnd.
  split.
  - apply count_topic_NoDup.
    apply (sublist_NoDup _ (keys batch)); [ exact Hnd | apply update_widgets_topics ].
  - intros a Hin.
    destruct (update_widgets_invocations E batch w' topic a Hnd Hin) as (v & Hv & Ha & _).
    exists v. split; [ | exact Ha ].
    rewrite <- (dict_get_drain (data :: queue) topic).
    apply dict_get_present; assumption.
Qed.

(** C2 as stated fails for the orders: two publishes are queued, the
    handler is called once, and the call carries no value, though the last
    published value is 2. *)
Lemma orders_handler_carries_no_value :
  let r := _process_updates calm_env queued_window in
  last (published (_update_queue queued_window) "orders") = Some (PyNum 2)
  /\ invocations (events r) = [("orders", None)]
  /\ ("orders", Some (PyNum 2)) ∉ invocations (events r).
Proof.
  vm_compute. repeat split; try reflexivity.
  intros H. apply list_elem_of_singleton in H. discriminate.
Qed.

(** ** The positions table *)

Lemma effect_free_ret {A} (a : A) : effect_free (ret a).
Proof. exists (Ok a). reflexivity. Qed.

Lemma effect_free_raise {A} (e : exn) : effect_free (@raise A e).
Proof. exists (Raise e). reflexivity. Qed.

Lemma effect_free_lift {A} (o : outcome A) : effect_free (lift o).
Proof. exists o. reflexivity. Qed.

Lemma effect_free_bind {A B} (m : M A) (k : A -> M B) :
  effect_free m -> (forall a, effect_free (k a)) -> effect_free (bind m k).
Proof.
  intros [o Hm] Hk. destruct o as [a | e].
  - destruct (Hk a) as [o' Hk']. exists o'. intros w.
    unfold bind. rewrite Hm. cbn [out events st]. rewrite Hk'. reflexivity.
  - exists (Raise e). intros w. unfold bind. rewrite Hm. reflexivity.
Qed.

Lemma effect_free_table_item (v : pyval) : effect_free (table_item v).
Proof. destruct v; first [ apply effect_free_ret | apply effect_free_raise ]. Qed.

Ltac effect_free :=
  repeat first
    [ apply effect_free_bind | apply effect_free_ret | apply effect_free_raise
    | apply effect_free_lift | apply effect_free_table_item | intro ].

Lemma position_items_effect_free (p : pyval) : effect_free (position_items p).
Proof. unfold position_items. effect_free. Qed.

Lemma bind_ok_inv {A B} (m : M A) (k : A -> M B) (w : window) (b : B) :
  out (bind m k w) = Ok b ->
  exists a, out (m w) = Ok a /\ out (k a (st (m w))) = Ok b.
Proof.
  unfold bind. destruct (out (m w)) as [a | e]; simpl; [ eauto | discriminate ].
Qed.

Ltac bind_inv H :=
  repeat (let a := fresh "a" in
          let Ha := fresh "Ha" in
          apply bind_ok_inv in H as (a & Ha & H)).

Lemma position_items_row (p : pyval) (w : window) (r : row) :
  out (position_items p w) = Ok r ->
  user_data r = Some p /\ length (cells r) = 7.
Proof.
  unfold position_items. intros H. bind_inv H.
  inversion H; subst. split; reflexivity.
Qed.

Lemma out_bind_lift {A B} (a : A) (k : A -> M B) (w : window) :
  out (bind (lift (Ok a)) k w) = out (k a w).
Proof. reflexivity. Qed.

Lemma out_bind_table_item {B} (s : string) (k : text -> M B) (w : window) :
  out (bind (table_item (PyStr s)) k w) = out (k [Lit s] w).
Proof. reflexivity. Qed.

Lemma well_formed_position_items (p : pyval) (w : window) :
  well_formed_position p = true -> exists r, out (position_items p w) = Ok r.
Proof.
  unfold well_formed_position, is_number.
  destruct p as [ | | | | d ]; try discriminate.
  destruct (dict_get d "symbol") as [ [ | | sym | | ] | ] eqn:H1; try discriminate.
  destruct (dict_get d "side") as [ [ | | side | | ] | ] eqn:H2; try discriminate.
  destruct (dict_get d "size") as [ size | ] eqn:H3; try discriminate.
  destruct (dict_get d "avgPrice") as [ avg | ] eqn:H4; try discriminate.
  destruct (dict_get d "markPrice") as [ mark | ] eqn:H5; try discriminate.
  destruct (dict_get d "unrealisedPnl") as [ pnl | ] eqn:H6; try discriminate.
  destruct (dict_get d "ROE") as [ roe | ] eqn:H7; try discriminate.
  destruct (py_float size) as [ qs | ]; try discriminate.
  destruct (py_float pnl) as [ qp | ] eqn:H8; try discriminate.
  destruct (py_float roe) as [ qr | ] eqn:H9; try discriminate.
  intros _. unfold position_items, py_getitem.
  rewrite H1, out_bind_lift, out_bind_table_item.
  rewrite H2, out_bind_lift, out_bind_table_item.
  rewrite H3, out_bind_lift, H4, out_bind_lift, H5, out_bind_lift.
  rewrite H6, out_bind_lift, H8, out_bind_lift.
  rewrite H7, out_bind_lift, H9, out_bind_lift.
  eexists. reflexivity.
Qed.

Lemma well_formed_position_size (p : pyval) :
  well_formed_position p = true -> exists q, position_size p = Ok q.
Proof.
  unfold well_formed_position, position_size, is_number, py_getitem.
  destruct p as [ | | | | d ]; try discriminate.
  destruct (dict_get d "symbol") as [ [ | | sym | | ] | ]; try discriminate.
  destruct (dict_get d "side") as [ [ | | side | | ] | ]; try discriminate.
  destruct (dict_get d "size") as [ size | ]; try discriminate.
  destruct (dict_get d "avgPrice") as [ avg | ]; try discriminate.
  destruct (dict_get d "markPrice") as [ mark | ]; try discriminate.
  destruct (dict_get d "unrealisedPnl") as [ pnl | ]; try discriminate.
  destruct (dict_get d "ROE") as [ roe | ]; try discriminate.
  destruct (py_float size) as [ qs | ]; try discriminate.
  eauto.
Qed.

Lemma insert_last_row (t : list row) (old new : row) :
  <[length t := new]> (t ++ [old]) = t ++ [new].
Proof. induction t as [ | x t IH ]; simpl; [ reflexivity | ]. f_equal. exact IH. Qed.

Lemma positions_turn_eq (p : pyval) (w : window) :
  positions_turn p w =
  match position_size p with
  | Raise e => mkResult [] (Raise e) w
  | Ok q =>
      if Qeq_bool q 0 then mkResult [] (Ok tt) w
      else
        let w' := set_positions_table (fun t => t ++ [mkRow [] None]) w in
        match out (position_items p w) with
        | Ok items =>
            mkResult [] (Ok tt)
              (set_positions_table (fun t => <[length (positions_table w) := items]> t) w')
        | Raise e => mkResult [] (Raise e) w'
        end
  end.
Proof.
  unfold positions_turn, position_size.
  destruct (py_getitem p "size") as [ size | e ]; [ | reflexivity ].
  rewrite bind_lift_ok.
  destruct (py_float size) as [ q | e ]; [ | reflexivity ].
  rewrite bind_lift_ok.
  destruct (Qeq_bool q 0); [ reflexivity | ].
  rewrite bind_gets, bind_modify. cbv zeta.
  set (w' := set_positions_table (fun t => t ++ [mkRow [] None]) w).
  destruct (position_items_effect_free p) as [o Ho].
  unfold bind. rewrite !Ho. cbn [out events st].
  destruct o as [ items | e ]; reflexivity.
Qed.

(** A turn of the loop: nothing for a size of zero, a filled row at the
    end of the table for another size, and an exception (after the empty
    row was inserted, if it comes from the cells) otherwise. *)
Lemma positions_turn_run (p : pyval) (w : window) :
  let r := positions_turn p w in
  events r = []
  /\ match position_size p with
     | Raise e => out r = Raise e /\ positions_table (st r) = positions_table w
     | Ok q =>
         if Qeq_bool q 0 then out r = Ok tt /\ positions_table (st r) = positions_table w
         else
           match out (position_items p w) with
           | Ok items =>
               out r = Ok tt /\ positions_table (st r) = positions_table w ++ [items]
           | Raise e =>
               out r = Raise e
               /\ positions_table (st r) = positions_table w ++ [mkRow [] None]
           end
     end.
Proof.
  cbv zeta. rewrite positions_turn_eq.
  destruct (position_size p) as [ q | e ]; [ | repeat split ].
  destruct (Qeq_bool q 0); [ repeat split | ].
  cbv zeta. destruct (out (position_items p w)) as [ items | e ].
  - split; [ reflexivity | ]. split; [ reflexivity | ].
    cbn [set_positions_table positions_table st]. apply insert_last_row.
  - repeat split.
Qed.

Lemma positions_loop_events (l : list pyval) (w : window) :
  events (positions_loop l w) = [].
Proof.
  revert w. induction l as [ | p l IH ]; intros w; [ reflexivity | ].
  cbn [positions_loop]. unfold bind.
  destruct (positions_turn_run p w) as [Hev _].
  destruct (out (positions_turn p w)); cbn [events]; rewrite Hev; [ | reflexivity ].
  rewrite IH. reflexivity.
Qed.

(** Whatever the loop meets, a row that carries a position carries one of
    the list, of a size that is a number other than zero. *)
Lemma positions_loop_rows (ps l : list pyval) (w : window) :
  (forall p, p ∈ l -> p ∈ ps) ->
  Forall (fun r => forall p, user_data r = Some p ->
            p ∈ ps /\ exists q, position_size p = Ok q /\ ~ q == 0)
         (positions_table w) ->
  Forall (fun r => forall p, user_data r = Some p ->
            p ∈ ps /\ exists q, position_size p = Ok q /\ ~ q == 0)
         (positions_table (st (positions_loop l w))).
Proof.
  revert w. induction l as [ | p l IH ]; intros w Hsub Hinv; [ exact Hinv | ].
  cbn [positions_loop]. unfold bind.
  destruct (positions_turn_run p w) as [_ Hrun].
  assert (Hturn : Forall (fun r => forall p, user_data r = Some p ->
                            p ∈ ps /\ exists q, position_size p = Ok q /\ ~ q == 0)
                         (positions_table (st (positions_turn p w)))).
  { destruct (position_size p) as [ q | e ] eqn:Hsize.
    - destruct (Qeq_bool q 0) eqn:Hq.
      + destruct Hrun as [_ ->]. exact Hinv.
      + destruct (out (position_items p w)) as [ items | e ] eqn:Hitems.
        * destruct Hrun as [_ ->]. apply Forall_app. split; [ exact Hinv | ].
          apply Forall_singleton. intros p' Hp'.
          destruct (position_items_row p w items Hitems) as [Hdata _].
          assert (p' = p) as -> by congruence.
          split; [ apply Hsub; left | ].
          exists q. split; [ exact Hsize | ].
          intros Hzero. apply Qeq_bool_iff in Hzero. congruence.
        * destruct Hrun as [_ ->]. apply Forall_app. split; [ exact Hinv | ].
          apply Forall_singleton. intros p' Hp'. discriminate.
    - destruct Hrun as [_ ->]. exact Hinv. }
  destruct (out (positions_turn p w)); cbn [st]; [ | exact Hturn ].
  apply IH; [ | exact Hturn ].
  intros p' Hp'. apply Hsub. right. exact Hp'.
Qed.

(** On well-formed positions the loop returns and appends one filled row
    for each position whose size is not zero, in the order of the list. *)
Lemma positions_loop_well_formed (l : list pyval) (w : window) :
  Forall (fun p => well_formed_position p = true) l ->
  out (positions_loop l w) = Ok tt
  /\ exists rows,
       positions_table (st (positions_loop l w)) = positions_table w ++ rows
       /\ user_data <$> rows = Some <$> List.filter (fun p => negb (zero_size p)) l
       /\ Forall (fun r => length (cells r) = 7) rows.
Proof.
  revert w. induction l as [ | p l IH ]; intros w Hwf.
  { split; [ reflexivity | ]. exists []. cbn. rewrite app_nil_r. auto. }
  apply Forall_cons in Hwf as [Hp Hwf].
  cbn [positions_loop]. unfold bind.
  destruct (positions_turn_run p w) as [_ Hrun].
  destruct (well_formed_position_size p Hp) as [q Hsize].
  destruct (well_formed_position_items p w Hp) as [items Hitems].
  destruct (position_items_row p w items Hitems) as [Hdata Hcells].
  cbn [List.filter]. unfold zero_size at 1. rewrite Hsize in *. rewrite Hitems in Hrun.
  destruct (Qeq_bool q 0); destruct Hrun as [-> Htable]; cbn [out st negb];
    destruct (IH (st (positions_turn p w)) Hwf) as (Hout & rows & Hrows & Hdatas & Hlen).
  - split; [ exact Hout | ]. exists rows. rewrite Hrows, Htable. auto.
  - split; [ exact Hout | ]. exists (items :: rows).
    rewrite Hrows, Htable, <- app_assoc. split; [ reflexivity | ].
    split; [ cbn; rewrite Hdata, Hdatas; reflexivity | ].
    apply Forall_cons. auto.
Qed.

Section PositionsTable.
Variable E : env.

(** The table after [update_positions_table]: what the loop leaves, run
    on the fetched list from an empty table. *)
Lemma update_positions_table_rows (arg : pyval) (w : window) (ps : list pyval) :
  get_positions E (clock w) = Ok (PyList ps) ->
  positions_table (st (update_positions_table E arg w)) =
  positions_table (st (positions_loop ps (set_positions_table (fun _ => []) (tick w)))).
Proof.
  intros Hget. unfold update_positions_table. rewrite try_except_run.
  rewrite bind_call, Hget. cbn [out events st].
  rewrite bind_modify. cbn [py_iter]. rewrite bind_lift_ok.
  destruct (out (positions_loop ps _)); reflexivity.
Qed.

(** With well-formed positions nothing is raised and nothing is logged. *)
Lemma update_positions_table_well_formed (arg : pyval) (w : window) (ps : list pyval) :
  get_positions E (clock w) = Ok (PyList ps) ->
  Forall (fun p => well_formed_position p = true) ps ->
  events (update_positions_table E arg w) = [GetPositions]
  /\ out (update_positions_table E arg w) = Ok tt
  /\ user_data <$> positions_table (st (update_positions_table E arg w))
     = Some <$> List.filter (fun p => negb (zero_size p)) ps
  /\ Forall (fun r => length (cells r) = 7)
            (positions_table (st (update_positions_table E arg w))).
Proof.
  intros Hget Hwf.
  rewrite (update_positions_table_rows arg w ps Hget).
  set (w0 := set_positions_table (fun _ => []) (tick w)).
  destruct (positions_loop_well_formed ps w0 Hwf) as (Hout & rows & Hrows & Hdata & Hlen).
  assert (Hrun : update_positions_table E arg w =
                 mkResult [GetPositions] (Ok tt) (st (positions_loop ps w0))).
  { unfold update_positions_table. rewrite try_except_run.
    rewrite bind_call, Hget. cbn [out events st].
    rewrite bind_modify. cbn [py_iter]. rewrite bind_lift_ok. fold w0.
    rewrite Hout, positions_loop_events. reflexivity. }
  rewrite Hrun. cbn [events out]. split; [ reflexivity | ]. split; [ reflexivity | ].
  rewrite Hrows. unfold w0. cbn [set_positions_table positions_table app]. auto.
Qed.

(** C4.  When the position manager answers with a list, a row of the table
    that carries a position carries one of the list whose size is a number
    other than zero: no row is produced for a position of size zero.  When
    the positions of the list are well formed, the table holds one filled
    row for every position whose size is not zero, in the order of the
    list, and nothing else. *)
Theorem zero_size_positions_are_not_shown (arg : pyval) (w : window) (ps : list pyval) :
  get_positions E (clock w) = Ok (PyList ps) ->
  let r := update_positions_table E arg w in
  (forall row p, row ∈ positions_table (st r) -> user_data row = Some p ->
     p ∈ ps /\ exists q, position_size p = Ok q /\ ~ q == 0)
  /\ (Forall (fun p => well_formed_position p = true) ps ->
      out r = Ok tt
      /\ user_data <$> positions_table (st r)
         = Some <$> List.filter (fun p => negb (zero_size p)) ps
      /\ Forall (fun row => length (cells row) = 7) (positions_table (st r))).
Proof.
  intros Hget. cbv zeta. split.
  - intros row p Hrow Hdata.
    rewrite (update_positions_table_rows arg w ps Hget) in Hrow.
    pose proof (positions_loop_rows ps ps (set_positions_table (fun _ => []) (tick w))
                  (fun p H => H) (Forall_nil_2 _)) as Hinv.
    rewrite List.Forall_forall in Hinv.
    apply (Hinv row); [ apply list_elem_of_In, Hrow | exact Hdata ].
  - intros Hwf.
    destruct (update_positions_table_well_formed arg w ps Hget Hwf) as (_ & H1 & H2 & H3).
    auto.
Qed.

(** C10.  [update_positions_table] does the same whatever its argument:
    the rows come from the list that [position_manager.get_positions()]
    returns inside it.  So the handler of the positions leaves the same
    window and makes the same calls whatever value the batched update loop
    hands to it. *)
Theorem positions_argument_is_ignored (w : window) (a1 a2 : pyval) :
  update_positions_table E a1 w = update_positions_table E a2 w
  /\ st (_handle_positions_update E a1 w) = st (_handle_positions_update E a2 w)
  /\ out (_handle_positions_update E a1 w) = out (_handle_positions_update E a2 w)
  /\ tail (events (_handle_positions_update E a1 w))
     = tail (events (_handle_positions_update E a2 w))
  /\ (forall ps,
        get_positions E (clock w) = Ok (PyList ps) ->
        positions_table (st (_handle_positions_update E a1 w)) =
        positions_table (st (positions_loop ps (set_positions_table (fun _ => []) (tick w))))).
Proof.
  split; [ reflexivity | ]. split; [ reflexivity | ]. split; [ reflexivity | ].
  split; [ reflexivity | ].
  intros ps Hget. unfold _handle_positions_update. rewrite bind_emit. cbn [st].
  assert (Hchart : forall w', positions_table (st (update_chart_positions E w'))
                              = positions_table w').
  { clear. intros w'. revert w'.
    change (preserves positions_table (update_chart_positions E)).
    unfold update_chart_positions. frame. }
  unfold bind. destruct (out (update_positions_table E a1 w)); cbn [st].
  - rewrite Hchart. apply update_positions_table_rows, Hget.
  - apply update_positions_table_rows, Hget.
Qed.

End PositionsTable.

Lemma zero_size_positions_are_not_shown_witness :
  get_positions calm_env (clock initial_window)
    = Ok (PyList [btc_position "0.5"; eth_position "0"])
  /\ Forall (fun p => well_formed_position p = true) [btc_position "0.5"; eth_position "0"]
  /\ user_data <$> positions_table (st (update_positions_table calm_env PyNone initial_window))
     = [Some (btc_position "0.5")].
Proof.
  assert (Hget : get_positions calm_env (clock initial_window)
                   = Ok (PyList [btc_position "0.5"; eth_position "0"])) by reflexivity.
  assert (Hwf : Forall (fun p => well_formed_position p = true)
                       [btc_position "0.5"; eth_position "0"]).
  { repeat constructor. }
  split; [ exact Hget | ]. split; [ exact Hwf | ].
  destruct (zero_size_positions_are_not_shown calm_env PyNone initial_window _ Hget) as [_ H].
  destruct (H Hwf) as (_ & H2 & _). exact H2.
Defined.

(** ** Closing a position *)

(** C5.  With the position manager's guard as the spec describes it,
    closing a position of size zero is refused with a validation error:
    the error is logged and shown, no request reaches the remote API, the
    method returns, and the window is as it was. *)
Theorem close_position_rejects_zero_size (E : env) (w : window) (symbol : string) (size : Q) :
  size == 0 ->
  let r := close_position E symbol size w in
  events r = [LogError [Lit "Ошибка при закрытии позиции: "; ExnText ValidationError];
              ShowMessage "Ошибка" [Lit "Не удалось закрыть позицию: "; ExnText ValidationError]]
  /\ (forall request, RemoteClose request ∉ events r)
  /\ out r = Ok tt
  /\ st r = w.
Proof.
  intros Hzero. apply Qeq_bool_iff in Hzero.
  assert (Hrun : close_position E symbol size w =
            mkResult [LogError [Lit "Ошибка при закрытии позиции: "; ExnText ValidationError];
                      ShowMessage "Ошибка" [Lit "Не удалось закрыть позицию: "; ExnText ValidationError]]
                     (Ok tt) w).
  { unfold close_position, position_manager_close_position. rewrite Hzero. reflexivity. }
  cbv zeta. rewrite Hrun. cbn [events out st].
  split; [ reflexivity | ]. split; [ | split; reflexivity ].
  intros request Hin.
  apply elem_of_cons in Hin as [Hin | Hin]; [ discriminate | ].
  apply list_elem_of_singleton in Hin. discriminate.
Qed.

Lemma close_position_rejects_zero_size_witness :
  (0 # 7) == 0
  /\ st (close_position calm_env "BTCUSDT" (0 # 7) initial_window) = initial_window.
Proof.
  assert (Hzero : (0 # 7) == 0) by reflexivity.
  split; [ exact Hzero | ].
  destruct (close_position_rejects_zero_size calm_env initial_window "BTCUSDT" (0 # 7) Hzero)
    as (_ & _ & _ & H).
  exact H.
Defined.

(** ** The subscribe message *)

Lemma string_app_assoc (a b c : string) : (a +:+ b) +:+ c = a +:+ (b +:+ c).
Proof.
  induction a as [ | x a IH ]; [ reflexivity | ].
  change (String x (a +:+ b) +:+ c = String x (a +:+ (b +:+ c))).
  change (String x ((a +:+ b) +:+ c) = String x (a +:+ (b +:+ c))).
  f_equal. exact IH.
Qed.

Lemma json_escape_plain (s : string) :
  plain_symbol s = true -> json_escape s = s.
Proof.
  unfold plain_symbol. induction s as [ | c s IH ]; cbn [list_ascii_of_string forallb json_escape].
  - reflexivity.
  - intros H. apply andb_true_iff in H as [Hc Hs].
    unfold json_escape_char. rewrite Hc. rewrite (IH Hs). reflexivity.
Qed.

Lemma json_plain_not_special (c : ascii) :
  json_plain c = true -> Ascii.eqb c "092"%char = false /\ Ascii.eqb c "034"%char = false.
Proof.
  unfold json_plain. intros H.
  apply andb_true_iff in H as [H H92]. apply andb_true_iff in H as [_ H34].
  split; apply Ascii.eqb_neq; intros ->; discriminate.
Qed.

Lemma strip_blanks_inside_plain (s rest : string) :
  plain_symbol s = true ->
  strip_blanks Inside (s +:+ rest) = s +:+ strip_blanks Inside rest.
Proof.
  unfold plain_symbol. induction s as [ | c s IH ]; cbn [list_ascii_of_string forallb].
  - reflexivity.
  - intros H. apply andb_true_iff in H as [Hc Hs].
    destruct (json_plain_not_special c Hc) as [H92 H34].
    change (String c s +:+ rest) with (String c (s +:+ rest)).
    change (String c s +:+ strip_blanks Inside rest)
      with (String c (s +:+ strip_blanks Inside rest)).
    cbn [strip_blanks]. rewrite H92, H34, (IH Hs). reflexivity.
Qed.

(** C6.  Each call of [on_open], the callback of an opened connection,
    writes one message to the socket (after a line in the log): the JSON
    text of the object with the members [op], the string [subscribe], and
    [args], the list of the one string [tickers.<SYMBOL>], where <SYMBOL>
    is the current text of the symbol box.  For a symbol of plain
    characters the text is [subscribe_text], and without the blank that
    [json.dumps] puts after each colon and comma it is the text of the
    spec. *)
Theorem on_open_sends_one_subscribe (E : env) (w : window) :
  let r := on_open E w in
  let symbol := symbol_combo_text w in
  sent_messages (events r) = [json_dumps (subscribe_message symbol)]
  /\ (plain_symbol symbol = true ->
      json_dumps (subscribe_message symbol) = subscribe_text symbol
      /\ strip_blanks Outside (json_dumps (subscribe_message symbol))
         = spec_subscribe_text symbol).
Proof.
  cbv zeta. split; [ reflexivity | ].
  intros Hplain.
  assert (Htext : json_dumps (subscribe_message (symbol_combo_text w))
                  = subscribe_text (symbol_combo_text w)).
  { unfold subscribe_message, subscribe_text, quoted.
    cbn [json_dumps map join_comma fst snd]. unfold json_string.
    change (json_escape ("tickers." +:+ symbol_combo_text w))
      with ("tickers." +:+ json_escape (symbol_combo_text w)).
    rewrite (json_escape_plain _ Hplain). rewrite !string_app_assoc. reflexivity. }
  split; [ exact Htext | ].
  rewrite Htext. unfold subscribe_text, spec_subscribe_text, quoted.
  rewrite !string_app_assoc.
  change (strip_blanks Outside
            ("{" +:+ dquote +:+ "op" +:+ dquote +:+ ": " +:+ dquote +:+ "subscribe" +:+ dquote
                 +:+ ", " +:+ dquote +:+ "args" +:+ dquote +:+ ": [" +:+ dquote +:+ "tickers."
                 +:+ symbol_combo_text w +:+ dquote +:+ "]}"))
    with ("{" +:+ dquote +:+ "op" +:+ dquote +:+ ":" +:+ dquote +:+ "subscribe" +:+ dquote
              +:+ "," +:+ dquote +:+ "args" +:+ dquote +:+ ":[" +:+ dquote +:+ "tickers."
              +:+ strip_blanks Inside (symbol_combo_text w +:+ dquote +:+ "]}")).
  rewrite (strip_blanks_inside_plain _ _ Hplain). reflexivity.
Qed.

Lemma on_open_sends_one_subscribe_witness :
  plain_symbol (symbol_combo_text initial_window) = true
  /\ strip_blanks Outside (json_dumps (subscribe_message (symbol_combo_text initial_window)))
     = spec_subscribe_text "BTCUSDT".
Proof.
  assert (Hplain : plain_symbol (symbol_combo_text initial_window) = true) by reflexivity.
  split; [ exact Hplain | ].
  destruct (on_open_sends_one_subscribe calm_env initial_window) as [_ H].
  destruct (H Hplain) as [_ H2]. exact H2.
Defined.

(** ** Setting the protective levels *)

Lemma trading_stop_params_levels (symbol tp sl : pyval) :
  let params := trading_stop_params symbol tp sl in
  dict_get params "takeProfit" = (if py_truthy tp then Some (ArgStr tp) else None)
  /\ dict_get params "stopLoss" = (if py_truthy sl then Some (ArgStr sl) else None)
  /\ dict_get params "category" = Some (ArgVal (PyStr "linear"))
  /\ dict_get params "symbol" = Some (ArgVal symbol)
  /\ dict_get params "positionIdx" = Some (ArgVal (PyNum 0)).
Proof.
  unfold trading_stop_params.
  destruct (py_truthy tp); destruct (py_truthy sl); repeat split.
Qed.

Section ProtectiveLevels.
Variable E : env.

(** The requests of one run of the dialog: none, or the one built from
    the values the dialog returned. *)
Lemma edit_position_dialog_requests (position : pyval) (w : window) :
  let answer := sl_tp_dialog E (clock w) in
  trading_stop_requests (events (edit_position_dialog E position w)) = []
  \/ (fst answer = true
      /\ exists symbol,
           py_getitem position "symbol" = Ok symbol
           /\ trading_stop_requests (events (edit_position_dialog E position w))
              = [trading_stop_params symbol (fst (snd answer)) (snd (snd answer))]).
Proof.
  cbv zeta. unfold edit_position_dialog.
  destruct (py_getitem position "symbol") as [ symbol | e ]; [ | left; reflexivity ].
  rewrite bind_lift_ok.
  destruct (py_getitem position "side") as [ side | e ]; [ | left; reflexivity ].
  rewrite bind_lift_ok.
  destruct (py_get position "avgPrice" (PyNum 0)) as [ avg | e ]; [ | left; reflexivity ].
  rewrite bind_lift_ok.
  destruct (py_float avg) as [ entry | e ]; [ | left; reflexivity ].
  rewrite bind_lift_ok.
  destruct (py_getitem position "size") as [ size | e ]; [ | left; reflexivity ].
  rewrite bind_lift_ok.
  destruct (py_float size) as [ fsize | e ]; [ | left; reflexivity ].
  rewrite bind_lift_ok.
  destruct (py_get position "takeProfit" PyNone) as [ tp0 | e ]; [ | left; reflexivity ].
  rewrite bind_lift_ok.
  destruct (py_get position "stopLoss" PyNone) as [ sl0 | e ]; [ | left; reflexivity ].
  rewrite bind_lift_ok.
  rewrite bind_call.
  destruct (sl_tp_dialog E (clock w)) as [accepted [tp sl]]. cbn [fst snd events].
  destruct accepted; [ right | left; reflexivity ].
  split; [ reflexivity | ]. exists symbol. split; [ reflexivity | ].
  rewrite try_except_run, bind_lift_ok, bind_call.
  destruct (set_trading_stop E (clock (tick w)) (trading_stop_params symbol tp sl))
    as [ response | e ]; cbn [out events st]; [ | reflexivity ].
  rewrite bind_call.
  destruct (handle_bybit_error E (clock (tick (tick w))) response); reflexivity.
Qed.

(** An accepted dialog on a position that has the fields the dialog
    needs sends one request, built from the values the dialog returned. *)
Lemma edit_position_dialog_sends (position symbol : pyval) (w : window) :
  editable_position position = true ->
  py_getitem position "symbol" = Ok symbol ->
  fst (sl_tp_dialog E (clock w)) = true ->
  py_truthy position = true
  /\ trading_stop_requests (events (edit_position_dialog E position w))
     = [trading_stop_params symbol (fst (snd (sl_tp_dialog E (clock w))))
                            (snd (snd (sl_tp_dialog E (clock w))))].
Proof.
  unfold editable_position. intros Hfields Hsymbol Haccepted.
  destruct position as [ | | | | d ]; try discriminate.
  cbn [py_getitem] in Hsymbol.
  destruct (dict_get d "symbol") as [ symbol' | ] eqn:H1; [ | discriminate ].
  inversion Hsymbol; subst symbol'.
  destruct (dict_get d "side") as [ side | ] eqn:H2; [ | discriminate ].
  destruct (dict_get d "size") as [ size | ] eqn:H3; [ | discriminate ].
  apply andb_true_iff in Hfields as [Hsize Hentry]. unfold is_number in Hsize, Hentry.
  destruct (py_float size) as [ fsize | ] eqn:H4; [ | discriminate ].
  destruct (py_float match dict_get d "avgPrice" with Some p => p | None => PyNum 0 end)
    as [ entry | ] eqn:H5; [ | discriminate ].
  split.
  { destruct d; [ discriminate | reflexivity ]. }
  unfold edit_position_dialog. cbn [py_getitem py_get].
  rewrite H1, bind_lift_ok, H2, bind_lift_ok, bind_lift_ok, H5, bind_lift_ok.
  rewrite H3, bind_lift_ok, H4, bind_lift_ok, bind_lift_ok, bind_lift_ok.
  rewrite bind_call.
  destruct (sl_tp_dialog E (clock w)) as [accepted [tp sl]]. cbn [fst snd] in *.
  subst accepted. cbn [fst snd out events st].
  rewrite try_except_run, bind_lift_ok, bind_call.
  destruct (set_trading_stop E (clock (tick w)) (trading_stop_params symbol tp sl))
    as [ response | e ]; cbn [out events st]; [ | reflexivity ].
  rewrite bind_call.
  destruct (handle_bybit_error E (clock (tick (tick w))) response); reflexivity.
Qed.

(** C7.  An accepted dialog of [edit_position], on a row that carries a
    position with the fields the dialog needs, sends one request to set
    the protective levels, built from the values the dialog returned; so
    does the definition at line 430, which the one at line 628 replaces.
    A request sent by either definition carries the take-profit exactly
    when the dialog returned a take-profit that counts as given (a value
    that is true in Python: not [None], not zero, not empty), as [str] of
    that value, and the stop-loss likewise; a level that was not given has
    no key in the request.  The category, the symbol and the position
    index are always there. *)
Theorem trading_stop_sends_given_levels
  (w : window) (position : pyval) (row_index : nat) (params : dict kwarg) :
  let tp := fst (snd (sl_tp_dialog E (clock w))) in
  let sl := snd (snd (sl_tp_dialog E (clock w))) in
  (forall item items symbol,
     positions_table w !! row_index = Some (mkRow (item :: items) (Some position)) ->
     editable_position position = true ->
     py_getitem position "symbol" = Ok symbol ->
     fst (sl_tp_dialog E (clock w)) = true ->
     trading_stop_requests (events (edit_position E row_index w))
     = [trading_stop_params symbol tp sl]
     /\ trading_stop_requests (events (edit_position_430 E position w))
        = [trading_stop_params symbol tp sl])
  /\ (params ∈ trading_stop_requests (events (edit_position_430 E position w))
      \/ params ∈ trading_stop_requests (events (edit_position E row_index w)) ->
      dict_get params "takeProfit" = (if py_truthy tp then Some (ArgStr tp) else None)
      /\ dict_get params "stopLoss" = (if py_truthy sl then Some (ArgStr sl) else None)
      /\ (tp = PyNone -> "takeProfit" ∉ keys params)
      /\ (sl = PyNone -> "stopLoss" ∉ keys params)
      /\ dict_get params "category" = Some (ArgVal (PyStr "linear"))
      /\ (exists symbol, dict_get params "symbol" = Some (ArgVal symbol))
      /\ dict_get params "positionIdx" = Some (ArgVal (PyNum 0))).
Proof.
  cbv zeta. split.
  { intros item items symbol Hrow Hfields Hsymbol Haccepted.
    destruct (edit_position_dialog_sends position symbol w Hfields Hsymbol Haccepted)
      as [Htruthy Hsent].
    split; [ | exact Hsent ].
    unfold edit_position. rewrite bind_gets, Hrow, bind_ret, Htruthy. exact Hsent. }
  intros Hin.
  assert (Hdialog : exists p, params ∈ trading_stop_requests (events (edit_position_dialog E p w))).
  { destruct Hin as [Hin | Hin].
    - exists position. exact Hin.
    - unfold edit_position in Hin. rewrite bind_gets in Hin.
      destruct (positions_table w !! row_index) as [ [ [ | c cs ] data ] | ];
        try (rewrite bind_lift_raise in Hin; inversion Hin);
        try (unfold raise in Hin; cbn in Hin; inversion Hin; fail).
      rewrite bind_ret in Hin.
      destruct (negb (py_truthy match data with Some p => p | None => PyNone end));
        [ inversion Hin | ].
      eexists. exact Hin. }
  destruct Hdialog as [p Hp].
  destruct (edit_position_dialog_requests p w) as [Hnone | (_ & symbol & _ & Hone)].
  { rewrite Hnone in Hp. inversion Hp. }
  rewrite Hone in Hp. apply list_elem_of_singleton in Hp. subst params.
  destruct (trading_stop_params_levels symbol
              (fst (snd (sl_tp_dialog E (clock w)))) (snd (snd (sl_tp_dialog E (clock w)))))
    as (Htp & Hsl & Hcat & Hsym & Hidx).
  split; [ exact Htp | ]. split; [ exact Hsl | ].
  split; [ | split; [ | split; [ exact Hcat | split; [ eauto | exact Hidx ] ] ] ].
  - intros Hnone Hkey. rewrite Hnone in *. unfold trading_stop_params in Hkey.
    cbn [py_truthy] in Hkey.
    destruct (py_truthy (snd (snd (sl_tp_dialog E (clock w)))));
      apply (bool_decide_eq_true_2 _) in Hkey; vm_compute in Hkey; discriminate.
  - intros Hnone Hkey. rewrite Hnone in *. unfold trading_stop_params in Hkey.
    cbn [py_truthy] in Hkey.
    destruct (py_truthy (fst (snd (sl_tp_dialog E (clock w)))));
      apply (bool_decide_eq_true_2 _) in Hkey; vm_compute in Hkey; discriminate.
Qed.

End ProtectiveLevels.

Lemma trading_stop_sends_given_levels_witness :
  let params := trading_stop_params (PyStr "BTCUSDT") (PyNum 31000) PyNone in
  positions_table showing_window !! 0%nat
  = Some (mkRow [[Lit "BTCUSDT"]] (Some (btc_position "0.5")))
  /\ editable_position (btc_position "0.5") = true
  /\ py_getitem (btc_position "0.5") "symbol" = Ok (PyStr "BTCUSDT")
  /\ fst (sl_tp_dialog calm_env (clock showing_window)) = true
  /\ trading_stop_requests (events (edit_position calm_env 0 showing_window)) = [params]
  /\ dict_get params "takeProfit" = Some (ArgStr (PyNum 31000))
  /\ dict_get params "stopLoss" = None.
Proof.
  intros params.
  assert (Hrow : positions_table showing_window !! 0%nat
                 = Some (mkRow [[Lit "BTCUSDT"]] (Some (btc_position "0.5"))))
    by reflexivity.
  assert (Hfields : editable_position (btc_position "0.5") = true) by reflexivity.
  assert (Hsymbol : py_getitem (btc_position "0.5") "symbol" = Ok (PyStr "BTCUSDT"))
    by reflexivity.
  assert (Haccepted : fst (sl_tp_dialog calm_env (clock showing_window)) = true)
    by reflexivity.
  split; [ exact Hrow | ]. split; [ exact Hfields | ]. split; [ exact Hsymbol | ].
  split; [ exact Haccepted | ].
  destruct (trading_stop_sends_given_levels calm_env showing_window (btc_position "0.5")
              0 params) as [Hsends Hlevels].
  destruct (Hsends _ _ _ Hrow Hfields Hsymbol Haccepted) as [Hlive _].
  split; [ exact Hlive | ].
  assert (Hin : params ∈ trading_stop_requests
                  (events (edit_position calm_env 0 showing_window))).
  { rewrite Hlive. left. }
  destruct (Hlevels (or_intror Hin)) as (Htp & Hsl & _).
  split; [ exact Htp | exact Hsl ].
Defined.

(** ** The poll cycle *)

(** C8, at the failing input.  When the data manager answers and the
    fetch of the positions at line 790 raises, the poll cycle stops
    there: the error is logged, neither the orders nor the balance are
    fetched, and the tables and the balance label keep what they showed. *)
Theorem positions_failure_stops_the_poll (E : env) (w : window) (e : exn) :
  update_all E (clock w) = Ok tt ->
  get_positions E (S (clock w)) = Raise e ->
  let r := update_ui E w in
  events r = [UpdateAll; GetPositions; LogError [Lit "Ошибка обновления UI: "; ExnText e]]
  /\ (GetOrders ∉ events r)
  /\ (GetWalletBalance ∉ events r)
  /\ out r = Ok tt
  /\ positions_table (st r) = positions_table w
  /\ orders_table (st r) = orders_table w
  /\ balance_label (st r) = balance_label w.
Proof.
  intros Hupd Hget.
  assert (Hrun : update_ui E w =
            mkResult [UpdateAll; GetPositions;
                      LogError [Lit "Ошибка обновления UI: "; ExnText e]]
                     (Ok tt) (tick (tick w))).
  { unfold update_ui. rewrite try_except_run, bind_call, Hupd. cbn [out events st].
    rewrite bind_call. cbn [tick clock]. rewrite Hget. reflexivity. }
  cbv zeta. rewrite Hrun. cbn [events out st].
  split; [ reflexivity | ].
  split; [ intros H; repeat (apply elem_of_cons in H as [H | H]; [ discriminate | ]); inversion H | ].
  split; [ intros H; repeat (apply elem_of_cons in H as [H | H]; [ discriminate | ]); inversion H | ].
  repeat split.
Qed.

Lemma positions_failure_stops_the_poll_witness :
  update_all positions_down_env (clock initial_window) = Ok tt
  /\ get_positions positions_down_env (S (clock initial_window)) = Raise (Failure "timeout")
  /\ (GetOrders ∉ events (update_ui positions_down_env initial_window))
  /\ (GetWalletBalance ∉ events (update_ui positions_down_env initial_window)).
Proof.
  assert (Hupd : update_all positions_down_env (clock initial_window) = Ok tt) by reflexivity.
  assert (Hget : get_positions positions_down_env (S (clock initial_window))
                 = Raise (Failure "timeout")) by reflexivity.
  split; [ exact Hupd | ]. split; [ exact Hget | ].
  destruct (positions_failure_stops_the_poll positions_down_env initial_window _ Hupd Hget)
    as (_ & H1 & H2 & _).
  split; [ exact H1 | exact H2 ].
Defined.

(** The sibling path: when it is the order manager that fails, the
    failure stays inside [update_orders_table]; the positions are shown,
    the balance is fetched and shown, and the orders table keeps what it
    showed. *)
Example orders_failure_is_isolated :
  let r := update_ui orders_down_env initial_window in
  events r = [UpdateAll; GetPositions; GetPositions; GetOrders;
              LogError [Lit "Ошибка обновления таблицы ордеров: "; ExnText (Failure "timeout")];
              GetPositions; GetOrders;
              LogError [Lit "Ошибка обновления позиций на графике: "; ExnText (Failure "timeout")];
              GetWalletBalance]
  /\ user_data <$> positions_table (st r) = [Some (btc_position "0.5")]
  /\ balance_label (st r) = [Lit "Баланс: "; Fixed 2 1000; Lit " USDT"]
  /\ orders_table (st r) = orders_table initial_window
  /\ out r = Ok tt.
Proof. vm_compute. repeat split. Qed.

(** With every collaborator answering, the cycle fetches and shows all
    three. *)
Example calm_poll_cycle :
  let r := update_ui calm_env initial_window in
  events r = [UpdateAll; GetPositions; GetPositions; GetOrders; GetPositions; GetOrders;
              ChartUpdatePositionsAndOrders
                (PyList [btc_position "0.5"; eth_position "0"]) (PyList [limit_order]);
              GetWalletBalance]
  /\ length (orders_table (st r)) = 1
  /\ user_data <$> positions_table (st r) = [Some (btc_position "0.5")].
Proof. vm_compute. repeat split. Qed.

(** [update_balance], the balance's own timer callback, keeps its failure
    to itself too: the label keeps what it showed. *)
Lemma update_balance_failure (E : env) (w : window) (e : exn) :
  get_wallet_balance E (clock w) = Raise e ->
  let r := update_balance E w in
  events r = [GetWalletBalance; LogError [Lit "Ошибка при обновлении баланса: "; ExnText e]]
  /\ out r = Ok tt
  /\ balance_label (st r) = balance_label w.
Proof.
  intros Hget. cbv zeta. unfold update_balance.
  rewrite try_except_run, bind_call, Hget. repeat split.
Qed.

(** ** The symbol filter *)

Lemma prefix_spec (a s : string) :
  String.prefix a s = true <-> exists suf, s = a +:+ suf.
Proof.
  revert s. induction a as [ | c a IH ]; intros s.
  - split; [ intros _; exists s; reflexivity | intros _; destruct s; reflexivity ].
  - destruct s as [ | d s ]; cbn [String.prefix].
    + split; [ discriminate | intros [suf H]; discriminate ].
    + destruct (ascii_dec c d) as [ <- | Hne ].
      * rewrite IH. split; intros [suf H]; exists suf.
        -- rewrite H. reflexivity.
        -- change (String c a +:+ suf) with (String c (a +:+ suf)) in H. congruence.
      * split; [ discriminate | ]. intros [suf H].
        change (String c a +:+ suf) with (String c (a +:+ suf)) in H. congruence.
Qed.

Lemma py_in_spec (sub s : string) : py_in sub s = true <-> substring_of sub s.
Proof.
  unfold substring_of. induction s as [ | c s IH ]; cbn [py_in].
  - rewrite orb_false_r, prefix_spec. split.
    + intros [suf H]. exists EmptyString, suf. exact H.
    + intros (pre & suf & H). destruct pre; [ exists suf; exact H | discriminate ].
  - rewrite orb_true_iff, prefix_spec, IH. split.
    + intros [[suf H] | (pre & suf & H)].
      * exists EmptyString, suf. exact H.
      * exists (String c pre), suf. rewrite H. reflexivity.
    + intros (pre & suf & H). destruct pre as [ | d pre ].
      * left. exists suf. exact H.
      * right. exists pre, suf.
        change (String d pre +:+ sub +:+ suf) with (String d (pre +:+ sub +:+ suf)) in H.
        congruence.
Qed.

Lemma upper_char_idempotent (c : ascii) : upper_char (upper_char c) = upper_char c.
Proof. destruct c as [[] [] [] [] [] [] [] []]; reflexivity. Qed.

Lemma upper_idempotent (s : string) : upper (upper s) = upper s.
Proof.
  induction s as [ | c s IH ]; cbn [upper]; [ reflexivity | ].
  rewrite upper_char_idempotent, IH. reflexivity.
Qed.

Lemma upper_app (a b : string) : upper (a +:+ b) = upper a +:+ upper b.
Proof.
  induction a as [ | c a IH ]; [ reflexivity | ].
  change (upper (String c (a +:+ b)) = String (upper_char c) (upper a +:+ upper b)).
  cbn [upper]. rewrite IH. reflexivity.
Qed.

Lemma upper_length (s : string) : String.length (upper s) = String.length s.
Proof. induction s as [ | c s IH ]; cbn [upper String.length]; congruence. Qed.

Lemma string_app_inv (a a' b b' : string) :
  String.length a = String.length a' -> a +:+ b = a' +:+ b' -> a = a' /\ b = b'.
Proof.
  revert a'. induction a as [ | c a IH ]; intros [ | c' a' ] Hlen H;
    try discriminate.
  - split; [ reflexivity | exact H ].
  - change (String c (a +:+ b) = String c' (a' +:+ b')) in H.
    injection H as -> H. injection Hlen as Hlen.
    destruct (IH a' Hlen H) as [-> ->]. split; reflexivity.
Qed.

(** In a symbol without lower-case letters, the upper-cased text occurs
    exactly when the text occurs with the case ignored. *)
Lemma upper_case_substring (text s : string) :
  upper_case s -> (substring_of (upper text) s <-> substring_ignoring_case text s).
Proof.
  unfold upper_case, substring_of, substring_ignoring_case. intros Hs. split.
  - intros (pre & suf & H). exists pre, (upper text), suf.
    split; [ exact H | apply upper_idempotent ].
  - intros (pre & mid & suf & H & Hmid). exists pre, suf.
    rewrite H in Hs. rewrite !upper_app in Hs.
    destruct (string_app_inv _ _ _ _ (upper_length pre) Hs) as [_ Hrest].
    destruct (string_app_inv _ _ _ _ (upper_length mid) Hrest) as [Hm _].
    rewrite <- Hmid, Hm. exact H.
Qed.

Lemma filter_StronglySorted {A} (R : A -> A -> Prop) (f : A -> bool) (l : list A) :
  StronglySorted R l -> StronglySorted R (List.filter f l).
Proof.
  induction 1 as [ | x l Hsorted IH Hall ]; cbn [List.filter]; [ constructor | ].
  destruct (f x); [ | exact IH ].
  constructor; [ exact IH | ].
  rewrite List.Forall_forall in *. intros y Hy.
  apply Hall. apply List.filter_In in Hy. tauto.
Qed.

Lemma filter_sublist {A} (f : A -> bool) (l : list A) : List.filter f l `sublist_of` l.
Proof.
  induction l as [ | x l IH ]; cbn [List.filter]; [ constructor | ].
  destruct (f x); [ apply sublist_skip | apply sublist_cons ]; exact IH.
Qed.

(** *** The symbol box *)

Section SymbolBox.
Variable E : env.

Lemma on_symbol_selected_empty (w : window) :
  on_symbol_selected E "" w = mkResult [] (Ok tt) w.
Proof. reflexivity. Qed.

(** The run of [on_symbol_selected] on a symbol: it ends in an exception,
    of the first collaborator that raises, or of the method that is
    missing. *)
Lemma on_symbol_selected_run (symbol : string) (w : window) :
  symbol <> "" ->
  let settings := PyDict [("symbol", PyStr symbol)] in
  let w0 := set_current_symbol symbol w in
  on_symbol_selected E symbol w =
  match config_save_window_settings E (clock w) settings with
  | Raise e => mkResult [SaveWindowSettings settings] (Raise e) (tick w0)
  | Ok _ =>
      match data_change_symbol E (S (clock w)) symbol with
      | Raise e =>
          mkResult [SaveWindowSettings settings; DataChangeSymbol symbol]
                   (Raise e) (tick (tick w0))
      | Ok _ =>
          match position_change_symbol E (S (S (clock w))) symbol with
          | Raise e =>
              mkResult [SaveWindowSettings settings; DataChangeSymbol symbol;
                        PositionChangeSymbol symbol]
                       (Raise e) (tick (tick (tick w0)))
          | Ok _ =>
              mkResult [SaveWindowSettings settings; DataChangeSymbol symbol;
                        PositionChangeSymbol symbol; OrderChangeSymbol symbol]
                       (Raise match order_change_symbol E (S (S (S (clock w)))) symbol with
                              | Raise e => e
                              | Ok _ => AttributeError "update_position_info"
                              end)
                       (tick (tick (tick (tick w0))))
          end
      end
  end.
Proof.
  intros Hsymbol. cbv zeta. unfold on_symbol_selected.
  destruct (String.eqb_spec symbol "") as [ H | _ ]; [ contradiction | ].
  assert (Hclock : clock (set_current_symbol symbol w) = clock w) by reflexivity.
  rewrite bind_modify. cbv zeta. rewrite bind_call, Hclock.
  destruct (config_save_window_settings E (clock w) (PyDict [("symbol", PyStr symbol)]))
    as [ [] | e ]; [ | reflexivity ].
  rewrite bind_call. cbn [tick clock]. rewrite Hclock.
  destruct (data_change_symbol E (S (clock w)) symbol) as [ [] | e ]; [ | reflexivity ].
  rewrite bind_call. cbn [tick clock]. rewrite Hclock.
  destruct (position_change_symbol E (S (S (clock w))) symbol) as [ [] | e ];
    [ | reflexivity ].
  rewrite bind_call. cbn [tick clock]. rewrite Hclock.
  destruct (order_change_symbol E (S (S (S (clock w)))) symbol) as [ [] | e ]; reflexivity.
Qed.

(** What every such run has in common. *)
Lemma on_symbol_selected_raises (symbol : string) (w : window) :
  symbol <> "" ->
  let r := on_symbol_selected E symbol w in
  exists e evs n,
    out r = Raise e
    /\ events r = SaveWindowSettings (PyDict [("symbol", PyStr symbol)]) :: evs
    /\ (ShowPopup ∉ events r)
    /\ st r = Nat.iter n tick (set_current_symbol symbol w).
Proof.
  intros Hsymbol. cbv zeta. rewrite (on_symbol_selected_run symbol w Hsymbol). cbv zeta.
  assert (Hno : forall l : list event,
             Forall (fun ev => ev <> ShowPopup) l -> ShowPopup ∉ l).
  { intros l Hl Hin. rewrite Forall_forall in Hl. exact (Hl _ Hin eq_refl). }
  destruct (config_save_window_settings E (clock w) _) as [ [] | e ].
  2: { exists e, [], 1%nat. repeat split. apply Hno. repeat constructor; discriminate. }
  destruct (data_change_symbol E (S (clock w)) symbol) as [ [] | e ].
  2: { exists e, [DataChangeSymbol symbol], 2%nat. repeat split.
       apply Hno. repeat constructor; discriminate. }
  destruct (position_change_symbol E (S (S (clock w))) symbol) as [ [] | e ].
  2: { exists e, [DataChangeSymbol symbol; PositionChangeSymbol symbol], 3%nat.
       repeat split. apply Hno. repeat constructor; discriminate. }
  eexists _, [DataChangeSymbol symbol; PositionChangeSymbol symbol; OrderChangeSymbol symbol],
    4%nat.
  repeat split. apply Hno. repeat constructor; discriminate.
Qed.

Lemma ticks_keep {X} (f : window -> X) (n : nat) (w : window) :
  (forall w', f (tick w') = f w') -> f (Nat.iter n tick w) = f w.
Proof.
  intros Htick. induction n as [ | n IH ]; [ reflexivity | ].
  change (Nat.iter (S n) tick w) with (tick (Nat.iter n tick w)). rewrite Htick. exact IH.
Qed.

(** The slots of the box write neither to its items nor to its index nor
    to its text, nor to the catalogs. *)
Lemma on_symbol_selected_keeps {X} (f : window -> X) (symbol : string) (w : window) :
  (forall w', f (tick w') = f w') ->
  (forall s w', f (set_current_symbol s w') = f w') ->
  f (st (on_symbol_selected E symbol w)) = f w.
Proof.
  intros Htick Hset. destruct (String.eqb_spec symbol "") as [ -> | Hsymbol ].
  - reflexivity.
  - destruct (on_symbol_selected_raises symbol w Hsymbol) as (e & evs & n & _ & _ & _ & ->).
    rewrite (ticks_keep f n _ Htick). apply Hset.
Qed.

Lemma line_edit_setText_run (t : string) (w : window) :
  line_edit_setText E t w =
  if String.eqb (symbol_combo_text w) t then mkResult [] (Ok tt) w
  else
    let r := on_symbol_selected E t (set_symbol_combo_text t w) in
    match out r with
    | Ok _ => mkResult (events r ++ [StartFilterTimer]) (Ok tt) (st r)
    | Raise e => mkResult (events r) (Raise e) (st r)
    end.
Proof.
  unfold line_edit_setText. rewrite bind_gets.
  destruct (String.eqb (symbol_combo_text w) t); [ reflexivity | ].
  rewrite bind_modify, bind_run. cbv zeta.
  destruct (out (on_symbol_selected E t (set_symbol_combo_text t w))) as [ [] | e ];
    reflexivity.
Qed.

Lemma line_edit_setText_keeps {X} (f : window -> X) (t : string) (w : window) :
  (forall w', f (tick w') = f w') ->
  (forall s w', f (set_current_symbol s w') = f w') ->
  (forall s w', f (set_symbol_combo_text s w') = f w') ->
  f (st (line_edit_setText E t w)) = f w.
Proof.
  intros Htick Hset Htext. rewrite line_edit_setText_run.
  destruct (String.eqb (symbol_combo_text w) t); [ reflexivity | ].
  cbv zeta.
  pose proof (on_symbol_selected_keeps f t (set_symbol_combo_text t w) Htick Hset) as Hkeep.
  destruct (out (on_symbol_selected E t (set_symbol_combo_text t w)));
    cbn [st]; rewrite Hkeep; apply Htext.
Qed.

(** Setting the empty text fires the slots, which do nothing but start
    the timer. *)
Lemma line_edit_setText_empty (w : window) :
  line_edit_setText E "" w =
  if String.eqb (symbol_combo_text w) "" then mkResult [] (Ok tt) w
  else mkResult [StartFilterTimer] (Ok tt) (set_symbol_combo_text "" w).
Proof. rewrite line_edit_setText_run. reflexivity. Qed.

Lemma combo_clear_run (w : window) :
  combo_clear E w =
  match symbol_combo_items w with
  | [] => mkResult [] (Ok tt) w
  | _ =>
      let w' := set_symbol_combo_index None (set_symbol_combo_items [] w) in
      match current_row w with
      | Some _ =>
          if String.eqb (symbol_combo_text w) "" then mkResult [] (Ok tt) w'
          else mkResult [StartFilterTimer] (Ok tt) (set_symbol_combo_text "" w')
      | None => mkResult [] (Ok tt) w'
      end
  end.
Proof.
  unfold combo_clear. rewrite bind_gets, bind_gets.
  destruct (symbol_combo_items w) as [ | item items ]; [ reflexivity | ].
  rewrite bind_modify, bind_modify. cbv zeta.
  destruct (current_row w); [ | reflexivity ].
  rewrite line_edit_setText_empty. reflexivity.
Qed.

(** After [clear()] the box is empty, the catalogs are as before, and
    the text is the one that was typed or the empty one. *)
Lemma combo_clear_empties (w : window) :
  let r := combo_clear E w in
  out r = Ok tt
  /\ symbol_combo_items (st r) = []
  /\ available_symbols (st r) = available_symbols w
  /\ all_symbols (st r) = all_symbols w
  /\ current_symbol (st r) = current_symbol w
  /\ clock (st r) = clock w
  /\ (symbol_combo_text (st r) = symbol_combo_text w \/ symbol_combo_text (st r) = "")
  /\ (ShowPopup ∉ events r).
Proof.
  cbv zeta. rewrite combo_clear_run.
  assert (Hnil : ShowPopup ∉ @nil event) by (intros H; inversion H).
  assert (Hone : ShowPopup ∉ [StartFilterTimer]).
  { intros H. apply list_elem_of_singleton in H. discriminate. }
  destruct (symbol_combo_items w) as [ | item items ] eqn:Hitems.
  { repeat split; auto. }
  cbv zeta. destruct (current_row w).
  - destruct (String.eqb (symbol_combo_text w) ""); repeat split; auto.
  - repeat split; auto.
Qed.

(** [addItems] on the empty box: the first text becomes the current row
    and the text of the line edit. *)
Lemma combo_addItems_run (texts : list string) (w : window) :
  symbol_combo_items w = [] ->
  combo_addItems E texts w =
  match texts with
  | [] => mkResult [] (Ok tt) w
  | first :: _ =>
      line_edit_setText E first
        (set_symbol_combo_index (Some 0%nat) (set_symbol_combo_items texts w))
  end.
Proof.
  intros Hitems. unfold combo_addItems.
  destruct texts as [ | first rest ]; [ reflexivity | ].
  rewrite bind_gets, bind_modify, Hitems. cbn [app].
  unfold combo_setCurrentIndex. rewrite bind_gets, bind_modify. reflexivity.
Qed.

Lemma combo_addItems_items (texts : list string) (w : window) :
  symbol_combo_items w = [] ->
  symbol_combo_items (st (combo_addItems E texts w)) = texts.
Proof.
  intros Hitems. rewrite (combo_addItems_run texts w Hitems).
  destruct texts as [ | first rest ]; [ exact Hitems | ].
  rewrite (line_edit_setText_keeps symbol_combo_items); reflexivity.
Qed.

(** The run of [filter_symbols], from the box as [clear()] left it. *)
Lemma filter_symbols_run (w : window) :
  let found := matching_symbols (symbol_combo_text w) (available_symbols w) in
  let w1 := st (combo_clear E w) in
  let r := combo_addItems E found w1 in
  filter_symbols E w =
  match out r with
  | Ok _ =>
      mkResult (events (combo_clear E w) ++ events r
                ++ match found with [] => [] | _ => [ShowPopup] end)
               (Ok tt) (st r)
  | Raise e => mkResult (events (combo_clear E w) ++ events r) (Raise e) (st r)
  end.
Proof.
  cbv zeta. unfold filter_symbols. rewrite bind_gets, bind_gets. cbv zeta.
  destruct (combo_clear_empties w) as (Hout & _).
  rewrite bind_run, Hout. cbv iota. rewrite bind_run.
  destruct (out (combo_addItems E _ (st (combo_clear E w)))) as [ [] | e ];
    cbn [out events st]; [ | reflexivity ].
  destruct (matching_symbols (symbol_combo_text w) (available_symbols w)); reflexivity.
Qed.

Lemma perform_filter_run (w : window) (symbols : list string) :
  all_symbols w = Some symbols ->
  let found := matching_symbols (symbol_combo_text w) symbols in
  let w1 := st (combo_clear E w) in
  let r := combo_addItems E found w1 in
  perform_filter E w =
  match out r with
  | Ok _ =>
      mkResult (events (combo_clear E w) ++ events r
                ++ match found with [] => [] | _ => [ShowPopup] end)
               (Ok tt) (st r)
  | Raise e => mkResult (events (combo_clear E w) ++ events r) (Raise e) (st r)
  end.
Proof.
  intros Hall. cbv zeta. unfold perform_filter. rewrite bind_gets.
  destruct (combo_clear_empties w) as (Hout & _ & _ & Hall' & _).
  rewrite bind_run, Hout. cbv iota. rewrite bind_run.
  rewrite Hall', Hall. cbn [ret out events st app]. rewrite bind_run.
  destruct (out (combo_addItems E _ (st (combo_clear E w)))) as [ [] | e ];
    cbn [out events st]; [ | reflexivity ].
  destruct (matching_symbols (symbol_combo_text w) symbols); reflexivity.
Qed.

End SymbolBox.

(** C9, as amended.  Both filters keep exactly the symbols of the catalog
    in which the upper-cased search text occurs, in the order of the
    catalog (so a sorted catalog gives a sorted result).  When no symbol
    of the catalog has a lower-case letter, these are exactly the symbols
    in which the text occurs with the case ignored. *)
Theorem symbol_filter_keeps_upper_cased_matches (text : string) (catalog : list string) :
  (forall s, s ∈ matching_symbols text catalog <->
             s ∈ catalog /\ substring_of (upper text) s)
  /\ (Forall upper_case catalog ->
      forall s, s ∈ matching_symbols text catalog <->
                s ∈ catalog /\ substring_ignoring_case text s)
  /\ matching_symbols text catalog `sublist_of` catalog
  /\ (forall R : string -> string -> Prop,
        StronglySorted R catalog -> StronglySorted R (matching_symbols text catalog))
  /\ (forall E w, symbol_combo_text w = text -> available_symbols w = catalog ->
        symbol_combo_items (st (filter_symbols E w)) = matching_symbols text catalog)
  /\ (forall E w, symbol_combo_text w = text -> all_symbols w = Some catalog ->
        symbol_combo_items (st (perform_filter E w)) = matching_symbols text catalog).
Proof.
  assert (Hmatch : forall s, s ∈ matching_symbols text catalog <->
                             s ∈ catalog /\ substring_of (upper text) s).
  { intros s. unfold matching_symbols. rewrite !list_elem_of_In, List.filter_In, py_in_spec.
    reflexivity. }
  split; [ exact Hmatch | ]. split; [ | split; [ | split; [ | split ] ] ].
  - intros Hupper s. rewrite Hmatch. split; intros [Hin Hsub]; (split; [ exact Hin | ]).
    + apply upper_case_substring; [ | exact Hsub ].
      rewrite List.Forall_forall in Hupper. apply Hupper, list_elem_of_In, Hin.
    + apply upper_case_substring; [ | exact Hsub ].
      rewrite List.Forall_forall in Hupper. apply Hupper, list_elem_of_In, Hin.
  - apply filter_sublist.
  - intros R. apply filter_StronglySorted.
  - intros E w <- <-. rewrite filter_symbols_run. cbv zeta.
    destruct (combo_clear_empties E w) as (_ & Hitems & _).
    pose proof (combo_addItems_items E
                  (matching_symbols (symbol_combo_text w) (available_symbols w))
                  (st (combo_clear E w)) Hitems) as Hfound.
    destruct (out (combo_addItems E _ (st (combo_clear E w)))); exact Hfound.
  - intros E w <- Hall. rewrite (perform_filter_run E w catalog Hall). cbv zeta.
    destruct (combo_clear_empties E w) as (_ & Hitems & _).
    pose proof (combo_addItems_items E
                  (matching_symbols (symbol_combo_text w) catalog)
                  (st (combo_clear E w)) Hitems) as Hfound.
    destruct (out (combo_addItems E _ (st (combo_clear E w)))); exact Hfound.
Qed.

(** C9 as stated fails when a symbol of the catalog has a lower-case
    letter: the text occurs in the symbol with the case ignored, and the
    filter drops the symbol. *)
Lemma lower_case_symbol_is_missed :
  "wBTCUSDT" ∈ ["wBTCUSDT"]
  /\ substring_ignoring_case "wbtc" "wBTCUSDT"
  /\ matching_symbols "wbtc" ["wBTCUSDT"] = [].
Proof.
  split; [ left | ]. split; [ | reflexivity ].
  exists "", "wBTC", "USDT". split; reflexivity.
Qed.

Lemma symbol_filter_keeps_upper_cased_matches_witness :
  Forall upper_case ["BTCUSDT"; "ETHUSDT"]
  /\ "BTCUSDT" ∈ matching_symbols "btc" ["BTCUSDT"; "ETHUSDT"].
Proof.
  assert (Hupper : Forall upper_case ["BTCUSDT"; "ETHUSDT"]).
  { repeat constructor. }
  split; [ exact Hupper | ].
  destruct (symbol_filter_keeps_upper_cased_matches "btc" ["BTCUSDT"; "ETHUSDT"]) as (_ & H & _).
  apply (H Hupper). split; [ left | ].
  exists "", "BTC", "USDT". split; reflexivity.
Defined.

(** * Further properties *)

(** ** Methods that return *)

Lemma bind_returns {B} (m : M unit) (k : unit -> M B) (w : window) :
  out (m w) = Ok tt ->
  bind m k w = mkResult (events (m w) ++ events (k tt (st (m w))))
                        (out (k tt (st (m w)))) (st (k tt (st (m w)))).
Proof. intros H. unfold bind. rewrite H. reflexivity. Qed.

Lemma returns_bind (m k : M unit) : returns m -> returns k -> returns (bind m (fun _ => k)).
Proof. intros Hm Hk w. rewrite (bind_returns m _ w (Hm w)). apply Hk. Qed.

Lemma returns_emit (e : event) : returns (emit e).
Proof. intros w. reflexivity. Qed.

Lemma returns_modify (g : window -> window) : returns (modify g).
Proof. intros w. reflexivity. Qed.

Lemma returns_try_except (body : M unit) (handler : exn -> M unit) :
  (forall e, returns (handler e)) -> returns (try_except body handler).
Proof.
  intros Hh w. rewrite try_except_run.
  destruct (out (body w)) as [ [] | e ] eqn:Hb; [ exact Hb | apply Hh ].
Qed.

Section Returning.
Variable E : env.

Lemma update_positions_table_returns (a : pyval) : returns (update_positions_table E a).
Proof. apply returns_try_except. intros e. apply returns_emit. Qed.

Lemma update_orders_table_returns : returns (update_orders_table E).
Proof. apply returns_try_except. intros e. apply returns_emit. Qed.

Lemma update_chart_positions_returns : returns (update_chart_positions E).
Proof. apply returns_try_except. intros e. apply returns_emit. Qed.

Lemma update_balance_returns : returns (update_balance E).
Proof. apply returns_try_except. intros e. apply returns_emit. Qed.

Lemma update_ui_returns : returns (update_ui E).
Proof. apply returns_try_except. intros e. apply returns_emit. Qed.

Lemma handle_positions_update_returns (a : pyval) : returns (_handle_positions_update E a).
Proof.
  unfold _handle_positions_update.
  apply returns_bind; [ apply returns_emit | ].
  apply returns_bind; [ apply update_positions_table_returns | apply update_chart_positions_returns ].
Qed.

Lemma handle_orders_update_returns : returns (_handle_orders_update E).
Proof.
  unfold _handle_orders_update.
  apply returns_bind; [ apply returns_emit | ].
  apply returns_bind; [ apply update_orders_table_returns | apply update_chart_positions_returns ].
Qed.

Lemma handle_balance_update_returns (a : pyval) : returns (_handle_balance_update a).
Proof.
  unfold _handle_balance_update.
  apply returns_bind; [ apply returns_emit | apply returns_modify ].
Qed.

(** X1.  The methods that the timers call for the display never raise:
    the two table updates, the chart update, the balance update and the
    poll cycle catch every exception, and so the handlers of the
    positions, the orders and the balance return whatever the
    collaborators do. *)
Theorem display_methods_never_raise (w : window) (a : pyval) :
  out (update_positions_table E a w) = Ok tt
  /\ out (update_orders_table E w) = Ok tt
  /\ out (update_chart_positions E w) = Ok tt
  /\ out (update_balance E w) = Ok tt
  /\ out (update_ui E w) = Ok tt
  /\ out (_handle_positions_update E a w) = Ok tt
  /\ out (_handle_orders_update E w) = Ok tt
  /\ out (_handle_balance_update a w) = Ok tt.
Proof.
  split; [ apply update_positions_table_returns | ].
  split; [ apply update_orders_table_returns | ].
  split; [ apply update_chart_positions_returns | ].
  split; [ apply update_balance_returns | ].
  split; [ apply update_ui_returns | ].
  split; [ apply handle_positions_update_returns | ].
  split; [ apply handle_orders_update_returns | apply handle_balance_update_returns ].
Qed.

Lemma update_widget_raise (t : string) (v : pyval) (w : window) (e : exn) :
  out (update_widget E t v w) = Raise e ->
  in_widgets t w = true /\ out (dispatch E t v w) = Raise e.
Proof.
  unfold update_widget. rewrite bind_gets.
  destruct (py_ne (last_data_get w t) v); [ | discriminate ].
  rewrite bind_gets. destruct (in_widgets t w).
  - unfold bind. destruct (out (dispatch E t v w)) as [ [] | e' ]; cbn [out].
    + discriminate.
    + intros H. inversion H. auto.
  - rewrite bind_ret. discriminate.
Qed.

Lemma dispatch_raise_is_price (t : string) (v : pyval) (w : window) (e : exn) :
  out (dispatch E t v w) = Raise e ->
  t = "price"
  /\ (py_format_f 4 v = Raise e \/ chart_update_price E (clock w) v = Raise e).
Proof.
  unfold dispatch.
  destruct (String.eqb_spec t "price") as [-> | _].
  { intros H. split; [ reflexivity | ].
    unfold _handle_price_update in H. rewrite bind_emit in H. cbn [out] in H.
    destruct (py_format_f 4 v) as [ shown | e' ].
    - rewrite bind_lift_ok, bind_modify in H. right. exact H.
    - left. rewrite bind_lift_raise in H. cbn [out] in H. inversion H. reflexivity. }
  destruct (String.eqb t "positions").
  { rewrite handle_positions_update_returns. discriminate. }
  destruct (String.eqb t "orders").
  { rewrite handle_orders_update_returns. discriminate. }
  destruct (String.eqb t "balance").
  { rewrite handle_balance_update_returns. discriminate. }
  discriminate.
Qed.

(** X2.  Of the handlers only the one of the price can make a flush
    raise: when [_update_ui] raises, the batch has a price whose format
    with [:.4f] raised that exception, or on which the chart raised it.  A
    batch without a price never raises. *)
Theorem only_the_price_handler_raises (w : window) (updates : dict pyval) (e : exn) :
  out (_update_ui E updates w) = Raise e ->
  exists v, ("price", v) ∈ updates
            /\ in_widgets "price" w = true
            /\ (py_format_f 4 v = Raise e \/ exists n, chart_update_price E n v = Raise e).
Proof.
  intros Hout. unfold _update_ui in Hout.
  destruct (update_widgets_raise_split E updates w e Hout)
    as (pre & t & v & post & -> & _ & Hturn & _).
  destruct (update_widget_raise t v _ e Hturn) as [Hin Hd].
  destruct (dispatch_raise_is_price t v _ e Hd) as [-> Hwhy].
  exists v. split; [ apply elem_of_app; right; left | ].
  split.
  - rewrite <- (in_widgets_ext w (st (update_widgets E pre w)) "price"
                  (update_widgets_keep_widgets E pre w)).
    exact Hin.
  - destruct Hwhy as [Hf | Hc]; [ left; exact Hf | right; eauto ].
Qed.

End Returning.

Lemma only_the_price_handler_raises_witness :
  out (_update_ui calm_env poisoned_batch initial_window) = Raise ValueError
  /\ exists v, ("price", v) ∈ poisoned_batch /\ py_format_f 4 v = Raise ValueError.
Proof.
  assert (Hout : out (_update_ui calm_env poisoned_batch initial_window) = Raise ValueError)
    by (vm_compute; reflexivity).
  split; [ exact Hout | ].
  destruct (only_the_price_handler_raises calm_env initial_window poisoned_batch ValueError Hout)
    as (v & Hin & _ & [Hf | [n Hc]]).
  - exists v. auto.
  - discriminate Hc.
Defined.

(** ** What the display methods leave alone *)

Section DisplayFrames.
Context {X : Type} (f : window -> X).
Hypothesis f_tick : forall w, f (tick w) = f w.
Hypothesis f_positions : forall g w, f (set_positions_table g w) = f w.
Hypothesis f_orders : forall g w, f (set_orders_table g w) = f w.
Hypothesis f_balance : forall t w, f (set_balance_label t w) = f w.
Variable E : env.

Lemma call_keeps {A} (e : event) (answer : nat -> outcome A) : preserves f (call e answer).
Proof. intros w. apply f_tick. Qed.

Ltac keeps :=
  repeat first
    [ solve [ auto ]
    | apply preserves_bind | apply preserves_try_except | apply preserves_if
    | apply preserves_ret | apply preserves_raise | apply preserves_emit
    | apply preserves_lift | apply preserves_gets | apply call_keeps
    | apply preserves_modify; intros;
      first [ apply f_positions | apply f_orders | apply f_balance ]
    | intro ].

Lemma table_item_keeps (v : pyval) : preserves f (table_item v).
Proof. destruct v; keeps. Qed.

Lemma position_items_keeps (p : pyval) : preserves f (position_items p).
Proof. pose proof table_item_keeps. unfold position_items. keeps. Qed.

Lemma positions_loop_keeps (l : list pyval) : preserves f (positions_loop l).
Proof.
  pose proof position_items_keeps.
  induction l as [ | p l IH ]; cbn [positions_loop]; unfold positions_turn; keeps.
Qed.

Lemma update_positions_table_keeps (a : pyval) : preserves f (update_positions_table E a).
Proof. pose proof positions_loop_keeps. unfold update_positions_table. keeps. Qed.

Lemma order_items_keeps (o : pyval) : preserves f (order_items o).
Proof. pose proof table_item_keeps. unfold order_items. keeps. Qed.

Lemma orders_loop_keeps (l : list pyval) : preserves f (orders_loop l).
Proof.
  pose proof order_items_keeps.
  induction l as [ | o l IH ]; cbn [orders_loop]; unfold orders_turn; keeps.
Qed.

Lemma update_orders_table_keeps : preserves f (update_orders_table E).
Proof. pose proof orders_loop_keeps. unfold update_orders_table. keeps. Qed.

Lemma update_chart_positions_keeps : preserves f (update_chart_positions E).
Proof. unfold update_chart_positions. keeps. Qed.

Lemma show_balance_keeps (b : pyval) : preserves f (show_balance b).
Proof. unfold show_balance. keeps. Qed.

Lemma update_balance_keeps : preserves f (update_balance E).
Proof. pose proof show_balance_keeps. unfold update_balance. keeps. Qed.

Lemma update_ui_keeps : preserves f (update_ui E).
Proof.
  pose proof update_positions_table_keeps. pose proof update_orders_table_keeps.
  pose proof update_chart_positions_keeps. pose proof show_balance_keeps.
  unfold update_ui. keeps.
Qed.

Hypothesis f_price : forall t w, f (set_price_label t w) = f w.

Lemma dispatch_keeps (t : string) (v : pyval) : preserves f (dispatch E t v).
Proof.
  pose proof update_positions_table_keeps. pose proof update_orders_table_keeps.
  pose proof update_chart_positions_keeps.
  unfold dispatch, _handle_price_update, _handle_positions_update,
    _handle_orders_update, _handle_balance_update.
  repeat first
    [ solve [ auto ]
    | apply preserves_bind | apply preserves_if | apply preserves_ret | apply preserves_emit
    | apply preserves_lift | apply call_keeps
    | apply preserves_modify; intros; first [ apply f_price | apply f_balance ]
    | intro ].
Qed.

Hypothesis f_last_data : forall g w, f (set_last_data g w) = f w.

Lemma update_widgets_keeps (items : dict pyval) : preserves f (update_widgets E items).
Proof.
  pose proof dispatch_keeps.
  induction items as [ | [t v] items IH ]; cbn [update_widgets]; unfold update_widget.
  - apply preserves_ret.
  - repeat first
      [ solve [ auto ]
      | apply preserves_bind | apply preserves_if | apply preserves_ret | apply preserves_gets
      | apply preserves_modify; intros; apply f_last_data
          | intro ].
Qed.

End DisplayFrames.

(** X3.  The poll cycle, the balance update and the table updates write
    the two tables and the balance label, and nothing else of the window:
    the snapshot [_last_data] of the batched update loop, its queue, the
    price label, the two flags and the symbol box are as before. *)
Theorem poll_writes_only_the_display (E : env) (w : window) (a : pyval) :
  beside_display (st (update_ui E w)) = beside_display w
  /\ beside_display (st (update_balance E w)) = beside_display w
  /\ beside_display (st (update_positions_table E a w)) = beside_display w
  /\ beside_display (st (update_orders_table E w)) = beside_display w
  /\ beside_display (st (update_chart_positions E w)) = beside_display w.
Proof.
  split; [ apply update_ui_keeps; reflexivity | ].
  split; [ apply update_balance_keeps; reflexivity | ].
  split; [ apply update_positions_table_keeps; reflexivity | ].
  split; [ apply update_orders_table_keeps; reflexivity | ].
  apply update_chart_positions_keeps; reflexivity.
Qed.

(** X4.  A flush leaves the queue empty, whether it returns or raises:
    what was queued and not dispatched before a handler raised is not
    queued again.  On an empty queue a flush does nothing. *)
Theorem flush_empties_the_queue (E : env) (w : window) :
  _update_queue (st (_process_updates E w)) = []
  /\ (_update_queue w = [] -> _process_updates E w = mkResult [] (Ok tt) w).
Proof.
  unfold _process_updates. rewrite bind_gets.
  destruct (_update_queue w) as [ | data queue ] eqn:Hq.
  - split; [ exact Hq | reflexivity ].
  - split; [ | discriminate ].
    rewrite bind_modify. unfold _update_ui.
    rewrite (update_widgets_keeps _update_queue); reflexivity.
Qed.

Lemma flush_empties_the_queue_witness :
  _update_queue initial_window = []
  /\ _process_updates calm_env initial_window = mkResult [] (Ok tt) initial_window.
Proof.
  assert (Hq : _update_queue initial_window = []) by reflexivity.
  split; [ exact Hq | ].
  destruct (flush_empties_the_queue calm_env initial_window) as [_ H]. exact (H Hq).
Defined.

(** ** More on the batched update loop *)

Section MoreOnTheLoop.
Variable E : env.

Lemma update_widget_unhandled (t : string) (v : pyval) (w : window) :
  has_handler t = false \/ in_widgets t w = false ->
  update_widget E t v w =
  if py_ne (last_data_get w t) v
  then mkResult [] (Ok tt) (set_last_data (fun m => <[t := v]> m) w)
  else mkResult [] (Ok tt) w.
Proof.
  intros Hno. unfold update_widget. rewrite bind_gets.
  destruct (py_ne (last_data_get w t) v); [ | reflexivity ].
  rewrite bind_gets.
  destruct (in_widgets t w) eqn:Hin.
  - destruct Hno as [Hh | Hf]; [ | discriminate ].
    assert (Hd : dispatch E t v = ret tt).
    { unfold dispatch, has_handler in *.
      destruct (String.eqb t "price"); [ discriminate | ].
      destruct (String.eqb t "positions"); [ discriminate | ].
      destruct (String.eqb t "orders"); [ discriminate | ].
      destruct (String.eqb t "balance"); [ discriminate | reflexivity ]. }
    rewrite Hd, bind_ret. reflexivity.
  - rewrite bind_ret. reflexivity.
Qed.

Lemma update_widgets_unhandled (items : dict pyval) (w : window) :
  (forall t, t ∈ keys items -> has_handler t = false \/ in_widgets t w = false) ->
  events (update_widgets E items w) = [] /\ out (update_widgets E items w) = Ok tt.
Proof.
  revert w. induction items as [ | [t v] items IH ]; intros w Hno; [ split; reflexivity | ].
  cbn [update_widgets].
  assert (Hhead : has_handler t = false \/ in_widgets t w = false).
  { apply Hno. left. }
  pose proof (update_widget_unhandled t v w Hhead) as Hrun.
  assert (Hev : events (update_widget E t v w) = []
                /\ out (update_widget E t v w) = Ok tt
                /\ _widgets (st (update_widget E t v w)) = _widgets w).
  { rewrite Hrun. destruct (py_ne (last_data_get w t) v); repeat split. }
  destruct Hev as (Hev & Hout & Hw).
  rewrite (bind_returns _ _ w Hout), Hev. cbn [events out app].
  apply IH. intros t' Ht'.
  destruct (Hno t') as [Hh | Hin]; [ right; exact Ht' | left; exact Hh | right ].
  rewrite <- Hin. apply in_widgets_ext, Hw.
Qed.

(** X5.  A value for a topic that has no widget, or no handler (as the
    chart), reaches nobody: the flush calls nothing, returns, and only
    remembers the value in the snapshot when it differs from the one
    remembered. *)
Theorem topics_without_handler_are_only_remembered (w : window) (updates : dict pyval) :
  NoDup (keys updates) ->
  (forall t, t ∈ keys updates -> has_handler t = false \/ in_widgets t w = false) ->
  let r := _update_ui E updates w in
  events r = []
  /\ out r = Ok tt
  /\ (forall t v, (t, v) ∈ updates -> py_ne (last_data_get w t) v = true ->
        _last_data (st r) !! t = Some v).
Proof.
  intros Hnd Hno. cbv zeta. unfold _update_ui.
  destruct (update_widgets_unhandled updates w Hno) as [Hev Hout].
  split; [ exact Hev | ]. split; [ exact Hout | ].
  intros t v Hin Hne.
  destruct (update_widgets_recorded E updates w t v Hnd Hout Hin) as [H _].
  exact (H Hne).
Qed.

Lemma update_widgets_unchanged (items : dict pyval) (w : window) :
  (forall t v, (t, v) ∈ items -> py_ne (last_data_get w t) v = false) ->
  update_widgets E items w = mkResult [] (Ok tt) w.
Proof.
  induction items as [ | [t v] items IH ]; intros Hsame; [ reflexivity | ].
  cbn [update_widgets].
  assert (Hhead : update_widget E t v w = mkResult [] (Ok tt) w).
  { destruct (update_widget_run E t v w) as [[_ Hr] | (Hne & _)]; [ exact Hr | ].
    rewrite (Hsame t v) in Hne by left. discriminate. }
  unfold bind. rewrite Hhead. cbn [out events st app].
  rewrite IH by (intros t' v' H; apply Hsame; right; exact H).
  reflexivity.
Qed.

(** X6.  Flushing the same batch again, after a flush that returned,
    does nothing at all: no handler is called, no collaborator either, and
    the window stays as it is. *)
Theorem repeated_flush_does_nothing (w : window) (updates : dict pyval) :
  NoDup (keys updates) ->
  out (_update_ui E updates w) = Ok tt ->
  let w1 := st (_update_ui E updates w) in
  _update_ui E updates w1 = mkResult [] (Ok tt) w1.
Proof.
  intros Hnd Hout. cbv zeta. unfold _update_ui in *.
  apply update_widgets_unchanged. intros t v Hin.
  destruct (update_widgets_recorded E updates w t v Hnd Hout Hin) as [H1 H2].
  destruct (py_ne (last_data_get w t) v) eqn:Hne.
  - unfold last_data_get. rewrite (H1 eq_refl). apply py_ne_refl.
  - rewrite <- Hne. f_equal. apply last_data_get_ext. apply H2. reflexivity.
Qed.

(** X7.  The handler of the price writes the label before it tells the
    chart.  When the chart raises on a new price, the flush raises, the
    label already shows the new price, and the snapshot still holds the
    old one, so the next flush with this price dispatches it again. *)
Theorem price_label_is_written_before_the_chart_fails (w : window) (q : Q) (e : exn) :
  in_widgets "price" w = true ->
  py_ne (last_data_get w "price") (PyNum q) = true ->
  chart_update_price E (clock w) (PyNum q) = Raise e ->
  let r := _update_ui E [("price", PyNum q)] w in
  out r = Raise e
  /\ price_label (st r) = [Lit "Цена: "; Fixed 4 q; Lit " USDT"]
  /\ _last_data (st r) = _last_data w
  /\ py_ne (last_data_get (st r) "price") (PyNum q) = true.
Proof.
  intros Hin Hne Hchart. cbv zeta.
  assert (Hrun : _update_ui E [("price", PyNum q)] w =
            mkResult [Invoke "price" (Some (PyNum q)); ChartUpdatePrice (PyNum q)] (Raise e)
                     (tick (set_price_label [Lit "Цена: "; Fixed 4 q; Lit " USDT"] w))).
  { assert (Hturn : update_widget E "price" (PyNum q) w =
              mkResult [Invoke "price" (Some (PyNum q)); ChartUpdatePrice (PyNum q)] (Raise e)
                       (tick (set_price_label [Lit "Цена: "; Fixed 4 q; Lit " USDT"] w))).
    { unfold update_widget. rewrite bind_gets, Hne, bind_gets, Hin.
      assert (Hd : dispatch E "price" (PyNum q) w =
                mkResult [Invoke "price" (Some (PyNum q)); ChartUpdatePrice (PyNum q)] (Raise e)
                         (tick (set_price_label [Lit "Цена: "; Fixed 4 q; Lit " USDT"] w))).
      { unfold dispatch. cbn [String.eqb Ascii.eqb Bool.eqb].
        unfold _handle_price_update. rewrite bind_emit. cbn [py_format_f].
        rewrite bind_lift_ok, bind_modify.
        unfold call. cbn [out events st set_price_label clock app]. rewrite Hchart.
        reflexivity. }
      unfold bind. rewrite Hd. reflexivity. }
    unfold _update_ui. cbn [update_widgets]. unfold bind. rewrite Hturn. reflexivity. }
  rewrite Hrun. cbn [out st]. split; [ reflexivity | ]. split; [ reflexivity | ].
  split; [ reflexivity | exact Hne ].
Qed.

End MoreOnTheLoop.

Lemma topics_without_handler_are_only_remembered_witness :
  NoDup (keys unhandled_batch)
  /\ (forall t, t ∈ keys unhandled_batch ->
        has_handler t = false \/ in_widgets t initial_window = false)
  /\ events (_update_ui calm_env unhandled_batch initial_window) = []
  /\ _last_data (st (_update_ui calm_env unhandled_batch initial_window)) !! "volume"
     = Some (PyNum 7).
Proof.
  assert (Hnd : NoDup (keys unhandled_batch)).
  { apply (bool_decide_unpack _). vm_compute. reflexivity. }
  assert (Hno : forall t, t ∈ keys unhandled_batch ->
                  has_handler t = false \/ in_widgets t initial_window = false).
  { intros t Ht. apply elem_of_cons in Ht as [-> | Ht]; [ left; reflexivity | ].
    apply list_elem_of_singleton in Ht as ->. left. reflexivity. }
  split; [ exact Hnd | ]. split; [ exact Hno | ].
  destruct (topics_without_handler_are_only_remembered calm_env initial_window unhandled_batch
              Hnd Hno) as (Hev & _ & Hrec).
  split; [ exact Hev | ].
  apply Hrec; [ right; left | reflexivity ].
Defined.

Lemma repeated_flush_does_nothing_witness :
  NoDup (keys plain_batch)
  /\ out (_update_ui calm_env plain_batch initial_window) = Ok tt
  /\ events (_update_ui calm_env plain_batch
               (st (_update_ui calm_env plain_batch initial_window))) = [].
Proof.
  assert (Hnd : NoDup (keys plain_batch)).
  { apply (bool_decide_unpack _). vm_compute. reflexivity. }
  assert (Hout : out (_update_ui calm_env plain_batch initial_window) = Ok tt)
    by (vm_compute; reflexivity).
  split; [ exact Hnd | ]. split; [ exact Hout | ].
  rewrite (repeated_flush_does_nothing calm_env initial_window plain_batch Hnd Hout).
  reflexivity.
Defined.

Lemma price_label_is_written_before_the_chart_fails_witness :
  in_widgets "price" initial_window = true
  /\ py_ne (last_data_get initial_window "price") (PyNum 30000) = true
  /\ chart_update_price chart_down_env (clock initial_window) (PyNum 30000)
     = Raise (Failure "chart")
  /\ price_label (st (_update_ui chart_down_env [("price", PyNum 30000)] initial_window))
     = [Lit "Цена: "; Fixed 4 30000; Lit " USDT"].
Proof.
  assert (H1 : in_widgets "price" initial_window = true) by reflexivity.
  assert (H2 : py_ne (last_data_get initial_window "price") (PyNum 30000) = true)
    by reflexivity.
  assert (H3 : chart_update_price chart_down_env (clock initial_window) (PyNum 30000)
               = Raise (Failure "chart")) by reflexivity.
  split; [ exact H1 | ]. split; [ exact H2 | ]. split; [ exact H3 | ].
  destruct (price_label_is_written_before_the_chart_fails chart_down_env initial_window
              30000 (Failure "chart") H1 H2 H3) as (_ & H & _).
  exact H.
Defined.

(** ** The merged batch *)

Lemma keys_dict_update {V} (data d : dict V) (k : string) :
  k ∈ keys (dict_update d data) <-> k ∈ keys d \/ k ∈ keys data.
Proof.
  unfold dict_update. revert d.
  induction data as [ | [k0 v0] data IH ]; intros d; cbn [fold_left fst snd].
  - cbn. rewrite elem_of_nil. tauto.
  - rewrite IH, keys_dict_set. cbn. rewrite elem_of_cons. tauto.
Qed.

Lemma keys_drain_from (queue : list (dict pyval)) (d : dict pyval) (k : string) :
  k ∈ keys (fold_left dict_update queue d) <->
  k ∈ keys d \/ exists data, data ∈ queue /\ k ∈ keys data.
Proof.
  revert d. induction queue as [ | data queue IH ]; intros d; cbn [fold_left].
  - split; [ auto | ]. intros [H | (data & H & _)]; [ exact H | inversion H ].
  - rewrite IH, keys_dict_update. split.
    + intros [[H | H] | (data' & H & Hk)].
      * auto.
      * right. exists data. split; [ left | exact H ].
      * right. exists data'. split; [ right; exact H | exact Hk ].
    + intros [H | (data' & H & Hk)]; [ auto | ].
      apply elem_of_cons in H as [-> | H]; [ auto | ].
      right. exists data'. auto.
Qed.

(** X8.  Draining the queue (lines 145 to 148) gives a batch in which
    every topic that was published is present once, with the value
    published last for it, and no other topic. *)
Theorem drained_batch_holds_the_last_values (queue : list (dict pyval)) :
  NoDup (keys (drain queue))
  /\ (forall topic, topic ∈ keys (drain queue) <->
                    exists data, data ∈ queue /\ topic ∈ keys data)
  /\ (forall topic, dict_get (drain queue) topic = last (published queue topic)).
Proof.
  split; [ apply NoDup_drain | ]. split; [ | apply dict_get_drain ].
  intros topic. unfold drain. rewrite keys_drain_from. cbn. rewrite elem_of_nil. tauto.
Qed.

(** ** The orders table *)

Lemma order_items_effect_free (o : pyval) : effect_free (order_items o).
Proof. unfold order_items. effect_free. Qed.

Lemma order_items_row (o : pyval) (w : window) (r : row) :
  out (order_items o w) = Ok r -> user_data r = None /\ length (cells r) = 7.
Proof.
  unfold order_items. intros H. bind_inv H.
  inversion H; subst. split; reflexivity.
Qed.

Lemma well_formed_order_items (o : pyval) (w : window) :
  well_formed_order o = true -> exists r, out (order_items o w) = Ok r.
Proof.
  unfold well_formed_order.
  destruct o as [ | | | | d ]; try discriminate.
  destruct (dict_get d "symbol") as [ [ | | sym | | ] | ] eqn:H1; try discriminate.
  destruct (dict_get d "side") as [ [ | | side | | ] | ] eqn:H2; try discriminate.
  destruct (dict_get d "orderType") as [ [ | | type | | ] | ] eqn:H3; try discriminate.
  destruct (dict_get d "price") as [ price | ] eqn:H4; try discriminate.
  destruct (dict_get d "qty") as [ qty | ] eqn:H5; try discriminate.
  destruct (dict_get d "profit") as [ profit | ] eqn:H6; try discriminate.
  destruct (dict_get d "status") as [ [ | | status | | ] | ] eqn:H7; try discriminate.
  intros _. unfold order_items, py_getitem.
  rewrite H1, out_bind_lift, out_bind_table_item.
  rewrite H2, out_bind_lift, out_bind_table_item.
  rewrite H3, out_bind_lift, out_bind_table_item.
  rewrite H4, out_bind_lift, H5, out_bind_lift, H6, out_bind_lift.
  rewrite H7, out_bind_lift, out_bind_table_item.
  eexists. reflexivity.
Qed.

Lemma orders_turn_eq (o : pyval) (w : window) :
  orders_turn o w =
  let w' := set_orders_table (fun t => t ++ [mkRow [] None]) w in
  match out (order_items o w) with
  | Ok items =>
      mkResult [] (Ok tt)
        (set_orders_table (fun t => <[length (orders_table w) := items]> t) w')
  | Raise e => mkResult [] (Raise e) w'
  end.
Proof.
  unfold orders_turn. rewrite bind_gets, bind_modify. cbv zeta.
  destruct (order_items_effect_free o) as [res Hres].
  unfold bind. rewrite !Hres. cbn [out events st].
  destruct res as [ items | e ]; reflexivity.
Qed.

Lemma orders_turn_run (o : pyval) (w : window) :
  events (orders_turn o w) = []
  /\ match out (order_items o w) with
     | Ok items =>
         out (orders_turn o w) = Ok tt
         /\ orders_table (st (orders_turn o w)) = orders_table w ++ [items]
     | Raise e =>
         out (orders_turn o w) = Raise e
         /\ orders_table (st (orders_turn o w)) = orders_table w ++ [mkRow [] None]
     end.
Proof.
  rewrite orders_turn_eq. cbv zeta.
  destruct (out (order_items o w)) as [ items | e ].
  - split; [ reflexivity | ]. split; [ reflexivity | ].
    cbn [set_orders_table orders_table st]. apply insert_last_row.
  - repeat split.
Qed.

Lemma orders_loop_events (l : list pyval) (w : window) : events (orders_loop l w) = [].
Proof.
  revert w. induction l as [ | o l IH ]; intros w; [ reflexivity | ].
  cbn [orders_loop]. unfold bind.
  destruct (orders_turn_run o w) as [Hev _].
  destruct (out (orders_turn o w)); cbn [events]; rewrite Hev; [ | reflexivity ].
  rewrite IH. reflexivity.
Qed.

Lemma orders_loop_no_data (l : list pyval) (w : window) :
  Forall (fun r => user_data r = None) (orders_table w) ->
  Forall (fun r => user_data r = None) (orders_table (st (orders_loop l w))).
Proof.
  revert w. induction l as [ | o l IH ]; intros w Hinv; [ exact Hinv | ].
  cbn [orders_loop]. unfold bind.
  destruct (orders_turn_run o w) as [_ Hrun].
  assert (Hturn : Forall (fun r => user_data r = None) (orders_table (st (orders_turn o w)))).
  { destruct (out (order_items o w)) as [ items | e ] eqn:Hitems;
      destruct Hrun as [_ ->]; apply Forall_app; (split; [ exact Hinv | ]);
      apply Forall_singleton.
    - apply (order_items_row o w items Hitems).
    - reflexivity. }
  destruct (out (orders_turn o w)); cbn [st]; [ apply IH | ]; exact Hturn.
Qed.

Lemma orders_loop_well_formed (l : list pyval) (w : window) :
  Forall (fun o => well_formed_order o = true) l ->
  out (orders_loop l w) = Ok tt
  /\ exists rows,
       orders_table (st (orders_loop l w)) = orders_table w ++ rows
       /\ Forall2 (fun o r => forall w', out (order_items o w') = Ok r) l rows.
Proof.
  revert w. induction l as [ | o l IH ]; intros w Hwf.
  { split; [ reflexivity | ]. exists []. cbn. rewrite app_nil_r. split; [ reflexivity | constructor ]. }
  apply Forall_cons in Hwf as [Ho Hwf].
  cbn [orders_loop]. unfold bind.
  destruct (orders_turn_run o w) as [_ Hrun].
  destruct (well_formed_order_items o w Ho) as [items Hitems].
  rewrite Hitems in Hrun. destruct Hrun as [-> Htable]. cbn [out st].
  destruct (IH (st (orders_turn o w)) Hwf) as (Hout & rows & Hrows & Hall).
  split; [ exact Hout | ]. exists (items :: rows).
  rewrite Hrows, Htable, <- app_assoc. split; [ reflexivity | ].
  constructor; [ | exact Hall ].
  intros w'. destruct (order_items_effect_free o) as [res Hres].
  rewrite Hres in *. exact Hitems.
Qed.

Section OrdersTable.
Variable E : env.

(** X9.  When the order manager answers with a list, no row of the orders
    table carries an object (so the id that [show_order_menu] reads from
    the first cell is always [None]); when the orders are well formed the
    table holds, in the order of the list, one row of seven cells for
    every order, and nothing is logged. *)
Theorem orders_table_shows_every_order (w : window) (orders : list pyval) :
  get_orders E (clock w) = Ok (PyList orders) ->
  let r := update_orders_table E w in
  Forall (fun row => user_data row = None) (orders_table (st r))
  /\ (Forall (fun o => well_formed_order o = true) orders ->
      events r = [GetOrders]
      /\ Forall2 (fun o row => forall w', out (order_items o w') = Ok row)
                 orders (orders_table (st r))
      /\ Forall (fun row => length (cells row) = 7) (orders_table (st r))).
Proof.
  intros Hget. cbv zeta.
  set (w0 := set_orders_table (fun _ => []) (tick w)).
  assert (Htable : orders_table (st (update_orders_table E w))
                   = orders_table (st (orders_loop orders w0))).
  { unfold update_orders_table. rewrite try_except_run, bind_call, Hget.
    cbn [out events st]. rewrite bind_modify. cbn [py_iter]. rewrite bind_lift_ok.
    fold w0. destruct (out (orders_loop orders w0)); reflexivity. }
  split.
  - rewrite Htable. apply orders_loop_no_data. constructor.
  - intros Hwf.
    destruct (orders_loop_well_formed orders w0 Hwf) as (Hout & rows & Hrows & Hall).
    assert (Hrun : update_orders_table E w =
                   mkResult [GetOrders] (Ok tt) (st (orders_loop orders w0))).
    { unfold update_orders_table. rewrite try_except_run, bind_call, Hget.
      cbn [out events st]. rewrite bind_modify. cbn [py_iter]. rewrite bind_lift_ok.
      fold w0. rewrite Hout, orders_loop_events. reflexivity. }
    rewrite Hrun. cbn [events st]. split; [ reflexivity | ].
    rewrite Hrows. cbn [w0 set_orders_table orders_table app].
    split; [ exact Hall | ].
    clear -Hall. induction Hall as [ | o r l rows Hr _ IH ]; constructor; [ | exact IH ].
    exact (proj2 (order_items_row o initial_window r (Hr initial_window))).
Qed.

(** X10.  When the fetch of a table's content raises, the table keeps the
    rows it showed: the error is logged, the method returns, and only the
    call counter moved.  So for the positions as for the orders. *)
Theorem fetch_failure_keeps_the_table (w : window) (arg : pyval) (e : exn) :
  (get_orders E (clock w) = Raise e ->
   update_orders_table E w =
   mkResult [GetOrders; LogError [Lit "Ошибка обновления таблицы ордеров: "; ExnText e]]
            (Ok tt) (tick w))
  /\ (get_positions E (clock w) = Raise e ->
      update_positions_table E arg w =
      mkResult [GetPositions;
                LogError [Lit "Ошибка обновления таблицы позиций: "; ExnText e]]
               (Ok tt) (tick w)).
Proof.
  split; intros Hget.
  - unfold update_orders_table. rewrite try_except_run, bind_call, Hget. reflexivity.
  - unfold update_positions_table. rewrite try_except_run, bind_call, Hget. reflexivity.
Qed.

(** X11.  The table is emptied before the answer is looked at (lines 185
    and 220): an answer that cannot be iterated, such as [None], leaves an
    empty table and one line in the error log. *)
Theorem answer_that_is_no_list_empties_the_table (w : window) (arg answer : pyval) (e : exn) :
  py_iter answer = Raise e ->
  (get_orders E (clock w) = Ok answer ->
   let r := update_orders_table E w in
   out r = Ok tt /\ orders_table (st r) = []
   /\ logged_errors (events r) = [[Lit "Ошибка обновления таблицы ордеров: "; ExnText e]])
  /\ (get_positions E (clock w) = Ok answer ->
      let r := update_positions_table E arg w in
      out r = Ok tt /\ positions_table (st r) = []
      /\ logged_errors (events r)
         = [[Lit "Ошибка обновления таблицы позиций: "; ExnText e]]).
Proof.
  intros Hiter. split; intros Hget; cbv zeta.
  - unfold update_orders_table. rewrite try_except_run, bind_call, Hget.
    cbn [out events st]. rewrite bind_modify, Hiter, bind_lift_raise.
    repeat split.
  - unfold update_positions_table. rewrite try_except_run, bind_call, Hget.
    cbn [out events st]. rewrite bind_modify, Hiter, bind_lift_raise.
    repeat split.
Qed.

End OrdersTable.

Lemma orders_table_shows_every_order_witness :
  get_orders calm_env (clock initial_window) = Ok (PyList [limit_order])
  /\ Forall (fun o => well_formed_order o = true) [limit_order]
  /\ events (update_orders_table calm_env initial_window) = [GetOrders]
  /\ Forall (fun row => user_data row = None)
            (orders_table (st (update_orders_table calm_env initial_window))).
Proof.
  assert (Hget : get_orders calm_env (clock initial_window) = Ok (PyList [limit_order]))
    by reflexivity.
  assert (Hwf : Forall (fun o => well_formed_order o = true) [limit_order]).
  { repeat constructor. }
  split; [ exact Hget | ]. split; [ exact Hwf | ].
  destruct (orders_table_shows_every_order calm_env initial_window [limit_order] Hget)
    as [Hdata H].
  destruct (H Hwf) as (Hev & _). split; [ exact Hev | exact Hdata ].
Defined.

Lemma fetch_failure_keeps_the_table_witness :
  get_orders orders_down_env (clock showing_window) = Raise (Failure "timeout")
  /\ get_positions positions_down_env (clock showing_window) = Raise (Failure "timeout")
  /\ orders_table (st (update_orders_table orders_down_env showing_window))
     = orders_table showing_window
  /\ positions_table (st (update_positions_table positions_down_env PyNone showing_window))
     = positions_table showing_window.
Proof.
  assert (Ho : get_orders orders_down_env (clock showing_window) = Raise (Failure "timeout"))
    by reflexivity.
  assert (Hp : get_positions positions_down_env (clock showing_window)
               = Raise (Failure "timeout")) by reflexivity.
  split; [ exact Ho | ]. split; [ exact Hp | ]. split.
  - rewrite (proj1 (fetch_failure_keeps_the_table orders_down_env showing_window PyNone _) Ho).
    reflexivity.
  - rewrite (proj2 (fetch_failure_keeps_the_table positions_down_env showing_window PyNone _) Hp).
    reflexivity.
Defined.

Lemma answer_that_is_no_list_empties_the_table_witness :
  py_iter PyNone = Raise TypeError
  /\ get_orders silent_env (clock showing_window) = Ok PyNone
  /\ get_positions silent_env (clock showing_window) = Ok PyNone
  /\ orders_table (st (update_orders_table silent_env showing_window)) = []
  /\ positions_table (st (update_positions_table silent_env PyNone showing_window)) = [].
Proof.
  assert (Hi : py_iter PyNone = Raise TypeError) by reflexivity.
  assert (Ho : get_orders silent_env (clock showing_window) = Ok PyNone) by reflexivity.
  assert (Hp : get_positions silent_env (clock showing_window) = Ok PyNone) by reflexivity.
  split; [ exact Hi | ]. split; [ exact Ho | ]. split; [ exact Hp | ].
  destruct (answer_that_is_no_list_empties_the_table silent_env showing_window PyNone PyNone _ Hi)
    as [H1 H2].
  split; [ exact (proj1 (proj2 (H1 Ho))) | exact (proj1 (proj2 (H2 Hp))) ].
Defined.

(** ** A position the table cannot show *)

(** The loop stops at the first position whose turn raises: the positions
    before it have their rows, the ones after it are not looked at. *)
Lemma positions_loop_stops (pre post : list pyval) (bad : pyval) (e : exn) (w : window) :
  Forall (fun p => well_formed_position p = true) pre ->
  (forall w', out (positions_turn bad w') = Raise e) ->
  out (positions_loop (pre ++ bad :: post) w) = Raise e
  /\ exists rows,
       positions_table (st (positions_loop (pre ++ bad :: post) w))
       = positions_table w ++ rows
         ++ match position_size bad with Ok _ => [mkRow [] None] | Raise _ => [] end
       /\ user_data <$> rows = Some <$> List.filter (fun p => negb (zero_size p)) pre.
Proof.
  intros Hwf Hbad. revert w. induction Hwf as [ | p pre Hp Hwf IH ]; intros w.
  - cbn [app positions_loop List.filter fmap list_fmap]. unfold bind.
    specialize (Hbad w). rewrite Hbad. cbn [out st]. split; [ reflexivity | ].
    exists []. split; [ | reflexivity ]. cbn [app].
    destruct (positions_turn_run bad w) as [_ Hrun].
    destruct (position_size bad) as [ q | e' ].
    + destruct (Qeq_bool q 0); [ destruct Hrun as [Hout _]; congruence | ].
      destruct (out (position_items bad w)) as [ items | e' ];
        [ destruct Hrun as [Hout _]; congruence | ].
      destruct Hrun as [_ ->]. reflexivity.
    + destruct Hrun as [_ ->]. rewrite app_nil_r. reflexivity.
  - cbn [app positions_loop]. unfold bind.
    destruct (positions_turn_run p w) as [_ Hrun].
    destruct (well_formed_position_size p Hp) as [q Hsize].
    destruct (well_formed_position_items p w Hp) as [items Hitems].
    destruct (position_items_row p w items Hitems) as [Hdata _].
    assert (Hz : zero_size p = Qeq_bool q 0) by (unfold zero_size; rewrite Hsize; reflexivity).
    cbn [List.filter]. rewrite Hz. rewrite Hsize, Hitems in Hrun.
    destruct (Qeq_bool q 0); destruct Hrun as [-> Htable]; cbn [out st negb];
      destruct (IH (st (positions_turn p w))) as (Hout & rows & Hrows & Hdatas);
      (split; [ exact Hout | ]); rewrite Hrows, Htable.
    + exists rows. split; [ reflexivity | exact Hdatas ].
    + exists (items :: rows). rewrite <- app_assoc. split; [ reflexivity | ].
      cbn. rewrite Hdata, Hdatas. reflexivity.
Qed.

Section RaggedPositions.
Variable E : env.

Lemma update_positions_table_stops
    (w : window) (arg : pyval) (pre post : list pyval) (bad : pyval) (e : exn) :
  get_positions E (clock w) = Ok (PyList (pre ++ bad :: post)) ->
  Forall (fun p => well_formed_position p = true) pre ->
  (forall w', out (positions_turn bad w') = Raise e) ->
  let r := update_positions_table E arg w in
  r = mkResult [GetPositions; LogError [Lit "Ошибка обновления таблицы позиций: "; ExnText e]]
               (Ok tt) (st r)
  /\ exists rows,
       positions_table (st r)
       = rows ++ match position_size bad with Ok _ => [mkRow [] None] | Raise _ => [] end
       /\ user_data <$> rows = Some <$> List.filter (fun p => negb (zero_size p)) pre.
Proof.
  intros Hget Hwf Hbad. cbv zeta.
  set (w0 := set_positions_table (fun _ => []) (tick w)).
  destruct (positions_loop_stops pre post bad e w0 Hwf Hbad) as (Hout & rows & Hrows & Hdata).
  assert (Hrun : update_positions_table E arg w =
                 mkResult [GetPositions;
                           LogError [Lit "Ошибка обновления таблицы позиций: "; ExnText e]]
                          (Ok tt) (st (positions_loop (pre ++ bad :: post) w0))).
  { unfold update_positions_table. rewrite try_except_run, bind_call, Hget.
    cbn [out events st]. rewrite bind_modify. cbn [py_iter]. rewrite bind_lift_ok.
    fold w0. rewrite Hout, positions_loop_events. reflexivity. }
  rewrite Hrun. cbn [st]. split; [ reflexivity | ].
  exists rows. split; [ exact Hrows | exact Hdata ].
Qed.

(** X12.  A position whose turn raises (a missing field, a size or a
    profit that is no number) ends the update of the positions table: the
    well-formed positions before it are shown, the positions after it are
    not, although they may be well formed; the error is logged and the
    method returns.  When the size could be read, the row inserted for the
    position stays in the table, empty. *)
Theorem malformed_position_truncates_the_table
    (w : window) (arg : pyval) (pre post : list pyval) (bad : pyval) (e : exn) :
  get_positions E (clock w) = Ok (PyList (pre ++ bad :: post)) ->
  Forall (fun p => well_formed_position p = true) pre ->
  (forall w', out (positions_turn bad w') = Raise e) ->
  let r := update_positions_table E arg w in
  out r = Ok tt
  /\ events r = [GetPositions; LogError [Lit "Ошибка обновления таблицы позиций: "; ExnText e]]
  /\ user_data <$> positions_table (st r)
     = (Some <$> List.filter (fun p => negb (zero_size p)) pre)
       ++ match position_size bad with Ok _ => [None] | Raise _ => [] end.
Proof.
  intros Hget Hwf Hbad. cbv zeta.
  destruct (update_positions_table_stops w arg pre post bad e Hget Hwf Hbad)
    as (Hrun & rows & Hrows & Hdata).
  rewrite Hrun. cbn [out events st]. split; [ reflexivity | ]. split; [ reflexivity | ].
  rewrite Hrows, fmap_app, Hdata. destruct (position_size bad); reflexivity.
Qed.

(** X13.  The empty row that a malformed position leaves in the table
    cannot be edited: a double click on it makes [edit_position] raise, as
    the row has no item to take the position from. *)
Theorem empty_row_cannot_be_edited
    (w : window) (arg : pyval) (pre post : list pyval) (bad : pyval) (e : exn) (q : Q) :
  get_positions E (clock w) = Ok (PyList (pre ++ bad :: post)) ->
  Forall (fun p => well_formed_position p = true) pre ->
  (forall w', out (positions_turn bad w') = Raise e) ->
  position_size bad = Ok q ->
  let w1 := st (update_positions_table E arg w) in
  let last_row := length (List.filter (fun p => negb (zero_size p)) pre) in
  positions_table w1 !! last_row = Some (mkRow [] None)
  /\ edit_position E last_row w1 = mkResult [] (Raise (AttributeError "data")) w1.
Proof.
  intros Hget Hwf Hbad Hsize. cbv zeta.
  destruct (update_positions_table_stops w arg pre post bad e Hget Hwf Hbad)
    as (Hrun & rows & Hrows & Hdata).
  rewrite Hsize in Hrows.
  assert (Hlen : length (List.filter (fun p => negb (zero_size p)) pre) = length rows).
  { rewrite <- (length_fmap Some), <- Hdata, length_fmap. reflexivity. }
  assert (Hrow : positions_table (st (update_positions_table E arg w))
                 !! length (List.filter (fun p => negb (zero_size p)) pre)
                 = Some (mkRow [] None)).
  { rewrite Hrows, Hlen. apply list_lookup_middle. reflexivity. }
  split; [ exact Hrow | ].
  unfold edit_position. rewrite bind_gets, Hrow. reflexivity.
Qed.

End RaggedPositions.

Lemma bare_position_raises (w : window) :
  out (positions_turn bare_position w) = Raise (KeyError "symbol").
Proof.
  rewrite positions_turn_eq. reflexivity.
Qed.

Lemma malformed_position_truncates_the_table_witness :
  get_positions ragged_env (clock showing_window)
  = Ok (PyList ([btc_position "0.5"] ++ bare_position :: [eth_position "3"]))
  /\ Forall (fun p => well_formed_position p = true) [btc_position "0.5"]
  /\ (forall w', out (positions_turn bare_position w') = Raise (KeyError "symbol"))
  /\ user_data <$> positions_table (st (update_positions_table ragged_env PyNone showing_window))
     = [Some (btc_position "0.5"); None].
Proof.
  assert (Hget : get_positions ragged_env (clock showing_window)
                 = Ok (PyList ([btc_position "0.5"] ++ bare_position :: [eth_position "3"])))
    by reflexivity.
  assert (Hwf : Forall (fun p => well_formed_position p = true) [btc_position "0.5"]).
  { repeat constructor. }
  split; [ exact Hget | ]. split; [ exact Hwf | ]. split; [ exact bare_position_raises | ].
  destruct (malformed_position_truncates_the_table ragged_env showing_window PyNone
              _ _ _ _ Hget Hwf bare_position_raises) as (_ & _ & H).
  exact H.
Defined.

Lemma empty_row_cannot_be_edited_witness :
  get_positions ragged_env (clock showing_window)
  = Ok (PyList ([btc_position "0.5"] ++ bare_position :: [eth_position "3"]))
  /\ Forall (fun p => well_formed_position p = true) [btc_position "0.5"]
  /\ (forall w', out (positions_turn bare_position w') = Raise (KeyError "symbol"))
  /\ position_size bare_position = Ok (2 # 1)%Q
  /\ out (edit_position ragged_env 1
            (st (update_positions_table ragged_env PyNone showing_window)))
     = Raise (AttributeError "data").
Proof.
  assert (Hget : get_positions ragged_env (clock showing_window)
                 = Ok (PyList ([btc_position "0.5"] ++ bare_position :: [eth_position "3"])))
    by reflexivity.
  assert (Hwf : Forall (fun p => well_formed_position p = true) [btc_position "0.5"]).
  { repeat constructor. }
  assert (Hsize : position_size bare_position = Ok (2 # 1)%Q) by reflexivity.
  split; [ exact Hget | ]. split; [ exact Hwf | ]. split; [ exact bare_position_raises | ].
  split; [ exact Hsize | ].
  destruct (empty_row_cannot_be_edited ragged_env showing_window PyNone
              _ _ _ _ _ Hget Hwf bare_position_raises Hsize) as [_ H].
  change (length (List.filter (fun p => negb (zero_size p)) [btc_position "0.5"])) with 1%nat in H.
  rewrite H. reflexivity.
Defined.

(** ** The calls of a poll cycle *)

Lemma collaborator_calls_app (l1 l2 : list event) :
  collaborator_calls (l1 ++ l2) = collaborator_calls l1 ++ collaborator_calls l2.
Proof. apply List.filter_app. Qed.

Lemma show_balance_events (b : pyval) (w : window) : events (show_balance b w) = [].
Proof.
  unfold show_balance. destruct (py_truthy b); [ | reflexivity ].
  destruct (py_format_f 2 b); reflexivity.
Qed.

Section PollCalls.
Variable E : env.

Lemma update_positions_table_calls (a : pyval) (w : window) :
  collaborator_calls (events (update_positions_table E a w)) = [GetPositions].
Proof.
  unfold update_positions_table. rewrite try_except_run, bind_call.
  destruct (get_positions E (clock w)) as [ ps | e ]; [ | reflexivity ].
  cbn [out events st]. rewrite bind_modify.
  destruct (py_iter ps) as [ l | e ]; [ | reflexivity ].
  rewrite bind_lift_ok, positions_loop_events.
  destruct (out (positions_loop l _)); reflexivity.
Qed.

Lemma update_orders_table_calls (w : window) :
  collaborator_calls (events (update_orders_table E w)) = [GetOrders].
Proof.
  unfold update_orders_table. rewrite try_except_run, bind_call.
  destruct (get_orders E (clock w)) as [ os | e ]; [ | reflexivity ].
  cbn [out events st]. rewrite bind_modify.
  destruct (py_iter os) as [ l | e ]; [ | reflexivity ].
  rewrite bind_lift_ok, orders_loop_events.
  destruct (out (orders_loop l _)); reflexivity.
Qed.

Lemma update_chart_positions_calls (w : window) :
  collaborator_calls (events (update_chart_positions E w)) =
  GetPositions ::
  match get_positions E (clock w) with
  | Raise _ => []
  | Ok positions =>
      GetOrders ::
      match get_orders E (S (clock w)) with
      | Raise _ => []
      | Ok orders => [ChartUpdatePositionsAndOrders positions orders]
      end
  end.
Proof.
  unfold update_chart_positions. rewrite try_except_run, bind_call.
  destruct (get_positions E (clock w)) as [ ps | e ]; [ | reflexivity ].
  cbn [out events st]. rewrite bind_call. cbn [tick clock].
  destruct (get_orders E (S (clock w))) as [ os | e ]; [ | reflexivity ].
  cbn [out events st]. unfold call. cbn [out events st tick clock].
  destruct (chart_update_positions_and_orders E (S (S (clock w))) ps os); reflexivity.
Qed.

(** X14.  The calls of a poll cycle, in their order.  After [update_all]
    the positions are asked for at the call site (line 790), again inside
    [update_positions_table] and a third time for the chart; the orders
    are asked for by their table and again for the chart; the balance
    comes last.  A failure of [update_all] or of the first fetch of the
    positions ends the cycle there; no other failure keeps a later call
    from being made, except inside the chart update. *)
Theorem poll_cycle_calls_in_order (w : window) :
  exists chart,
    collaborator_calls (events (update_ui E w)) =
    UpdateAll ::
    match update_all E (clock w) with
    | Raise _ => []
    | Ok _ =>
        GetPositions ::
        match get_positions E (S (clock w)) with
        | Raise _ => []
        | Ok _ => [GetPositions; GetOrders; GetPositions] ++ chart ++ [GetWalletBalance]
        end
    end
    /\ (chart = [] \/ chart = [GetOrders]
        \/ exists positions orders,
             chart = [GetOrders; ChartUpdatePositionsAndOrders positions orders]).
Proof.
  unfold update_ui. rewrite try_except_run, bind_call.
  destruct (update_all E (clock w)) as [ [] | e ];
    [ | exists []; split; [ reflexivity | auto ] ].
  cbn [out events st]. rewrite bind_call. cbn [tick clock].
  destruct (get_positions E (S (clock w))) as [ ps | e ];
    [ | exists []; split; [ reflexivity | auto ] ].
  cbn [out events st].
  set (w2 := tick (tick w)).
  rewrite (bind_returns _ _ w2 (update_positions_table_returns E ps w2)).
  cbn [out events st].
  set (w3 := st (update_positions_table E ps w2)).
  rewrite (bind_returns _ _ w3 (update_orders_table_returns E w3)).
  cbn [out events st].
  set (w4 := st (update_orders_table E w3)).
  rewrite (bind_returns _ _ w4 (update_chart_positions_returns E w4)).
  cbn [out events st].
  set (w5 := st (update_chart_positions E w4)).
  rewrite bind_call.
  pose (chart := match get_positions E (clock w4) with
                 | Raise _ => []
                 | Ok positions =>
                     GetOrders ::
                     match get_orders E (S (clock w4)) with
                     | Raise _ => []
                     | Ok orders => [ChartUpdatePositionsAndOrders positions orders]
                     end
                 end).
  exists chart. split.
  - assert (Hbody : forall tail : list event,
               collaborator_calls tail = [GetWalletBalance] ->
               collaborator_calls
                 (UpdateAll :: GetPositions ::
                    events (update_positions_table E ps w2) ++
                    events (update_orders_table E w3) ++
                    events (update_chart_positions E w4) ++ tail)
               = UpdateAll :: GetPositions ::
                 [GetPositions; GetOrders; GetPositions] ++ chart ++ [GetWalletBalance]).
    { intros tail Htl.
      change (UpdateAll :: GetPositions :: ?l) with ([UpdateAll; GetPositions] ++ l).
      rewrite !collaborator_calls_app, Htl.
      rewrite update_positions_table_calls, update_orders_table_calls,
        update_chart_positions_calls.
      reflexivity. }
    destruct (get_wallet_balance E (clock w5)) as [ b | e ]; cbn [out events st].
    + destruct (out (show_balance b (tick w5))) as [ [] | e ] eqn:Hshow; cbn [events].
      * apply Hbody. rewrite show_balance_events. reflexivity.
      * rewrite collaborator_calls_app.
        change (collaborator_calls (events (emit (LogError ?t) ?s))) with (@nil event).
        rewrite app_nil_r.
        apply Hbody. rewrite show_balance_events. reflexivity.
    + rewrite collaborator_calls_app.
      change (collaborator_calls (events (emit (LogError ?t) ?s))) with (@nil event).
      rewrite app_nil_r.
      apply Hbody. reflexivity.
  - unfold chart. destruct (get_positions E (clock w4)) as [ positions | ]; [ | auto ].
    destruct (get_orders E (S (clock w4))) as [ orders | ]; [ | auto ].
    right. right. eauto.
Qed.

(** X15.  The balance label after [update_balance]: a balance that is a
    number other than zero is shown with two decimals; in every other case
    (the fetch raised, the balance is zero, [None] or empty, or it cannot
    be formatted) the label keeps the text it had.  The method returns in
    all of them. *)
Theorem balance_label_shows_only_nonzero_numbers (w : window) :
  let r := update_balance E w in
  out r = Ok tt
  /\ (forall q, get_wallet_balance E (clock w) = Ok (PyNum q) -> ~ q == 0 ->
       r = mkResult [GetWalletBalance] (Ok tt) (set_balance_label (balance_text q) (tick w)))
  /\ (balance_label (st r) = balance_label w
      \/ exists q, get_wallet_balance E (clock w) = Ok (PyNum q) /\ ~ q == 0
                   /\ balance_label (st r) = balance_text q)
  /\ (forall b, get_wallet_balance E (clock w) = Ok b -> py_truthy b = false ->
       r = mkResult [GetWalletBalance] (Ok tt) (tick w)).
Proof.
  cbv zeta. split; [ apply update_balance_returns | ].
  unfold update_balance. rewrite try_except_run, bind_call. unfold show_balance.
  split; [ | split ].
  - intros q Hget Hq. rewrite Hget. cbn [py_truthy].
    destruct (Qeq_bool q 0) eqn:Hz; [ apply Qeq_bool_iff in Hz; contradiction | ].
    reflexivity.
  - destruct (get_wallet_balance E (clock w)) as [ b | e ]; [ | left; reflexivity ].
    destruct b as [ | q | s | l | d ]; cbn [py_truthy].
    + left. reflexivity.
    + destruct (Qeq_bool q 0) eqn:Hz; [ left; reflexivity | ].
      right. exists q. split; [ reflexivity | ].
      split; [ | reflexivity ].
      intros H. apply Qeq_bool_iff in H. congruence.
    + destruct (negb (String.eqb s "")); left; reflexivity.
    + destruct l; left; reflexivity.
    + destruct d; left; reflexivity.
  - intros b Hget Hb. rewrite Hget, Hb. reflexivity.
Qed.

End PollCalls.

Lemma balance_label_shows_only_nonzero_numbers_witness :
  get_wallet_balance calm_env (clock initial_window) = Ok (PyNum 1000)
  /\ ~ 1000 == 0
  /\ get_wallet_balance empty_wallet_env (clock showing_window) = Ok (PyNum 0)
  /\ py_truthy (PyNum 0) = false
  /\ balance_label (st (update_balance calm_env initial_window)) = balance_text 1000
  /\ balance_label (st (update_balance empty_wallet_env showing_window))
     = balance_label showing_window.
Proof.
  assert (H1 : get_wallet_balance calm_env (clock initial_window) = Ok (PyNum 1000))
    by reflexivity.
  assert (H2 : ~ 1000 == 0) by discriminate.
  assert (H3 : get_wallet_balance empty_wallet_env (clock showing_window) = Ok (PyNum 0))
    by reflexivity.
  assert (H4 : py_truthy (PyNum 0) = false) by reflexivity.
  split; [ exact H1 | ]. split; [ exact H2 | ]. split; [ exact H3 | ]. split; [ exact H4 | ].
  split.
  - rewrite (proj1 (proj2 (balance_label_shows_only_nonzero_numbers calm_env initial_window))
               _ H1 H2).
    reflexivity.
  - rewrite (proj2 (proj2 (proj2
               (balance_label_shows_only_nonzero_numbers empty_wallet_env showing_window)))
               (PyNum 0) H3 H4).
    reflexivity.
Defined.

(** ** Closing a position *)

(** [close_position] is [close_position_by] at the call of the position
    manager. *)
Lemma close_position_is_close_position_by (E : env) (symbol : string) (size : Q) :
  close_position E symbol size
  = close_position_by (position_manager_close_position E symbol size) symbol.
Proof. reflexivity. Qed.

Section ClosePosition.
Context (manager : M pyval) (symbol : string).

(** The run of [close_position], by the answer of the position manager. *)
Lemma close_position_by_run (w : window) :
  let r := manager w in
  close_position_by manager symbol w =
  match out r with
  | Raise e =>
      mkResult (events r ++ close_failure "Ошибка при закрытии позиции: " (ExnText e))
               (Ok tt) (st r)
  | Ok response =>
      if py_truthy response then
        match py_get response "retCode" PyNone with
        | Raise e =>
            mkResult (events r ++ close_failure "Ошибка при закрытии позиции: " (ExnText e))
                     (Ok tt) (st r)
        | Ok code =>
            if py_eqb code (PyNum 0)
            then mkResult (events r ++ close_success symbol) (Ok tt)
                          (set_update_needed true true (st r))
            else
              match py_get response "retMsg" unknown_error with
              | Raise e =>
                  mkResult (events r
                            ++ close_failure "Ошибка при закрытии позиции: " (ExnText e))
                           (Ok tt) (st r)
              | Ok error_msg =>
                  mkResult (events r
                            ++ close_failure "Ошибка закрытия позиции: " (StrOf error_msg))
                           (Ok tt) (st r)
              end
        end
      else mkResult (events r ++ close_failure "Ошибка закрытия позиции: " (StrOf unknown_error))
                    (Ok tt) (st r)
  end.
Proof.
  cbv zeta. unfold close_position_by. rewrite try_except_run, bind_run.
  destruct (out (manager w)) as [ response | e ]; [ | reflexivity ].
  cbn [out events st].
  destruct (py_truthy response) eqn:Htruthy; cbn [negb].
  - destruct (py_get response "retCode" PyNone) as [ code | e ].
    + rewrite bind_run, bind_lift_ok. cbn [ret out events st].
      destruct (py_eqb code (PyNum 0)); [ reflexivity | ].
      destruct (py_get response "retMsg" unknown_error) as [ error_msg | e ].
      * rewrite bind_lift_ok. reflexivity.
      * rewrite bind_lift_raise. cbn [out events st]. rewrite app_nil_r. reflexivity.
    + rewrite bind_run, bind_lift_raise. cbn [out events st]. rewrite app_nil_r. reflexivity.
  - rewrite bind_ret. cbn [negb]. rewrite bind_ret. reflexivity.
Qed.

(** X16.  [close_position] never raises and reports exactly once, whatever
    the position manager does: after the manager's call there is one
    message box, either of the success, and then the two tables are
    flagged for a refresh and the answer was a true value whose [retCode]
    equals 0, or of a failure, and then there is one line in the error log
    with the same reason and the window is as the manager left it. *)
Theorem close_position_reports_exactly_once (w : window) :
  let r := close_position_by manager symbol w in
  out r = Ok tt
  /\ exists tail,
       events r = events (manager w) ++ tail
       /\ ((tail = close_success symbol
            /\ st r = set_update_needed true true (st (manager w))
            /\ exists response code,
                 out (manager w) = Ok response /\ py_truthy response = true
                 /\ py_get response "retCode" PyNone = Ok code
                 /\ py_eqb code (PyNum 0) = true)
           \/ (st r = st (manager w)
               /\ exists prefix reason, tail = close_failure prefix reason)).
Proof.
  cbv zeta. rewrite close_position_by_run. cbv zeta.
  destruct (out (manager w)) as [ response | e ] eqn:Hout.
  - destruct (py_truthy response) eqn:Htruthy.
    + destruct (py_get response "retCode" PyNone) as [ code | e ] eqn:Hcode.
      * destruct (py_eqb code (PyNum 0)) eqn:Hzero.
        -- split; [ reflexivity | ]. eexists. split; [ reflexivity | ]. left.
           split; [ reflexivity | ]. split; [ reflexivity | ].
           exists response, code. auto.
        -- destruct (py_get response "retMsg" unknown_error);
             (split; [ reflexivity | ]); eexists; (split; [ reflexivity | ]); right;
             (split; [ reflexivity | ]); eauto.
      * split; [ reflexivity | ]. eexists. split; [ reflexivity | ]. right.
        split; [ reflexivity | ]. eauto.
    + split; [ reflexivity | ]. eexists. split; [ reflexivity | ]. right.
      split; [ reflexivity | ]. eauto.
  - split; [ reflexivity | ]. eexists. split; [ reflexivity | ]. right.
    split; [ reflexivity | ]. eauto.
Qed.

(** X17.  The reason [close_position] gives for a failure.  An exception
    of the position manager is reported with its text.  An answer that is
    false in Python ([None], an empty dict) is reported as the unknown
    error.  A dict whose [retCode] is not 0 is reported with its
    [retMsg], or as the unknown error when it has none.  An answer that is
    true and not a dict has no [get]: the attribute error is reported. *)
Theorem close_position_failure_reasons (w : window) :
  let r := close_position_by manager symbol w in
  (forall e, out (manager w) = Raise e ->
     events r = events (manager w)
                ++ close_failure "Ошибка при закрытии позиции: " (ExnText e))
  /\ (forall response, out (manager w) = Ok response -> py_truthy response = false ->
       events r = events (manager w)
                  ++ close_failure "Ошибка закрытия позиции: " (StrOf unknown_error))
  /\ (forall d, out (manager w) = Ok (PyDict d) -> d <> [] ->
       py_eqb (default PyNone (dict_get d "retCode")) (PyNum 0) = false ->
       events r = events (manager w)
                  ++ close_failure "Ошибка закрытия позиции: "
                       (StrOf (default unknown_error (dict_get d "retMsg"))))
  /\ (forall response, out (manager w) = Ok response -> py_truthy response = true ->
       (forall d, response <> PyDict d) ->
       events r = events (manager w)
                  ++ close_failure "Ошибка при закрытии позиции: "
                       (ExnText (AttributeError "get"))).
Proof.
  cbv zeta. rewrite close_position_by_run. cbv zeta.
  split; [ | split; [ | split ] ].
  - intros e ->. reflexivity.
  - intros response -> ->. reflexivity.
  - intros d -> Hd Hcode.
    assert (Htruthy : py_truthy (PyDict d) = true) by (destruct d; [ contradiction | reflexivity ]).
    rewrite Htruthy. cbn [py_get].
    destruct (dict_get d "retCode") as [ code | ]; unfold default in Hcode;
      cbn [from_option id] in Hcode; rewrite Hcode;
      destruct (dict_get d "retMsg"); reflexivity.
  - intros response -> -> Hnodict.
    destruct response as [ | q | t | l | d ]; try reflexivity.
    exfalso. apply (Hnodict d). reflexivity.
Qed.

End ClosePosition.

Lemma close_position_failure_reasons_witness :
  out (@raise pyval (Failure "timeout") initial_window) = Raise (Failure "timeout")
  /\ out (ret PyNone initial_window) = Ok PyNone
  /\ py_truthy PyNone = false
  /\ out (ret refusal initial_window) = Ok refusal
  /\ shown_messages (events (close_position_by (raise (Failure "timeout")) "BTCUSDT"
                               initial_window))
     = [("Ошибка", [Lit "Не удалось закрыть позицию: "; ExnText (Failure "timeout")])]
  /\ shown_messages (events (close_position_by (ret PyNone) "BTCUSDT" initial_window))
     = [("Ошибка", [Lit "Не удалось закрыть позицию: "; StrOf unknown_error])]
  /\ shown_messages (events (close_position_by (ret refusal) "BTCUSDT" initial_window))
     = [("Ошибка", [Lit "Не удалось закрыть позицию: ";
                    StrOf (PyStr "position idx not match")])]
  /\ shown_messages (events (close_position_by (ret (PyStr "ok")) "BTCUSDT" initial_window))
     = [("Ошибка", [Lit "Не удалось закрыть позицию: "; ExnText (AttributeError "get")])].
Proof.
  assert (H1 : out (@raise pyval (Failure "timeout") initial_window)
               = Raise (Failure "timeout")) by reflexivity.
  assert (H2 : out (ret PyNone initial_window) = Ok PyNone) by reflexivity.
  assert (H3 : py_truthy PyNone = false) by reflexivity.
  assert (H4 : out (ret refusal initial_window) = Ok refusal) by reflexivity.
  assert (H5 : out (ret (PyStr "ok") initial_window) = Ok (PyStr "ok")) by reflexivity.
  split; [ exact H1 | ]. split; [ exact H2 | ]. split; [ exact H3 | ]. split; [ exact H4 | ].
  split; [ | split; [ | split ] ].
  - rewrite (proj1 (close_position_failure_reasons (raise (Failure "timeout")) "BTCUSDT"
                      initial_window) _ H1).
    reflexivity.
  - rewrite (proj1 (proj2 (close_position_failure_reasons (ret PyNone) "BTCUSDT"
                             initial_window)) _ H2 H3).
    reflexivity.
  - rewrite (proj1 (proj2 (proj2 (close_position_failure_reasons (ret refusal) "BTCUSDT"
                                    initial_window))) _ H4);
      [ reflexivity | discriminate | reflexivity ].
  - rewrite (proj2 (proj2 (proj2 (close_position_failure_reasons (ret (PyStr "ok")) "BTCUSDT"
                                    initial_window))) _ H5);
      [ reflexivity | reflexivity | discriminate ].
Defined.

(** ** Editing the protective levels *)

Section EditPosition.
Variable E : env.

(** The runs of the dialog part of [edit_position]: a field of the
    position is missing and the method raises before the dialog; the
    dialog is rejected; or it is accepted, and then the request is sent
    and the run ends in the handler of the [try], with one line in the
    error log. *)
Lemma edit_position_dialog_run (position : pyval) (w : window) :
  let r := edit_position_dialog E position w in
  let answer := sl_tp_dialog E (clock w) in
  (exists e, r = mkResult [] (Raise e) w)
  \/ (exists symbol side entry size tp sl,
        fst answer = false
        /\ r = mkResult [ExecSlTpDialog symbol side entry size tp sl] (Ok tt) (tick w))
  \/ (exists symbol side entry size tp sl params,
        fst answer = true
        /\ params = trading_stop_params symbol (fst (snd answer)) (snd (snd answer))
        /\ match set_trading_stop E (S (clock w)) params with
           | Raise e =>
               r = mkResult [ExecSlTpDialog symbol side entry size tp sl;
                             SetTradingStop params;
                             LogError [Lit "Ошибка при установке TP/SL: "; ExnText e]]
                            (Ok tt) (tick (tick w))
           | Ok response =>
               r = mkResult [ExecSlTpDialog symbol side entry size tp sl;
                             SetTradingStop params;
                             HandleBybitError response;
                             LogError [Lit "Ошибка при установке TP/SL: ";
                                       ExnText match handle_bybit_error E (S (S (clock w)))
                                                       response with
                                               | Raise e => e
                                               | Ok _ => AttributeError "update_positions"
                                               end]]
                            (Ok tt) (tick (tick (tick w)))
           end).
Proof.
  cbv zeta. unfold edit_position_dialog.
  destruct (py_getitem position "symbol") as [ symbol | e ]; [ | left; eexists; reflexivity ].
  rewrite bind_lift_ok.
  destruct (py_getitem position "side") as [ side | e ]; [ | left; eexists; reflexivity ].
  rewrite bind_lift_ok.
  destruct (py_get position "avgPrice" (PyNum 0)) as [ avg | e ];
    [ | left; eexists; reflexivity ].
  rewrite bind_lift_ok.
  destruct (py_float avg) as [ entry | e ]; [ | left; eexists; reflexivity ].
  rewrite bind_lift_ok.
  destruct (py_getitem position "size") as [ size | e ]; [ | left; eexists; reflexivity ].
  rewrite bind_lift_ok.
  destruct (py_float size) as [ fsize | e ]; [ | left; eexists; reflexivity ].
  rewrite bind_lift_ok.
  destruct (py_get position "takeProfit" PyNone) as [ tp0 | e ];
    [ | left; eexists; reflexivity ].
  rewrite bind_lift_ok.
  destruct (py_get position "stopLoss" PyNone) as [ sl0 | e ];
    [ | left; eexists; reflexivity ].
  rewrite bind_lift_ok.
  rewrite bind_call. right.
  destruct (sl_tp_dialog E (clock w)) as [accepted [tp sl]]. cbn [fst snd out events st].
  destruct accepted.
  - right. exists symbol, side, entry, fsize, tp0, sl0. eexists.
    split; [ reflexivity | ]. split; [ reflexivity | ].
    rewrite try_except_run, bind_lift_ok, bind_call. cbn [tick clock].
    destruct (set_trading_stop E (S (clock w)) (trading_stop_params symbol tp sl))
      as [ response | e ]; cbn [out events st]; [ | reflexivity ].
    rewrite bind_call. cbn [tick clock].
    destruct (handle_bybit_error E (S (S (clock w))) response) as [ [] | e ]; reflexivity.
  - left. exists symbol, side, entry, fsize, tp0, sl0. split; reflexivity.
Qed.

(** [edit_position] is the dialog part, or does nothing. *)
Lemma edit_position_run (row_index : nat) (w : window) :
  (exists o, edit_position E row_index w = mkResult [] o w)
  \/ exists position, edit_position E row_index w = edit_position_dialog E position w.
Proof.
  unfold edit_position. rewrite bind_gets.
  destruct (positions_table w !! row_index) as [ [ [ | c cs ] data ] | ];
    try (left; eexists; reflexivity).
  rewrite bind_ret.
  destruct (negb (py_truthy match data with Some p => p | None => PyNone end));
    [ left; eexists; reflexivity | right; eexists; reflexivity ].
Qed.

(** X18.  [edit_position] (line 628) never refreshes the table of the
    positions, and every request it sends ends in the error log.  A
    rejected dialog sends and logs nothing.  When a request was sent the
    method returns with exactly one line in the error log; when the
    request was answered and the error handler accepted the answer, that
    line is the attribute error of [self.update_positions()], a method the
    class does not have. *)
Theorem every_sent_request_ends_in_the_error_log (w : window) (row_index : nat) :
  let r := edit_position E row_index w in
  positions_table (st r) = positions_table w
  /\ (fst (sl_tp_dialog E (clock w)) = false ->
      trading_stop_requests (events r) = [] /\ logged_errors (events r) = [])
  /\ (forall params, SetTradingStop params ∈ events r ->
       out r = Ok tt /\ length (logged_errors (events r)) = 1)
  /\ (forall response, HandleBybitError response ∈ events r ->
       handle_bybit_error E (S (S (clock w))) response = Ok tt ->
       logged_errors (events r)
       = [[Lit "Ошибка при установке TP/SL: "; ExnText (AttributeError "update_positions")]]).
Proof.
  cbv zeta.
  destruct (edit_position_run row_index w) as [ [o ->] | [position ->] ].
  { cbn [events out st]. split; [ reflexivity | ]. split; [ split; reflexivity | ].
    split; intros x H; inversion H. }
  destruct (edit_position_dialog_run position w)
    as [ [e ->] | [ (symbol & side & entry & size & tp & sl & Hno & ->)
                  | (symbol & side & entry & size & tp & sl & params & Hyes & _ & Hrun) ] ].
  - cbn [events out st]. split; [ reflexivity | ]. split; [ split; reflexivity | ].
    split; intros x H; inversion H.
  - cbn [events out st]. split; [ reflexivity | ]. split; [ split; reflexivity | ].
    split; intros x H; apply elem_of_cons in H as [H | H]; try discriminate; inversion H.
  - destruct (set_trading_stop E (S (clock w)) params) as [ response | e ]; rewrite Hrun;
      cbn [events out st]; (split; [ reflexivity | ]);
      (split; [ intros Hno; rewrite Hno in Hyes; discriminate | ]).
    + split; [ intros; split; reflexivity | ].
      intros response' H Hhandled.
      repeat (apply elem_of_cons in H as [H | H]; [ try discriminate H | ]);
        [ | inversion H ].
      inversion H; subst response'. rewrite Hhandled. reflexivity.
    + split; [ intros; split; reflexivity | ].
      intros response' H _.
      repeat (apply elem_of_cons in H as [H | H]; [ try discriminate H | ]); inversion H.
Qed.

End EditPosition.

Lemma every_sent_request_ends_in_the_error_log_witness :
  let r := edit_position calm_env 0 showing_window in
  let response := PyDict [("retCode", PyNum 0)] in
  HandleBybitError response ∈ events r
  /\ handle_bybit_error calm_env (S (S (clock showing_window))) response = Ok tt
  /\ logged_errors (events r)
     = [[Lit "Ошибка при установке TP/SL: "; ExnText (AttributeError "update_positions")]].
Proof.
  cbv zeta.
  assert (Hin : HandleBybitError (PyDict [("retCode", PyNum 0)])
                ∈ events (edit_position calm_env 0 showing_window)).
  { apply list_elem_of_In. vm_compute. auto. }
  assert (Hok : handle_bybit_error calm_env (S (S (clock showing_window)))
                  (PyDict [("retCode", PyNum 0)]) = Ok tt) by reflexivity.
  split; [ exact Hin | ]. split; [ exact Hok | ].
  exact (proj2 (proj2 (proj2 (every_sent_request_ends_in_the_error_log calm_env
                                showing_window 0))) _ Hin Hok).
Defined.

(** ** The filters of the symbol box *)

Lemma filter_filter_implied {A} (f g : A -> bool) (l : list A) :
  (forall x, f x = true -> g x = true) ->
  List.filter f (List.filter g l) = List.filter f l.
Proof.
  intros Himp. induction l as [ | x l IH ]; [ reflexivity | ].
  cbn [List.filter]. destruct (g x) eqn:Hg; cbn [List.filter].
  - rewrite IH. reflexivity.
  - destruct (f x) eqn:Hf; [ | exact IH ].
    rewrite (Himp x Hf) in Hg. discriminate.
Qed.

Lemma filter_all {A} (f : A -> bool) (l : list A) :
  (forall x, f x = true) -> List.filter f l = l.
Proof.
  intros Hall. induction l as [ | x l IH ]; [ reflexivity | ].
  cbn [List.filter]. rewrite Hall, IH. reflexivity.
Qed.

Lemma py_in_empty (s : string) : py_in "" s = true.
Proof. destruct s; reflexivity. Qed.

Lemma py_in_inside (before text after s : string) :
  py_in (upper (before +:+ text +:+ after)) s = true -> py_in (upper text) s = true.
Proof.
  rewrite !py_in_spec, !upper_app. intros (pre & suf & ->).
  exists (pre +:+ upper before), (upper after +:+ suf).
  rewrite !string_app_assoc. reflexivity.
Qed.

(** X19.  Typing narrows the list.  With an empty search text the filter
    keeps the whole catalog; a text that contains an earlier text keeps
    only symbols the earlier text kept, and filtering the earlier result
    gives the same list as filtering the catalog again, which is what the
    code does at every keystroke. *)
Theorem longer_search_text_narrows (before text after : string) (catalog : list string) :
  matching_symbols "" catalog = catalog
  /\ matching_symbols (before +:+ text +:+ after) (matching_symbols text catalog)
     = matching_symbols (before +:+ text +:+ after) catalog
  /\ matching_symbols (before +:+ text +:+ after) catalog
     `sublist_of` matching_symbols text catalog.
Proof.
  assert (Hsame : matching_symbols (before +:+ text +:+ after) (matching_symbols text catalog)
                  = matching_symbols (before +:+ text +:+ after) catalog).
  { unfold matching_symbols. cbv zeta. apply filter_filter_implied.
    intros s. apply py_in_inside. }
  split; [ | split; [ exact Hsame | ] ].
  - unfold matching_symbols. cbv zeta. apply filter_all. intros s. apply py_in_empty.
  - rewrite <- Hsame. unfold matching_symbols at 1. apply filter_sublist.
Qed.

Section FiltersAndSignals.
Variable E : env.

(** [addItems] on an empty box whose text is not the first of the new
    items: the first item becomes the current row and the text, and
    [on_symbol_selected] is run on it and raises. *)
Lemma combo_addItems_selects (first : string) (rest : list string) (w : window) :
  symbol_combo_items w = [] ->
  first <> "" ->
  symbol_combo_text w <> first ->
  let r := combo_addItems E (first :: rest) w in
  let selected := set_current_symbol first
                    (set_symbol_combo_text first
                       (set_symbol_combo_index (Some 0%nat)
                          (set_symbol_combo_items (first :: rest) w))) in
  r = on_symbol_selected E first
        (set_symbol_combo_text first
           (set_symbol_combo_index (Some 0%nat) (set_symbol_combo_items (first :: rest) w)))
  /\ exists e evs n,
       out r = Raise e
       /\ events r = SaveWindowSettings (PyDict [("symbol", PyStr first)]) :: evs
       /\ (ShowPopup ∉ events r)
       /\ st r = Nat.iter n tick selected.
Proof.
  intros Hitems Hfirst Htext. cbv zeta.
  rewrite (combo_addItems_run E (first :: rest) w Hitems), line_edit_setText_run.
  set (w' := set_symbol_combo_index (Some 0%nat) (set_symbol_combo_items (first :: rest) w)).
  assert (Ht : symbol_combo_text w' = symbol_combo_text w) by reflexivity.
  rewrite Ht.
  destruct (String.eqb_spec (symbol_combo_text w) first) as [ H | _ ]; [ contradiction | ].
  cbv zeta.
  destruct (on_symbol_selected_raises E first (set_symbol_combo_text first w') Hfirst)
    as (e & evs & n & Hout & Hev & Hno & Hst).
  rewrite Hout. cbv iota.
  split.
  - rewrite <- Hout. apply result_eta.
  - exists e, evs, n. cbn [out events st]. auto.
Qed.

(** X24.  When the filter finds a symbol, the box selects the first one
    found at once: [addItems] on the emptied box makes it the current row
    and writes it into the line edit, and unless this is the very text
    that was typed, [on_symbol_selected] runs on it: the symbol becomes
    [current_symbol], the stored settings are replaced by the symbol
    alone, and the slot raises (at the missing [update_position_info]
    when the managers return), so that the list does not pop up.  When
    nothing is found the box is left empty and the method returns. *)
Theorem a_match_is_selected_and_the_slot_raises (w : window) :
  let found := matching_symbols (symbol_combo_text w) (available_symbols w) in
  let r := filter_symbols E w in
  (found = [] ->
     out r = Ok tt /\ symbol_combo_items (st r) = [] /\ (ShowPopup ∉ events r)
     /\ current_symbol (st r) = current_symbol w)
  /\ (forall first rest,
        found = first :: rest -> first <> "" -> symbol_combo_text w <> first ->
        (exists e, out r = Raise e)
        /\ (ShowPopup ∉ events r)
        /\ SaveWindowSettings (PyDict [("symbol", PyStr first)]) ∈ events r
        /\ symbol_combo_items (st r) = first :: rest
        /\ symbol_combo_index (st r) = Some 0%nat
        /\ symbol_combo_text (st r) = first
        /\ current_symbol (st r) = Some first
        /\ (config_save_window_settings E (clock w) (PyDict [("symbol", PyStr first)]) = Ok tt ->
            data_change_symbol E (S (clock w)) first = Ok tt ->
            position_change_symbol E (S (S (clock w))) first = Ok tt ->
            order_change_symbol E (S (S (S (clock w)))) first = Ok tt ->
            out r = Raise (AttributeError "update_position_info")))
  /\ (forall first rest,
        found = first :: rest -> symbol_combo_items w = [] -> symbol_combo_text w = first ->
        r = mkResult [ShowPopup] (Ok tt)
              (set_symbol_combo_index (Some 0%nat) (set_symbol_combo_items found w))).
Proof.
  cbv zeta. rewrite filter_symbols_run. cbv zeta.
  destruct (combo_clear_empties E w)
    as (Hclear & Hitems & Havailable & _ & Hcurrent & Hclock & Htext & Hquiet).
  set (w1 := st (combo_clear E w)) in *.
  split; [ | split ].
  - intros Hnone. rewrite Hnone. cbn [combo_addItems ret out events st].
    rewrite !app_nil_r. auto.
  - intros first rest Hfound Hfirst Hdiffers. rewrite Hfound.
    assert (Htext1 : symbol_combo_text w1 <> first).
    { destruct Htext as [ -> | -> ]; [ exact Hdiffers | congruence ]. }
    destruct (combo_addItems_selects first rest w1 Hitems Hfirst Htext1)
      as (Hrun & e & evs & n & Hout & Hev & Hno & Hst).
    rewrite Hout. cbn [out events st].
    split; [ eauto | ].
    split; [ intros Hin; apply elem_of_app in Hin as [ Hin | Hin ]; auto | ].
    split; [ apply elem_of_app; right; rewrite Hev; left | ].
    rewrite Hst.
    split; [ rewrite (ticks_keep symbol_combo_items); reflexivity | ].
    split; [ rewrite (ticks_keep symbol_combo_index); reflexivity | ].
    split; [ rewrite (ticks_keep symbol_combo_text); reflexivity | ].
    split; [ rewrite (ticks_keep current_symbol); reflexivity | ].
    intros H1 H2 H3 H4. rewrite <- Hout, Hrun.
    rewrite (on_symbol_selected_run E first _ Hfirst). cbv zeta.
    cbn [clock set_symbol_combo_text set_symbol_combo_index set_symbol_combo_items].
    fold w1. rewrite Hclock, H1, H2, H3, H4. reflexivity.
  - intros first rest Hfound Hempty Htyped. rewrite Hfound.
    assert (Hw1 : combo_clear E w = mkResult [] (Ok tt) w).
    { rewrite combo_clear_run, Hempty. reflexivity. }
    unfold w1. rewrite Hw1. cbn [out events st].
    rewrite (combo_addItems_run E (first :: rest) w Hempty), line_edit_setText_run.
    cbn [symbol_combo_text set_symbol_combo_index set_symbol_combo_items].
    rewrite Htyped, String.eqb_refl. reflexivity.
Qed.

(** X20.  The two filters, [filter_symbols] (line 755) and
    [perform_filter] (line 582), do the same when their catalogs are the
    same list; but [perform_filter] reads [self.all_symbols], which only
    [load_symbols] sets: before that it raises after it has emptied the
    box, and the list does not pop up. *)
Theorem the_two_filters_agree_on_one_catalog (w : window) :
  (all_symbols w = Some (available_symbols w) -> perform_filter E w = filter_symbols E w)
  /\ (all_symbols w = None ->
      out (perform_filter E w) = Raise (AttributeError "all_symbols")
      /\ symbol_combo_items (st (perform_filter E w)) = []
      /\ (ShowPopup ∉ events (perform_filter E w))).
Proof.
  split.
  - intros Hall. rewrite (perform_filter_run E w _ Hall), filter_symbols_run. reflexivity.
  - intros Hnone.
    destruct (combo_clear_empties E w) as (Hclear & Hitems & _ & Hall & _ & _ & _ & Hquiet).
    assert (Hrun : perform_filter E w =
                   mkResult (events (combo_clear E w)) (Raise (AttributeError "all_symbols"))
                            (st (combo_clear E w))).
    { unfold perform_filter. rewrite bind_gets, bind_run, Hclear. cbv iota.
      rewrite bind_run, Hall, Hnone. cbn [raise out events st]. rewrite app_nil_r.
      reflexivity. }
    rewrite Hrun. cbn [out events st]. auto.
Qed.

End FiltersAndSignals.

Lemma a_match_is_selected_and_the_slot_raises_witness :
  matching_symbols (symbol_combo_text catalog_window) (available_symbols catalog_window)
  = "ETHUSDT" :: ["ETHBTC"]
  /\ "ETHUSDT" <> ""
  /\ symbol_combo_text catalog_window <> "ETHUSDT"
  /\ out (filter_symbols calm_env catalog_window) = Raise (AttributeError "update_position_info")
  /\ (ShowPopup ∉ events (filter_symbols calm_env catalog_window))
  /\ symbol_combo_text (st (filter_symbols calm_env catalog_window)) = "ETHUSDT".
Proof.
  assert (Hfound : matching_symbols (symbol_combo_text catalog_window)
                     (available_symbols catalog_window) = "ETHUSDT" :: ["ETHBTC"])
    by reflexivity.
  assert (Hfirst : "ETHUSDT" <> "") by discriminate.
  assert (Htext : symbol_combo_text catalog_window <> "ETHUSDT") by discriminate.
  split; [ exact Hfound | ]. split; [ exact Hfirst | ]. split; [ exact Htext | ].
  destruct (proj1 (proj2 (a_match_is_selected_and_the_slot_raises calm_env catalog_window))
              "ETHUSDT" ["ETHBTC"] Hfound Hfirst Htext)
    as (_ & Hno & _ & _ & _ & Htyped & _ & Hwhy).
  split; [ apply Hwhy; reflexivity | ]. split; [ exact Hno | exact Htyped ].
Defined.

Lemma the_two_filters_agree_on_one_catalog_witness :
  all_symbols catalog_window = Some (available_symbols catalog_window)
  /\ all_symbols initial_window = None
  /\ symbol_combo_items (st (perform_filter calm_env catalog_window)) = ["ETHUSDT"; "ETHBTC"]
  /\ out (perform_filter calm_env initial_window) = Raise (AttributeError "all_symbols").
Proof.
  assert (H1 : all_symbols catalog_window = Some (available_symbols catalog_window))
    by reflexivity.
  assert (H2 : all_symbols initial_window = None) by reflexivity.
  split; [ exact H1 | ]. split; [ exact H2 | ]. split.
  - rewrite (proj1 (the_two_filters_agree_on_one_catalog calm_env catalog_window) H1).
    reflexivity.
  - exact (proj1 (proj2 (the_two_filters_agree_on_one_catalog calm_env initial_window) H2)).
Defined.

(** ** The selected position *)

Lemma reset_position_selection_consistent (s : selection) :
  consistent (reset_position_selection s).
Proof. repeat split. right. reflexivity. Qed.

(** A click on a row of the table establishes the agreement, whatever
    the selection was. *)
Lemma handle_position_selection_establishes
    (get_position : text -> outcome pyval) (table : list row) (row_index : Z)
    (s : selection) :
  (0 <= row_index)%Z ->
  consistent (snd (handle_position_selection get_position table row_index s)).
Proof.
  intros Hrow. unfold handle_position_selection.
  destruct (Z.ltb_spec row_index 0) as [ Hneg | _ ]; [ lia | ].
  destruct (and_then (item_text table (Z.to_nat row_index)) get_position)
    as [ position | e ]; [ | apply reset_position_selection_consistent ].
  destruct (py_truthy position) eqn:Htruthy; [ | apply reset_position_selection_consistent ].
  destruct (selection_details position) as [ t | e ] eqn:Hdetails;
    [ | apply reset_position_selection_consistent ].
  cbn [snd]. unfold selection_details in Hdetails.
  destruct (py_getitem position "symbol") as [ symbol | ] eqn:Hsymbol; [ | discriminate ].
  destruct (py_getitem position "side") as [ side | ] eqn:Hside; [ | discriminate ].
  destruct (py_getitem position "size") as [ size | ] eqn:Hsize; [ | discriminate ].
  cbn [and_then] in Hdetails.
  assert (Henabled : close_position_button
                       (update_position_buttons_state (set_selected_position position s))
                     = true).
  { destruct position; try reflexivity. discriminate. }
  unfold consistent.
  cbn [update_position_buttons_state set_selected_position set_position_info_label
       close_position_button edit_sl_tp_button multiple_tp_button selected_position
       position_info_label] in Henabled |- *.
  split; [ reflexivity | ]. split; [ reflexivity | ].
  rewrite Henabled. exists position, symbol, side, size.
  unfold selection_details. rewrite Hsymbol, Hside, Hsize. cbn [and_then].
  repeat split; assumption.
Qed.

Lemma handle_position_selection_ignores_no_row
    (get_position : text -> outcome pyval) (table : list row) (row_index : Z)
    (s : selection) :
  (row_index < 0)%Z -> handle_position_selection get_position table row_index s = ([], s).
Proof.
  intros Hrow. unfold handle_position_selection.
  destruct (Z.ltb_spec row_index 0) as [ _ | Hpos ]; [ reflexivity | lia ].
Qed.

Lemma handle_position_selection_consistent
    (get_position : text -> outcome pyval) (table : list row) (row_index : Z)
    (s : selection) :
  consistent s ->
  consistent (snd (handle_position_selection get_position table row_index s)).
Proof.
  intros Hs. destruct (Z.lt_ge_cases row_index 0) as [ Hneg | Hpos ].
  - rewrite handle_position_selection_ignores_no_row by exact Hneg. exact Hs.
  - apply handle_position_selection_establishes. exact Hpos.
Qed.

Lemma after_clicks_consistent (clicks : list click) (s : selection) :
  consistent s -> consistent (after_clicks clicks s).
Proof.
  unfold after_clicks. revert s.
  induction clicks as [ | c clicks IH ]; intros s Hs; [ exact Hs | ].
  cbn [fold_left]. apply IH. apply handle_position_selection_consistent. exact Hs.
Qed.

Lemma initial_selection_consistent : consistent initial_selection.
Proof. repeat split. left. reflexivity. Qed.

(** X21.  Whatever was clicked and whatever the position manager
    answered, the three buttons of the panel are enabled together, and
    only while a position is selected whose symbol, side and size can be
    read: the handlers of the buttons, which index [selected_position],
    never find it unset or [None].  While the buttons are disabled the
    label says that no position is selected.  A click on a valid row
    establishes this from any state, also after an exception. *)
Theorem buttons_are_enabled_only_on_a_selected_position
    (clicks : list click) (get_position : text -> outcome pyval) (table : list row)
    (row_index : Z) (s : selection) :
  consistent (after_clicks clicks initial_selection)
  /\ ((0 <= row_index)%Z ->
      consistent (snd (handle_position_selection get_position table row_index s)))
  /\ ((row_index < 0)%Z ->
      handle_position_selection get_position table row_index s = ([], s)).
Proof.
  split; [ apply after_clicks_consistent, initial_selection_consistent | ]. split.
  - apply handle_position_selection_establishes.
  - apply handle_position_selection_ignores_no_row.
Qed.

Lemma buttons_are_enabled_only_on_a_selected_position_witness :
  let table := positions_table showing_window in
  let selected := snd (handle_position_selection btc_only table 0 initial_selection) in
  (0 <= 0)%Z
  /\ close_position_button selected = true
  /\ consistent selected
  /\ close_position_button (snd (handle_position_selection symbol_only table 0 selected))
     = false
  /\ consistent (snd (handle_position_selection symbol_only table 0 selected)).
Proof.
  cbv zeta.
  assert (Hrow : (0 <= 0)%Z) by lia.
  split; [ exact Hrow | ]. split; [ reflexivity | ].
  split; [ | split; [ reflexivity | ] ].
  - exact (proj1 (proj2 (buttons_are_enabled_only_on_a_selected_position
                           [] btc_only (positions_table showing_window) 0 initial_selection))
                 Hrow).
  - exact (proj1 (proj2 (buttons_are_enabled_only_on_a_selected_position
                           [] symbol_only (positions_table showing_window) 0
                           (snd (handle_position_selection btc_only
                                   (positions_table showing_window) 0 initial_selection))))
                 Hrow).
Defined.

(** X22.  The label always shows the details of the selection:
    [update_position_details], which writes the label from
    [selected_position], changes nothing after any run of clicks. *)
Theorem details_label_follows_the_selection (clicks : list click) :
  let s := after_clicks clicks initial_selection in
  update_position_details s = Ok s.
Proof.
  cbv zeta.
  pose proof (after_clicks_consistent clicks initial_selection initial_selection_consistent)
    as Hs.
  destruct (after_clicks clicks initial_selection) as [ selected label b1 b2 b3 ].
  destruct Hs as (_ & _ & Hs). cbn [close_position_button] in Hs.
  unfold update_position_details.
  cbn [selected_position position_info_label set_position_info_label
       close_position_button edit_sl_tp_button multiple_tp_button] in Hs |- *.
  destruct b1.
  - destruct Hs as (position & symbol & side & size & -> & Htruthy & Hsymbol & Hside & Hsize
                    & Hdetails).
    rewrite Htruthy. unfold selection_details in Hdetails.
    rewrite Hsymbol, Hside, Hsize in *. cbn [and_then] in Hdetails.
    destruct (py_get position "avgPrice" (PyStr "0")) as [ entry | ]; [ | discriminate ].
    cbn [and_then] in Hdetails |- *. inversion Hdetails. reflexivity.
  - destruct Hs as [-> [ -> | -> ] ]; reflexivity.
Qed.

(** ** The settings of the window *)

Lemma combo_findText_found (items : list string) (t : string) :
  t ∈ items -> exists index, combo_findText items t = Some index /\ items !! index = Some t.
Proof.
  induction items as [ | item items IH ]; intros Hin; [ inversion Hin | ].
  cbn [combo_findText]. destruct (String.eqb_spec item t) as [ -> | Hne ].
  - exists 0%nat. split; reflexivity.
  - apply elem_of_cons in Hin as [ -> | Hin ]; [ contradiction | ].
    destruct (IH Hin) as (index & -> & Hlookup).
    exists (S index). split; [ reflexivity | exact Hlookup ].
Qed.

Lemma combo_findText_missing (items : list string) (t : string) :
  t ∉ items -> combo_findText items t = None.
Proof.
  induction items as [ | item items IH ]; intros Hout; [ reflexivity | ].
  cbn [combo_findText]. destruct (String.eqb_spec item t) as [ -> | Hne ].
  - exfalso. apply Hout. left.
  - rewrite IH; [ reflexivity | ]. intros Hin. apply Hout. right. exact Hin.
Qed.

Section Settings.
Variable E : env.

(** [setCurrentIndex] on a row of the box. *)
Lemma combo_setCurrentIndex_run (index : nat) (t : string) (w : window) :
  symbol_combo_items w !! index = Some t ->
  combo_setCurrentIndex E index w
  = line_edit_setText E t (set_symbol_combo_index (Some index) w).
Proof.
  intros Hrow. unfold combo_setCurrentIndex. rewrite bind_gets, bind_modify.
  unfold itemText. rewrite Hrow.
  assert (Hlt : (index <? length (symbol_combo_items w))%nat = true).
  { apply Nat.ltb_lt. apply lookup_lt_is_Some. eauto. }
  rewrite Hlt. reflexivity.
Qed.

(** The theme of a window, as [apply_theme] names it for the chart. *)
Lemma apply_theme_run (w : window) :
  let dark := py_eqb (current_theme w) (PyStr "dark") in
  let name := if dark then "dark" else "light" in
  apply_theme E w =
  mkResult [ChartSetTheme name] (chart_set_theme E (clock w) name)
           (tick (set_dark_style dark w)).
Proof. reflexivity. Qed.

Lemma window_settings_eq (s : window) :
  exists x y width height,
    geometry s = (x, y, width, height)
    /\ window_settings s = settings_of x y width height (current_theme s) (symbol_combo_text s).
Proof.
  unfold window_settings.
  destruct (geometry s) as [ [ [x y] width ] height ]. exists x, y, width, height.
  split; reflexivity.
Qed.

Lemma settings_of_geometry (x y width height : Q) (theme : pyval) (symbol : string)
    (w : window) :
  (geo <- lift (py_getitem (settings_of x y width height theme symbol) "window_geometry") ;;
   x <- lift (py_getitem geo "x") ;;
   y <- lift (py_getitem geo "y") ;;
   width <- lift (py_getitem geo "width") ;;
   height <- lift (py_getitem geo "height") ;;
   x <- lift (py_number x) ;;
   y <- lift (py_number y) ;;
   width <- lift (py_number width) ;;
   height <- lift (py_number height) ;;
   modify (set_geometry (x, y, width, height)))%py w
  = mkResult [] (Ok tt) (set_geometry (x, y, width, height) w).
Proof.
  assert (H0 : py_getitem (settings_of x y width height theme symbol) "window_geometry"
               = Ok (PyDict [("x", PyNum x); ("y", PyNum y);
                             ("width", PyNum width); ("height", PyNum height)]))
    by reflexivity.
  rewrite H0, bind_lift_ok.
  set (geo := PyDict [("x", PyNum x); ("y", PyNum y);
                      ("width", PyNum width); ("height", PyNum height)]).
  assert (H1 : py_getitem geo "x" = Ok (PyNum x)) by reflexivity.
  assert (H2 : py_getitem geo "y" = Ok (PyNum y)) by reflexivity.
  assert (H3 : py_getitem geo "width" = Ok (PyNum width)) by reflexivity.
  assert (H4 : py_getitem geo "height" = Ok (PyNum height)) by reflexivity.
  rewrite H1, bind_lift_ok, H2, bind_lift_ok, H3, bind_lift_ok, H4, bind_lift_ok.
  cbn [py_number]. rewrite !bind_lift_ok. reflexivity.
Qed.

Lemma settings_of_fields (x y width height : Q) (theme : pyval) (symbol : string) :
  let settings := settings_of x y width height theme symbol in
  py_truthy settings = true
  /\ py_contains "window_geometry" settings = Ok true
  /\ py_contains "theme" settings = Ok true
  /\ py_contains "symbol" settings = Ok true
  /\ py_getitem settings "theme" = Ok theme
  /\ py_getitem settings "symbol" = Ok (PyStr symbol).
Proof. repeat split. Qed.

Lemma bind_silent {A B} (m : M A) (k : A -> M B) (w w' : window) (a : A) :
  m w = mkResult [] (Ok a) w' -> bind m k w = k a w'.
Proof.
  intros Hm. rewrite bind_run, Hm. cbn [out events st app]. apply result_eta.
Qed.

Lemma load_theme_part (x y width height : Q) (theme : pyval) (symbol : string) (w : window) :
  let dark := py_eqb theme (PyStr "dark") in
  let name := if dark then "dark" else "light" in
  (theme <- lift (py_getitem (settings_of x y width height theme symbol) "theme") ;;
   modify (set_current_theme theme) ;;
   apply_theme E)%py w
  = mkResult [ChartSetTheme name] (chart_set_theme E (clock w) name)
             (tick (set_dark_style dark (set_current_theme theme w))).
Proof.
  cbv zeta.
  destruct (settings_of_fields x y width height theme symbol) as (_ & _ & _ & _ & Hget & _).
  rewrite Hget, bind_lift_ok, bind_modify, apply_theme_run. reflexivity.
Qed.

Lemma load_symbol_part (x y width height : Q) (theme : pyval) (symbol : string) (w : window) :
  (has_symbol <- lift (py_contains "symbol" (settings_of x y width height theme symbol)) ;;
   if has_symbol then
     symbol <- lift (py_getitem (settings_of x y width height theme symbol) "symbol") ;;
     symbol <- lift (py_str symbol) ;;
     items <- gets symbol_combo_items ;;
     match combo_findText items symbol with
     | Some index => combo_setCurrentIndex E index
     | None => ret tt
     end
   else ret tt)%py w
  = match combo_findText (symbol_combo_items w) symbol with
    | Some index => combo_setCurrentIndex E index w
    | None => ret tt w
    end.
Proof.
  destruct (settings_of_fields x y width height theme symbol)
    as (_ & _ & _ & Hhas & _ & Hget).
  rewrite Hhas, bind_lift_ok, Hget, bind_lift_ok. cbn [py_str].
  rewrite bind_lift_ok, bind_gets.
  destruct (combo_findText (symbol_combo_items w) symbol); reflexivity.
Qed.

(** What [load_window_settings] does with settings that have the three
    keys, after it got them. *)
Lemma load_settings_of (x y width height : Q) (theme : pyval) (symbol : string) (w : window) :
  let dark := py_eqb theme (PyStr "dark") in
  let name := if dark then "dark" else "light" in
  chart_set_theme E (clock w) name = Ok tt ->
  let settings := settings_of x y width height theme symbol in
  let w1 := tick (set_dark_style dark
                    (set_current_theme theme (set_geometry (x, y, width, height) w))) in
  let r := match combo_findText (symbol_combo_items w) symbol with
           | Some index => combo_setCurrentIndex E index w1
           | None => ret tt w1
           end in
  (has_geometry <- lift (py_contains "window_geometry" settings) ;;
   (if has_geometry then
      geo <- lift (py_getitem settings "window_geometry") ;;
      x <- lift (py_getitem geo "x") ;;
      y <- lift (py_getitem geo "y") ;;
      width <- lift (py_getitem geo "width") ;;
      height <- lift (py_getitem geo "height") ;;
      x <- lift (py_number x) ;;
      y <- lift (py_number y) ;;
      width <- lift (py_number width) ;;
      height <- lift (py_number height) ;;
      modify (set_geometry (x, y, width, height))
    else ret tt) ;;
   has_theme <- lift (py_contains "theme" settings) ;;
   (if has_theme then
      theme <- lift (py_getitem settings "theme") ;;
      modify (set_current_theme theme) ;;
      apply_theme E
    else ret tt) ;;
   has_symbol <- lift (py_contains "symbol" settings) ;;
   if has_symbol then
     symbol <- lift (py_getitem settings "symbol") ;;
     symbol <- lift (py_str symbol) ;;
     items <- gets symbol_combo_items ;;
     match combo_findText items symbol with
     | Some index => combo_setCurrentIndex E index
     | None => ret tt
     end
   else ret tt)%py w
  = mkResult (ChartSetTheme name :: events r) (out r) (st r).
Proof.
  cbv zeta. intros Hchart.
  destruct (settings_of_fields x y width height theme symbol)
    as (_ & Hhas1 & Hhas2 & _).
  rewrite Hhas1, bind_lift_ok.
  rewrite (bind_silent _ _ w _ tt (settings_of_geometry x y width height theme symbol w)).
  rewrite Hhas2, bind_lift_ok.
  rewrite bind_run, load_theme_part. cbv zeta.
  assert (Hclock : clock (set_geometry (x, y, width, height) w) = clock w) by reflexivity.
  rewrite Hclock, Hchart. cbn [out events st app].
  rewrite load_symbol_part. reflexivity.
Qed.

(** Loading the settings of a window [s]: the geometry and the theme are
    those of [s], and what is left is the selection of the symbol. *)
Lemma load_window_settings_run (s w : window) :
  let dark := py_eqb (current_theme s) (PyStr "dark") in
  let name := if dark then "dark" else "light" in
  config_load_window_settings E (clock w) = Ok (window_settings s) ->
  chart_set_theme E (S (clock w)) name = Ok tt ->
  let w1 := tick (set_dark_style dark
                    (set_current_theme (current_theme s)
                       (set_geometry (geometry s) (tick w)))) in
  let r := match combo_findText (symbol_combo_items w) (symbol_combo_text s) with
           | Some index => combo_setCurrentIndex E index w1
           | None => ret tt w1
           end in
  load_window_settings E w
  = mkResult (LoadWindowSettings :: ChartSetTheme name :: events r) (out r) (st r).
Proof.
  cbv zeta. intros Hload Hchart.
  destruct (window_settings_eq s) as (x & y & width & height & Hgeometry & Hsettings).
  rewrite Hsettings in Hload. rewrite Hgeometry.
  destruct (settings_of_fields x y width height (current_theme s) (symbol_combo_text s))
    as (Htruthy & _).
  unfold load_window_settings. rewrite bind_call, Hload, Htruthy.
  rewrite (load_settings_of x y width height (current_theme s) (symbol_combo_text s)
             (tick w) Hchart).
  reflexivity.
Qed.

(** X23.  What [save_window_settings] hands to the configuration is what
    [load_window_settings] reads.  When the configuration gives back the
    settings saved from a window [s], loading them restores the geometry
    and the theme of [s], with the style sheet of that theme.  The symbol
    of [s] is selected when the box lists it; unless the box shows that
    symbol already, this changes the text of the box, so that
    [on_symbol_selected] runs: it has the stored settings replaced by the
    symbol alone and raises.  When the box does not list the symbol, or
    shows it already, the method returns and the text stays. *)
Theorem saved_settings_are_restored (s w : window) :
  let dark := py_eqb (current_theme s) (PyStr "dark") in
  let saved := symbol_combo_text s in
  config_load_window_settings E (clock w) = Ok (window_settings s) ->
  chart_set_theme E (S (clock w)) (if dark then "dark" else "light") = Ok tt ->
  let r := load_window_settings E w in
  events (save_window_settings E s) = [SaveWindowSettings (window_settings s)]
  /\ geometry (st r) = geometry s
  /\ current_theme (st r) = current_theme s
  /\ dark_style (st r) = dark
  /\ symbol_combo_items (st r) = symbol_combo_items w
  /\ ((saved ∉ symbol_combo_items w \/ symbol_combo_text w = saved) ->
      out r = Ok tt
      /\ symbol_combo_text (st r) = symbol_combo_text w
      /\ current_symbol (st r) = current_symbol w
      /\ events r = [LoadWindowSettings; ChartSetTheme (if dark then "dark" else "light")])
  /\ (saved ∈ symbol_combo_items w -> symbol_combo_text w <> saved -> saved <> "" ->
      (exists e, out r = Raise e)
      /\ SaveWindowSettings (PyDict [("symbol", PyStr saved)]) ∈ events r
      /\ symbol_combo_text (st r) = saved
      /\ current_symbol (st r) = Some saved).
Proof.
  cbv zeta. intros Hload Hchart.
  rewrite (load_window_settings_run s w Hload Hchart). cbv zeta.
  set (dark := py_eqb (current_theme s) (PyStr "dark")) in *.
  set (w1 := tick (set_dark_style dark
                     (set_current_theme (current_theme s)
                        (set_geometry (geometry s) (tick w))))).
  split; [ reflexivity | ].
  assert (Hkeep : forall {X} (f : window -> X) index,
             (forall w', f (tick w') = f w') ->
             (forall t w', f (set_current_symbol t w') = f w') ->
             (forall t w', f (set_symbol_combo_text t w') = f w') ->
             (forall i w', f (set_symbol_combo_index i w') = f w') ->
             f (st (combo_setCurrentIndex E index w1)) = f w1).
  { intros X f index H1 H2 H3 H4. unfold combo_setCurrentIndex.
    rewrite bind_gets, bind_modify.
    rewrite (line_edit_setText_keeps E f _ _ H1 H2 H3). apply H4. }
  assert (Hframe : forall {X} (f : window -> X),
             (forall w', f (tick w') = f w') ->
             (forall t w', f (set_current_symbol t w') = f w') ->
             (forall t w', f (set_symbol_combo_text t w') = f w') ->
             (forall i w', f (set_symbol_combo_index i w') = f w') ->
             f (st match combo_findText (symbol_combo_items w) (symbol_combo_text s) with
                   | Some index => combo_setCurrentIndex E index w1
                   | None => ret tt w1
                   end) = f w1).
  { intros X f H1 H2 H3 H4.
    destruct (combo_findText (symbol_combo_items w) (symbol_combo_text s));
      [ apply Hkeep; assumption | reflexivity ]. }
  cbn [events out st].
  split; [ rewrite (Hframe _ geometry); reflexivity | ].
  split; [ rewrite (Hframe _ current_theme); reflexivity | ].
  split; [ rewrite (Hframe _ dark_style); reflexivity | ].
  split; [ rewrite (Hframe _ symbol_combo_items); reflexivity | ].
  split.
  - intros [ Hmissing | Hshown ].
    + rewrite (combo_findText_missing _ _ Hmissing). repeat split.
    + destruct (combo_findText (symbol_combo_items w) (symbol_combo_text s))
        as [ index | ] eqn:Hfind; [ | repeat split ].
      assert (Hrow : symbol_combo_items w1 !! index = Some (symbol_combo_text s)).
      { destruct (decide (symbol_combo_text s ∈ symbol_combo_items w)) as [ Hin | Hout ].
        - destruct (combo_findText_found _ _ Hin) as (index' & Hfind' & Hrow).
          rewrite Hfind in Hfind'. inversion Hfind'; subst index'. exact Hrow.
        - rewrite (combo_findText_missing _ _ Hout) in Hfind. discriminate. }
      rewrite (combo_setCurrentIndex_run index _ w1 Hrow), line_edit_setText_run.
      assert (Htext : symbol_combo_text (set_symbol_combo_index (Some index) w1)
                      = symbol_combo_text s) by exact Hshown.
      rewrite Htext, String.eqb_refl. repeat split.
  - intros Hin Hdiffers Hsaved.
    destruct (combo_findText_found _ _ Hin) as (index & Hfind & Hrow).
    rewrite Hfind.
    assert (Hrow1 : symbol_combo_items w1 !! index = Some (symbol_combo_text s))
      by exact Hrow.
    rewrite (combo_setCurrentIndex_run index _ w1 Hrow1), line_edit_setText_run.
    assert (Htext : symbol_combo_text (set_symbol_combo_index (Some index) w1)
                    = symbol_combo_text w) by reflexivity.
    rewrite Htext.
    destruct (String.eqb_spec (symbol_combo_text w) (symbol_combo_text s)) as [ H | _ ];
      [ contradiction | ].
    cbv zeta.
    destruct (on_symbol_selected_raises E (symbol_combo_text s)
                (set_symbol_combo_text (symbol_combo_text s)
                   (set_symbol_combo_index (Some index) w1)) Hsaved)
      as (e & evs & n & Hout & Hev & _ & Hst).
    rewrite Hout. cbn [out events st].
    split; [ eauto | ].
    split; [ rewrite Hev; right; right; left | ].
    rewrite Hst.
    split; [ rewrite (ticks_keep symbol_combo_text); reflexivity | ].
    rewrite (ticks_keep current_symbol); reflexivity.
Qed.

End Settings.

Lemma saved_settings_are_restored_witness :
  config_load_window_settings restoring_env (clock catalog_window)
  = Ok (window_settings light_window)
  /\ chart_set_theme restoring_env (S (clock catalog_window)) "light" = Ok tt
  /\ symbol_combo_text light_window ∈ symbol_combo_items catalog_window
  /\ symbol_combo_text catalog_window <> symbol_combo_text light_window
  /\ geometry (st (load_window_settings restoring_env catalog_window)) = geometry light_window
  /\ (exists e, out (load_window_settings restoring_env catalog_window) = Raise e)
  /\ out (load_window_settings restoring_env light_window) = Ok tt.
Proof.
  assert (H1 : config_load_window_settings restoring_env (clock catalog_window)
               = Ok (window_settings light_window)) by reflexivity.
  assert (H2 : chart_set_theme restoring_env (S (clock catalog_window)) "light" = Ok tt)
    by reflexivity.
  assert (H3 : symbol_combo_text light_window ∈ symbol_combo_items catalog_window).
  { right. left. }
  assert (H4 : symbol_combo_text catalog_window <> symbol_combo_text light_window)
    by discriminate.
  assert (H5 : symbol_combo_text light_window <> "") by discriminate.
  split; [ exact H1 | ]. split; [ exact H2 | ]. split; [ exact H3 | ]. split; [ exact H4 | ].
  destruct (saved_settings_are_restored restoring_env light_window catalog_window H1 H2)
    as (_ & Hgeometry & _ & _ & _ & _ & Hslot).
  split; [ exact Hgeometry | ].
  split; [ exact (proj1 (Hslot H3 H4 H5)) | ].
  destruct (saved_settings_are_restored restoring_env light_window light_window
              eq_refl eq_refl) as (_ & _ & _ & _ & _ & Hsame & _).
  exact (proj1 (Hsame (or_intror eq_refl))).
Defined.
